(** * Boiler Assistant v2.0: burn engine, fan shaping, sensor cache and
      parameter store, embedded from the C++ sources.

    Layout of the development:
    - [Machine]: the C scalar types the firmware uses (32-bit [unsigned long]
      with wrap-around, [int16_t], IEEE-754 binary64 [double]);
    - [BurnEngine]: [burnengine_compute] and its timers (BurnEngine.cpp);
    - [FanControl]: [fan_compute] and its memory (FanControl.cpp);
    - [Sensors]: [readMAX31855_F], [exhaust_readF_cached] and
      [smoothExhaustF] (Sensors.cpp);
    - [EEPROMStorage] and [UI]: [validateSettings], the [eeprom_save*]
      functions and the '#' branches of [ui_handleKey];
    - [Keypad]: [scanKeypad] and [getKey] (Keypad.cpp);
    - [UIKeys]: the whole of [ui_handleKey], with its screens and edit texts;
    - [Sketch]: [setup()] and [loop()] of the sketch;
    - the theorems: one per specification claim, then further properties of
      the code (X1 to X27). *)

From Stdlib Require Import ZArith Bool List Lia Ascii.
From Stdlib Require Import Floats.SpecFloat.
Import ListNotations.

Local Open Scope Z_scope.

(* ================================================================== *)
(** * Machine-level scalar types                                        *)
(* ================================================================== *)

Module Machine.

(** ** [unsigned long]: 32 bits, arithmetic modulo [2^32]. *)

Definition ULONG_MODULUS : Z := 4294967296.

(** Conversion of an integer value to [unsigned long]. *)
Definition to_ulong (z : Z) : Z := z mod ULONG_MODULUS.

Definition ulong_sub (a b : Z) : Z := (a - b) mod ULONG_MODULUS.
Definition ulong_mul (a b : Z) : Z := (a * b) mod ULONG_MODULUS.

(** ** [int16_t] and [uint8_t]. *)

Definition to_int16 (z : Z) : Z := (z + 32768) mod 65536 - 32768.
Definition to_uint8 (z : Z) : Z := z mod 256.

Definition int16_range (z : Z) : Prop := -32768 <= z <= 32767.

(** ** [int]: 32 bits on the target.  [int] values are kept as unbounded
    integers: the quantities computed in [int] here (percentages, their small
    multiples, differences of [int16_t] values) stay far inside 32 bits.  The
    bounds are used by the double-to-int conversion. *)

Definition INT_MIN : Z := -2147483648.
Definition INT_MAX : Z := 2147483647.

(** ** Arduino [min] and [constrain] macros on [int]:
    [min(a,b) = ((a)<(b)?(a):(b))],
    [constrain(amt,low,high) = ((amt)<(low)?(low):((amt)>(high)?(high):(amt)))]. *)

Definition min_ (a b : Z) : Z := if a <? b then a else b.

Definition constrain (amt low high : Z) : Z :=
  if amt <? low then low else if amt >? high then high else amt.

(** ** [double]: IEEE-754 binary64, round to nearest even. *)

Definition double : Type := spec_float.

Definition prec : Z := 53.
Definition emax : Z := 1024.

Definition NAN : double := S754_nan.

Definition isnan (x : double) : bool :=
  match x with S754_nan => true | _ => false end.

(** Integer to [double] conversion (exact below [2^53]). *)
Definition d_of_int (z : Z) : double := binary_normalize prec emax z 0 false.

Definition d_add : double -> double -> double := SFadd prec emax.
Definition d_sub : double -> double -> double := SFsub prec emax.
Definition d_mul : double -> double -> double := SFmul prec emax.
Definition d_div : double -> double -> double := SFdiv prec emax.
Definition fabs : double -> double := SFabs.

(** Comparisons; every one of them is [false] on a NaN operand. *)
Definition d_lt (a b : double) : bool := SFltb a b.
Definition d_le (a b : double) : bool := SFleb a b.
Definition d_gt (a b : double) : bool := SFltb b a.
Definition d_ge (a b : double) : bool := SFleb b a.

(** [double] to [int] conversion: truncation toward zero.  Outside the
    range of [int] (and on NaN) the C conversion is undefined; the model
    saturates, and maps NaN to 0, as the target's soft-float routine does. *)
Definition d_to_int (x : double) : Z :=
  match x with
  | S754_zero _ => 0
  | S754_nan => 0
  | S754_infinity s => if s then INT_MIN else INT_MAX
  | S754_finite s m e =>
      let mag := match e with
                 | Zneg p => Z.quot (Zpos m) (Z.pow 2 (Zpos p))
                 | _ => Zpos m * Z.pow 2 e
                 end in
      let v := if s then - mag else mag in
      Z.max INT_MIN (Z.min INT_MAX v)
  end.

(** The literal 0.25 ([2^-2], exactly representable). *)
Definition d_quarter : double := S754_finite false 4503599627370496 (-54).

End Machine.

Import Machine.

(* ================================================================== *)
(** * SystemState.h: burn phases and the configuration globals          *)
(* ================================================================== *)

Inductive BurnState : Type :=
| BURN_RAMP
| BURN_HOLD
| BURN_IDLE
| BURN_COALBED
| BURN_BOOST
| BURN_SAFETY.

Definition BurnState_eqb (a b : BurnState) : bool :=
  match a, b with
  | BURN_RAMP, BURN_RAMP | BURN_HOLD, BURN_HOLD | BURN_IDLE, BURN_IDLE
  | BURN_COALBED, BURN_COALBED | BURN_BOOST, BURN_BOOST
  | BURN_SAFETY, BURN_SAFETY => true
  | _, _ => false
  end.

(** The [int16_t] tunables defined in the sketch and shared by every
    module through [extern] declarations. *)
Record Config : Type := mkConfig {
  exhaustSetpoint       : Z;
  boostTimeSeconds      : Z;
  deadbandF             : Z;
  clampMinPercent       : Z;
  clampMaxPercent       : Z;
  deadzoneFanMode       : Z;
  coalBedTimerMinutes   : Z;
  flueLowThreshold      : Z;
  flueRecoveryThreshold : Z
}.

(** The initial values of the globals in the sketch. *)
Definition default_config : Config :=
  {| exhaustSetpoint := 350; boostTimeSeconds := 30; deadbandF := 25;
     clampMinPercent := 10; clampMaxPercent := 100; deadzoneFanMode := 0;
     coalBedTimerMinutes := 30; flueLowThreshold := 250;
     flueRecoveryThreshold := 300 |}.

Definition set_flueRecoveryThreshold (v : Z) (c : Config) : Config :=
  {| exhaustSetpoint := exhaustSetpoint c;
     boostTimeSeconds := boostTimeSeconds c;
     deadbandF := deadbandF c;
     clampMinPercent := clampMinPercent c;
     clampMaxPercent := clampMaxPercent c;
     deadzoneFanMode := deadzoneFanMode c;
     coalBedTimerMinutes := coalBedTimerMinutes c;
     flueLowThreshold := flueLowThreshold c;
     flueRecoveryThreshold := v |}.

(* ================================================================== *)
(** * BurnEngine.cpp                                                    *)
(* ================================================================== *)

Module BurnEngine.

(** Level written to [PIN_DAMPER_RELAY]; the relay is active low:
    [HIGH] closes the damper, [LOW] opens it. *)
Inductive PinLevel : Type := HIGH | LOW.

Definition damper_closed (l : PinLevel) : bool :=
  match l with HIGH => true | LOW => false end.
Definition damper_open (l : PinLevel) : bool := negb (damper_closed l).

(** The engine's globals: the phase, the boost window, the three
    stability timers, and the last level written to the damper relay. *)
Record Engine : Type := mkEngine {
  burnState          : BurnState;
  boostActive        : bool;
  boostStartMs       : Z;
  coalbedTimerActive : bool;
  coalbedStartMs     : Z;
  holdTimerActive    : bool;
  holdStartMs        : Z;
  rampTimerActive    : bool;
  rampStartMs        : Z;
  damperRelay        : PinLevel
}.

Definition HOLD_STABILITY_MS : Z := 5000.
Definition RAMP_STABILITY_MS : Z := 3000.

(** Field updates (assignments to one global). *)
Definition set_burnState (v : BurnState) (g : Engine) : Engine :=
  mkEngine v (boostActive g) (boostStartMs g) (coalbedTimerActive g)
           (coalbedStartMs g) (holdTimerActive g) (holdStartMs g)
           (rampTimerActive g) (rampStartMs g) (damperRelay g).
Definition set_boostActive (v : bool) (g : Engine) : Engine :=
  mkEngine (burnState g) v (boostStartMs g) (coalbedTimerActive g)
           (coalbedStartMs g) (holdTimerActive g) (holdStartMs g)
           (rampTimerActive g) (rampStartMs g) (damperRelay g).
Definition set_boostStartMs (v : Z) (g : Engine) : Engine :=
  mkEngine (burnState g) (boostActive g) v (coalbedTimerActive g)
           (coalbedStartMs g) (holdTimerActive g) (holdStartMs g)
           (rampTimerActive g) (rampStartMs g) (damperRelay g).
Definition set_coalbedTimerActive (v : bool) (g : Engine) : Engine :=
  mkEngine (burnState g) (boostActive g) (boostStartMs g) v
           (coalbedStartMs g) (holdTimerActive g) (holdStartMs g)
           (rampTimerActive g) (rampStartMs g) (damperRelay g).
Definition set_coalbedStartMs (v : Z) (g : Engine) : Engine :=
  mkEngine (burnState g) (boostActive g) (boostStartMs g)
           (coalbedTimerActive g) v (holdTimerActive g) (holdStartMs g)
           (rampTimerActive g) (rampStartMs g) (damperRelay g).
Definition set_holdTimerActive (v : bool) (g : Engine) : Engine :=
  mkEngine (burnState g) (boostActive g) (boostStartMs g)
           (coalbedTimerActive g) (coalbedStartMs g) v (holdStartMs g)
           (rampTimerActive g) (rampStartMs g) (damperRelay g).
Definition set_holdStartMs (v : Z) (g : Engine) : Engine :=
  mkEngine (burnState g) (boostActive g) (boostStartMs g)
           (coalbedTimerActive g) (coalbedStartMs g) (holdTimerActive g) v
           (rampTimerActive g) (rampStartMs g) (damperRelay g).
Definition set_rampTimerActive (v : bool) (g : Engine) : Engine :=
  mkEngine (burnState g) (boostActive g) (boostStartMs g)
           (coalbedTimerActive g) (coalbedStartMs g) (holdTimerActive g)
           (holdStartMs g) v (rampStartMs g) (damperRelay g).
Definition set_rampStartMs (v : Z) (g : Engine) : Engine :=
  mkEngine (burnState g) (boostActive g) (boostStartMs g)
           (coalbedTimerActive g) (coalbedStartMs g) (holdTimerActive g)
           (holdStartMs g) (rampTimerActive g) v (damperRelay g).
Definition digitalWrite_damper (v : PinLevel) (g : Engine) : Engine :=
  mkEngine (burnState g) (boostActive g) (boostStartMs g)
           (coalbedTimerActive g) (coalbedStartMs g) (holdTimerActive g)
           (holdStartMs g) (rampTimerActive g) (rampStartMs g) v.

(** [burnengine_init()], with [millis()] passed as [now]. *)
Definition burnengine_init (now : Z) (g : Engine) : Engine :=
  mkEngine BURN_BOOST true now false (coalbedStartMs g) false (holdStartMs g)
           false (rampStartMs g) HIGH.

(** [burnengine_startBoost()]. *)
Definition burnengine_startBoost (now : Z) (g : Engine) : Engine :=
  match burnState g with
  | BURN_SAFETY => g
  | _ => set_burnState BURN_BOOST (set_boostStartMs now (set_boostActive true g))
  end.

(** ** The sections of [burnengine_compute], in source order. *)

(** SAFETY OVERRIDE: taken when [burnState == BURN_SAFETY]; returns 0. *)
Definition safety_override (g : Engine) : Engine :=
  digitalWrite_damper HIGH
    (set_rampTimerActive false
      (set_holdTimerActive false
        (set_coalbedTimerActive false
          (set_boostActive false g)))).

(** [(unsigned long)boostTimeSeconds * 1000UL]. *)
Definition boost_duration_ms (cfg : Config) : Z :=
  ulong_mul (to_ulong (boostTimeSeconds cfg)) 1000.

(** BOOST MODE: [inl] is the early [return 100], [inr] falls through. *)
Definition boost_mode (cfg : Config) (now : Z) (g : Engine) : Engine + Engine :=
  if boostActive g then
    if ulong_sub now (boostStartMs g) <? boost_duration_ms cfg then
      inl (digitalWrite_damper LOW (set_burnState BURN_BOOST g))
    else
      inr (set_burnState BURN_RAMP (set_boostActive false g))
  else inr g.

(** [(unsigned long)coalBedTimerMinutes * 60UL * 1000UL]. *)
Definition coalbed_required_ms (cfg : Config) : Z :=
  ulong_mul (ulong_mul (to_ulong (coalBedTimerMinutes cfg)) 60) 1000.

(** COALBED ENTRY LOGIC. *)
Definition coalbed_entry (cfg : Config) (now : Z) (smoothExh : double)
           (g : Engine) : Engine :=
  if d_lt smoothExh (d_of_int (flueLowThreshold cfg)) then
    let g1 := if negb (coalbedTimerActive g)
              then set_coalbedStartMs now (set_coalbedTimerActive true g)
              else g in
    let requiredMs := coalbed_required_ms cfg in
    if coalbedTimerActive g1
       && (ulong_sub now (coalbedStartMs g1) >=? requiredMs)
    then set_rampTimerActive false
           (set_holdTimerActive false
             (set_coalbedTimerActive false
               (set_burnState BURN_COALBED g1)))
    else g1
  else set_coalbedTimerActive false g.

(** NORMAL STATE MACHINE: the [switch (burnState)]. *)
Definition state_machine (cfg : Config) (now : Z) (smoothExh : double)
           (g : Engine) : Engine :=
  match burnState g with
  | BURN_RAMP =>
      let inHoldBand :=
        d_ge smoothExh (d_of_int (exhaustSetpoint cfg - deadbandF cfg)) in
      if inHoldBand then
        let g1 := if negb (holdTimerActive g)
                  then set_holdStartMs now (set_holdTimerActive true g)
                  else g in
        if ulong_sub now (holdStartMs g1) >=? HOLD_STABILITY_MS
        then set_holdTimerActive false (set_burnState BURN_HOLD g1)
        else g1
      else set_holdTimerActive false g
  | BURN_HOLD =>
      let belowRampBand :=
        d_lt smoothExh (d_of_int (exhaustSetpoint cfg - deadbandF cfg * 2)) in
      if belowRampBand then
        let g1 := if negb (rampTimerActive g)
                  then set_rampStartMs now (set_rampTimerActive true g)
                  else g in
        if ulong_sub now (rampStartMs g1) >=? RAMP_STABILITY_MS
        then set_holdTimerActive false
               (set_rampTimerActive false (set_burnState BURN_RAMP g1))
        else g1
      else set_rampTimerActive false g
  | BURN_COALBED =>
      if d_gt smoothExh (d_of_int (exhaustSetpoint cfg - deadbandF cfg))
      then set_rampTimerActive false
             (set_holdTimerActive false (set_burnState BURN_RAMP g))
      else g
  | BURN_IDLE | BURN_BOOST | BURN_SAFETY => g
  end.

(** DAMPER CONTROL (active LOW). *)
Definition damper_control (g : Engine) : Engine :=
  match burnState g with
  | BURN_IDLE => digitalWrite_damper HIGH g
  | _ => digitalWrite_damper LOW g
  end.

(** HOLD FAN CURVE (with 80% soft cap). *)
Definition hold_error (cfg : Config) (smoothExh : double) : double :=
  d_sub (d_of_int (exhaustSetpoint cfg)) smoothExh.

Definition hold_fan_curve (cfg : Config) (smoothExh : double) : Z :=
  let error := hold_error cfg smoothExh in
  if d_le error (d_of_int 5) then clampMinPercent cfg
  else if d_le error (d_of_int 25) then
    let fan := d_to_int (d_add (d_of_int (clampMinPercent cfg))
                               (d_mul (d_sub error (d_of_int 5)) (d_of_int 2))) in
    let fan := min_ fan 80 in
    constrain fan (clampMinPercent cfg) (clampMaxPercent cfg)
  else
    let fan := d_to_int (d_add (d_of_int 50)
                               (d_mul (d_sub error (d_of_int 25)) (d_of_int 2))) in
    let fan := if d_le error (d_of_int 40) then min_ fan 80 else fan in
    constrain fan (clampMinPercent cfg) 100.

(** FAN DEMAND: the chain of [if (burnState == ...) return ...]. *)
Definition fan_demand (cfg : Config) (smoothExh : double) (g : Engine) : Z :=
  match burnState g with
  | BURN_BOOST => 100
  | BURN_RAMP => 100
  | BURN_HOLD => hold_fan_curve cfg smoothExh
  | BURN_COALBED => 0
  | BURN_IDLE => 0
  | BURN_SAFETY => 0
  end.

(** The part of [burnengine_compute] below the BOOST MODE block: coal-bed
    entry, the state machine, the damper and the fan demand. *)
Definition after_boost (cfg : Config) (now : Z) (smoothExh : double)
           (g1 : Engine) : Engine * Z :=
  let g2 := coalbed_entry cfg now smoothExh g1 in
  let g3 := state_machine cfg now smoothExh g2 in
  let g4 := damper_control g3 in
  (g4, fan_demand cfg smoothExh g4).

(** [burnengine_compute(smoothExh)], with [millis()] passed as [now]:
    the new globals and the returned raw fan demand. *)
Definition burnengine_compute (cfg : Config) (now : Z) (smoothExh : double)
           (g : Engine) : Engine * Z :=
  match burnState g with
  | BURN_SAFETY => (safety_override g, 0)
  | _ =>
      match boost_mode cfg now g with
      | inl g' => (g', 100)
      | inr g1 => after_boost cfg now smoothExh g1
      end
  end.

End BurnEngine.

Import BurnEngine.

(* ================================================================== *)
(** * FanControl.cpp                                                    *)
(* ================================================================== *)

Module FanControl.

(** Internal memory: [lastFan], [fanOn], [prevBurnState]. *)
Record FanMem : Type := mkFanMem {
  lastFan       : Z;
  fanOn         : bool;
  prevBurnState : BurnState
}.

(** The static initialisers. *)
Definition initial_mem : FanMem := mkFanMem 0 false BURN_IDLE.

(** [fancontrol_init()]. *)
Definition fancontrol_init (bs : BurnState) : FanMem := mkFanMem 0 false bs.

Definition resets_memory (bs : BurnState) : bool :=
  match bs with
  | BURN_BOOST | BURN_IDLE | BURN_SAFETY => true
  | _ => false
  end.

(** [fancontrol_handleStateChange()]; [bs] is the global [burnState]. *)
Definition fancontrol_handleStateChange (bs : BurnState) (m : FanMem) : FanMem :=
  if negb (BurnState_eqb bs (prevBurnState m)) then
    let m1 := if resets_memory bs
              then mkFanMem 0 false (prevBurnState m)
              else m in
    mkFanMem (lastFan m1) (fanOn m1) bs
  else m.

(** Step 1: [(lastFan * 3 + demand) / 4]; C division truncates. *)
Definition smooth (last demand : Z) : Z := Z.quot (last * 3 + demand) 4.

(** Step 2: clamp max. *)
Definition clamp_max (cfg : Config) (fan : Z) : Z :=
  if fan >? clampMaxPercent cfg then clampMaxPercent cfg else fan.

(** Step 3: deadzone fan ON, clamp mode. *)
Definition clamp_mode (cfg : Config) (fan : Z) : Z :=
  if fan <? clampMinPercent cfg then clampMinPercent cfg else fan.

(** Step 4: deadzone fan OFF, hysteresis mode: the new [fanOn]. *)
Definition hysteresis (cfg : Config) (on : bool) (fan : Z) : bool :=
  let onThreshold := clampMinPercent cfg + 10 in
  let offThreshold := clampMinPercent cfg in
  let on1 := if negb on && (fan >? onThreshold) then true else on in
  if on1 && (fan <? offThreshold) then false else on1.

(** [fan_compute(demand)]; [bs] is the global [burnState]. *)
Definition fan_compute (cfg : Config) (bs : BurnState) (demand : Z)
           (m : FanMem) : FanMem * Z :=
  let m := fancontrol_handleStateChange bs m in
  match bs with
  | BURN_SAFETY => (mkFanMem 0 false (prevBurnState m), 0)
  | BURN_BOOST => (mkFanMem 100 true (prevBurnState m), 100)
  | _ =>
      let fan := smooth (lastFan m) demand in
      let m := mkFanMem fan (fanOn m) (prevBurnState m) in
      let fan := clamp_max cfg fan in
      if deadzoneFanMode cfg =? 1 then
        (m, clamp_mode cfg fan)
      else
        let on := hysteresis cfg (fanOn m) fan in
        (mkFanMem (lastFan m) on (prevBurnState m), if on then fan else 0)
  end.

(** [fancontrol_apply(demand)]. *)
Definition fancontrol_apply := fan_compute.

End FanControl.

Import FanControl.

(** Steps 2 and 3 of [loop()]: the burn engine, then the fan shaping
    layer reading the phase the engine has just written. *)
Definition control_tick (cfg : Config) (now : Z) (smoothExh : double)
           (st : Engine * FanMem) : (Engine * FanMem) * (Z * Z) :=
  let '(g', rawFan) := burnengine_compute cfg now smoothExh (fst st) in
  let '(m', finalFan) := fancontrol_apply cfg (burnState g') rawFan (snd st) in
  ((g', m'), (rawFan, finalFan)).

(* ================================================================== *)
(** * Sensors.cpp                                                       *)
(* ================================================================== *)

Module Sensors.

(** [lastTCRead] and [lastTCValueF]; the cache starts as NAN. *)
Record SensorState : Type := mkSensorState {
  lastTCRead   : Z;
  lastTCValueF : double
}.

Definition initial_state : SensorState := mkSensorState 0 NAN.

(** The four bytes clocked out of the MAX31855 by [SPI.transfer(0)]. *)
Record SpiFrame : Type := mkSpiFrame { b0 : Z; b1 : Z; b2 : Z; b3 : Z }.

Definition raw_word (f : SpiFrame) : Z :=
  Z.lor (Z.lor (Z.lor (Z.shiftl (to_uint8 (b0 f)) 24)
                      (Z.shiftl (to_uint8 (b1 f)) 16))
               (Z.shiftl (to_uint8 (b2 f)) 8))
        (to_uint8 (b3 f)).

(** [raw & 0x00010000]. *)
Definition fault_bit (raw : Z) : bool := negb (Z.land raw 65536 =? 0).

(** The 14-bit signed thermocouple field, sign-extended to [int16_t]. *)
Definition tc_data (raw : Z) : Z :=
  let tcData := Z.land (Z.shiftr raw 18) 16383 in
  if negb (Z.land tcData 8192 =? 0)
  then to_int16 (Z.lor tcData 49152)
  else tcData.

(** [tempF = (tcData * 0.25 * 9.0 / 5.0) + 32.0]. *)
Definition temp_F (raw : Z) : double :=
  let tempC := d_mul (d_of_int (tc_data raw)) d_quarter in
  d_add (d_div (d_mul tempC (d_of_int 9)) (d_of_int 5)) (d_of_int 32).

(** [tempF < -100 || tempF > 2000]. *)
Definition impossible (tempF : double) : bool :=
  d_lt tempF (d_of_int (-100)) || d_gt tempF (d_of_int 2000).

(** [readMAX31855_F()] on the frame the chip delivers. *)
Definition readMAX31855_F (f : SpiFrame) : double :=
  let raw := raw_word f in
  if fault_bit raw then NAN
  else
    let tempF := temp_F raw in
    if impossible tempF then NAN else tempF.

(** [fabs(t - lastTCValueF) > 150.0]. *)
Definition spike (t last : double) : bool :=
  d_gt (fabs (d_sub t last)) (d_of_int 150).

(** [exhaust_readF_cached()]; [now] is [millis()] and [f] the frame a
    hardware read would return (read only when the cadence gate opens). *)
Definition exhaust_readF_cached (now : Z) (f : SpiFrame) (s : SensorState)
  : SensorState * double :=
  if ulong_sub now (lastTCRead s) >=? 500 then
    let s1 := mkSensorState now (lastTCValueF s) in
    let t := readMAX31855_F f in
    if negb (isnan t) then
      if negb (isnan (lastTCValueF s1)) && spike t (lastTCValueF s1)
      then (s1, lastTCValueF s1)
      else (mkSensorState (lastTCRead s1) t, t)
    else (s1, lastTCValueF s1)
  else (s, lastTCValueF s).

(** A run of calls, one per loop iteration. *)
Fixpoint run (calls : list (Z * SpiFrame)) (s : SensorState) : SensorState :=
  match calls with
  | [] => s
  | (now, f) :: rest => run rest (fst (exhaust_readF_cached now f s))
  end.

(** The literals [0.88] and [0.12] of [smoothExhaustF], rounded to
    binary64. *)
Definition d_0_88 : double := S754_finite false 7926335344172073 (-53).
Definition d_0_12 : double := S754_finite false 8646911284551352 (-56).

(** [smoothExhaustF(rawF)]: the new [smoothLast], which is also the value
    returned, from the argument and the stored [smoothLast]. *)
Definition smoothExhaustF (rawF : double) (smoothLast : double) : double :=
  if isnan rawF then smoothLast
  else if isnan smoothLast then rawF
  else d_add (d_mul smoothLast d_0_88) (d_mul rawF d_0_12).

(** [smoothLast] after a run of calls. *)
Definition run_smooth (raws : list double) (smoothLast : double) : double :=
  fold_left (fun s r => smoothExhaustF r s) raws smoothLast.

End Sensors.


(* ================================================================== *)
(** * EEPROMStorage.cpp                                                 *)
(* ================================================================== *)

Module EEPROMStorage.

(** The EEPROM as the cells the module addresses: nine 16-bit cells at the
    even addresses 0..16 and the version byte at 18. *)
Definition EEPROM : Type := Z -> Z.

Definition EEPROM_VERSION : Z := 1.

Definition ADDR_SETPOINT      : Z := 0.
Definition ADDR_BOOST         : Z := 2.
Definition ADDR_DEADBAND      : Z := 4.
Definition ADDR_CLAMP_MIN     : Z := 6.
Definition ADDR_CLAMP_MAX     : Z := 8.
Definition ADDR_DEADZONE      : Z := 10.
Definition ADDR_COALBED_TIMER : Z := 12.
Definition ADDR_FLUE_LOW      : Z := 14.
Definition ADDR_FLUE_REC      : Z := 16.
Definition ADDR_VERSION       : Z := 18.

Definition readInt16 (addr : Z) (rom : EEPROM) : Z := to_int16 (rom addr).
Definition writeInt16 (addr v : Z) (rom : EEPROM) : EEPROM :=
  fun a => if a =? addr then to_int16 v else rom a.
Definition readByte (addr : Z) (rom : EEPROM) : Z := to_uint8 (rom addr).
Definition writeByte (addr v : Z) (rom : EEPROM) : EEPROM :=
  fun a => if a =? addr then to_uint8 v else rom a.

(** Assignments to one configuration global. *)
Definition set_exhaustSetpoint (v : Z) (c : Config) : Config :=
  mkConfig v (boostTimeSeconds c) (deadbandF c) (clampMinPercent c)
           (clampMaxPercent c) (deadzoneFanMode c) (coalBedTimerMinutes c)
           (flueLowThreshold c) (flueRecoveryThreshold c).
Definition set_boostTimeSeconds (v : Z) (c : Config) : Config :=
  mkConfig (exhaustSetpoint c) v (deadbandF c) (clampMinPercent c)
           (clampMaxPercent c) (deadzoneFanMode c) (coalBedTimerMinutes c)
           (flueLowThreshold c) (flueRecoveryThreshold c).
Definition set_deadbandF (v : Z) (c : Config) : Config :=
  mkConfig (exhaustSetpoint c) (boostTimeSeconds c) v (clampMinPercent c)
           (clampMaxPercent c) (deadzoneFanMode c) (coalBedTimerMinutes c)
           (flueLowThreshold c) (flueRecoveryThreshold c).
Definition set_clampMinPercent (v : Z) (c : Config) : Config :=
  mkConfig (exhaustSetpoint c) (boostTimeSeconds c) (deadbandF c) v
           (clampMaxPercent c) (deadzoneFanMode c) (coalBedTimerMinutes c)
           (flueLowThreshold c) (flueRecoveryThreshold c).
Definition set_clampMaxPercent (v : Z) (c : Config) : Config :=
  mkConfig (exhaustSetpoint c) (boostTimeSeconds c) (deadbandF c)
           (clampMinPercent c) v (deadzoneFanMode c) (coalBedTimerMinutes c)
           (flueLowThreshold c) (flueRecoveryThreshold c).
Definition set_deadzoneFanMode (v : Z) (c : Config) : Config :=
  mkConfig (exhaustSetpoint c) (boostTimeSeconds c) (deadbandF c)
           (clampMinPercent c) (clampMaxPercent c) v (coalBedTimerMinutes c)
           (flueLowThreshold c) (flueRecoveryThreshold c).
Definition set_coalBedTimerMinutes (v : Z) (c : Config) : Config :=
  mkConfig (exhaustSetpoint c) (boostTimeSeconds c) (deadbandF c)
           (clampMinPercent c) (clampMaxPercent c) (deadzoneFanMode c) v
           (flueLowThreshold c) (flueRecoveryThreshold c).
Definition set_flueLowThreshold (v : Z) (c : Config) : Config :=
  mkConfig (exhaustSetpoint c) (boostTimeSeconds c) (deadbandF c)
           (clampMinPercent c) (clampMaxPercent c) (deadzoneFanMode c)
           (coalBedTimerMinutes c) v (flueRecoveryThreshold c).

(** [validateSettings()]: the eleven repairs, in source order. *)
Definition validateSettings (c : Config) : Config :=
  let sp := exhaustSetpoint c in
  let sp := if (sp <? 100) || (sp >? 900) then 350 else sp in
  let bt := boostTimeSeconds c in
  let bt := if (bt <? 0) || (bt >? 1800) then 30 else bt in
  let db := deadbandF c in
  let db := if (db <? 0) || (db >? 200) then 25 else db in
  let cmin := clampMinPercent c in
  let cmin := if (cmin <? 0) || (cmin >? 100) then 10 else cmin in
  let cmax := clampMaxPercent c in
  let cmax := if (cmax <? 0) || (cmax >? 100) then 100 else cmax in
  let cmin := if cmin >? cmax then cmax else cmin in
  let dz := deadzoneFanMode c in
  let dz := if negb (dz =? 0) && negb (dz =? 1) then 0 else dz in
  let cb := coalBedTimerMinutes c in
  let cb := if (cb <? 0) || (cb >? 720) then 30 else cb in
  let fl := flueLowThreshold c in
  let fl := if (fl <? 0) || (fl >? 900) then 250 else fl in
  let fr := flueRecoveryThreshold c in
  let fr := if (fr <? 0) || (fr >? 900) then to_int16 (fl + 50) else fr in
  let fr := if fr <? fl + 10 then to_int16 (fl + 50) else fr in
  mkConfig sp bt db cmin cmax dz cb fl fr.

(** [eeprom_saveAll()]. *)
Definition eeprom_saveAll (c : Config) (rom : EEPROM) : Config * EEPROM :=
  let c := validateSettings c in
  (c,
   writeByte ADDR_VERSION EEPROM_VERSION
    (writeInt16 ADDR_FLUE_REC (flueRecoveryThreshold c)
    (writeInt16 ADDR_FLUE_LOW (flueLowThreshold c)
    (writeInt16 ADDR_COALBED_TIMER (coalBedTimerMinutes c)
    (writeInt16 ADDR_DEADZONE (deadzoneFanMode c)
    (writeInt16 ADDR_CLAMP_MAX (clampMaxPercent c)
    (writeInt16 ADDR_CLAMP_MIN (clampMinPercent c)
    (writeInt16 ADDR_DEADBAND (deadbandF c)
    (writeInt16 ADDR_BOOST (boostTimeSeconds c)
    (writeInt16 ADDR_SETPOINT (exhaustSetpoint c) rom)))))))))).

(** [eeprom_init()]: factory values on a version mismatch, the stored
    cells otherwise; validated and written back either way. *)
Definition eeprom_init (rom : EEPROM) : Config * EEPROM :=
  let ver := readByte ADDR_VERSION rom in
  if negb (ver =? EEPROM_VERSION) then
    eeprom_saveAll (validateSettings (mkConfig 350 30 25 10 100 0 30 250 300)) rom
  else
    eeprom_saveAll
      (validateSettings
         (mkConfig (readInt16 ADDR_SETPOINT rom) (readInt16 ADDR_BOOST rom)
                   (readInt16 ADDR_DEADBAND rom) (readInt16 ADDR_CLAMP_MIN rom)
                   (readInt16 ADDR_CLAMP_MAX rom) (readInt16 ADDR_DEADZONE rom)
                   (readInt16 ADDR_COALBED_TIMER rom)
                   (readInt16 ADDR_FLUE_LOW rom) (readInt16 ADDR_FLUE_REC rom)))
      rom.

(** The individual saves: assign, validate, write the cell(s). *)
Definition eeprom_saveSetpoint (v : Z) (c : Config) (rom : EEPROM) :=
  let c := validateSettings (set_exhaustSetpoint (to_int16 v) c) in
  (c, writeInt16 ADDR_SETPOINT (exhaustSetpoint c) rom).

Definition eeprom_saveBoostTime (v : Z) (c : Config) (rom : EEPROM) :=
  let c := validateSettings (set_boostTimeSeconds (to_int16 v) c) in
  (c, writeInt16 ADDR_BOOST (boostTimeSeconds c) rom).

Definition eeprom_saveDeadband (v : Z) (c : Config) (rom : EEPROM) :=
  let c := validateSettings (set_deadbandF (to_int16 v) c) in
  (c, writeInt16 ADDR_DEADBAND (deadbandF c) rom).

Definition eeprom_saveClampMin (v : Z) (c : Config) (rom : EEPROM) :=
  let c := validateSettings (set_clampMinPercent (to_int16 v) c) in
  (c, writeInt16 ADDR_CLAMP_MAX (clampMaxPercent c)
        (writeInt16 ADDR_CLAMP_MIN (clampMinPercent c) rom)).

Definition eeprom_saveClampMax (v : Z) (c : Config) (rom : EEPROM) :=
  let c := validateSettings (set_clampMaxPercent (to_int16 v) c) in
  (c, writeInt16 ADDR_CLAMP_MAX (clampMaxPercent c)
        (writeInt16 ADDR_CLAMP_MIN (clampMinPercent c) rom)).

Definition eeprom_saveDeadzone (v : Z) (c : Config) (rom : EEPROM) :=
  let c := validateSettings
             (set_deadzoneFanMode (if v =? 0 then 0 else 1) c) in
  (c, writeInt16 ADDR_DEADZONE (deadzoneFanMode c) rom).

Definition eeprom_saveCoalBedTimer (v : Z) (c : Config) (rom : EEPROM) :=
  let c := validateSettings (set_coalBedTimerMinutes (to_int16 v) c) in
  (c, writeInt16 ADDR_COALBED_TIMER (coalBedTimerMinutes c) rom).

Definition eeprom_saveFlueLow (v : Z) (c : Config) (rom : EEPROM) :=
  let c := validateSettings (set_flueLowThreshold (to_int16 v) c) in
  (c, writeInt16 ADDR_FLUE_REC (flueRecoveryThreshold c)
        (writeInt16 ADDR_FLUE_LOW (flueLowThreshold c) rom)).

Definition eeprom_saveFlueRecovery (v : Z) (c : Config) (rom : EEPROM) :=
  let c := validateSettings (set_flueRecoveryThreshold (to_int16 v) c) in
  (c, writeInt16 ADDR_FLUE_REC (flueRecoveryThreshold c)
        (writeInt16 ADDR_FLUE_LOW (flueLowThreshold c) rom)).

End EEPROMStorage.

Import EEPROMStorage.

(* ================================================================== *)
(** * UI.cpp: the parameter-edit branches of [ui_handleKey]             *)
(* ================================================================== *)

Module UI.

(** What an edit command touches: the configuration globals, the EEPROM
    and (for the boost-time editor) the burn engine. *)
Record System : Type := mkSystem {
  sys_config : Config;
  sys_eeprom : EEPROM;
  sys_engine : Engine
}.

(** A completed edit: the '#' key in one of the editor screens, carrying
    [v], the [toInt()] of the non-empty text typed so far; or the '3' key
    of the clamp menu, which toggles the deadzone fan mode. *)
Inductive Edit : Type :=
| SaveSetpoint (v : Z)        (* UI_SETPOINT, '#' *)
| SaveBoostTime (v : Z)       (* UI_BOOSTTIME, '#' *)
| SaveDeadband (v : Z)        (* UI_DEADBAND, '#' *)
| ToggleDeadzone              (* UI_CLAMP_MENU, '3' *)
| SaveClampMin (v : Z)        (* UI_CLAMP_MIN, '#' *)
| SaveClampMax (v : Z)        (* UI_CLAMP_MAX, '#' *)
| SaveCoalBedTimer (v : Z)    (* UI_COALBED_TIMER, '#' *)
| SaveFlueLow (v : Z)         (* UI_FLUE_LOW, '#' *)
| SaveFlueRec (v : Z).        (* UI_FLUE_REC, '#' *)

(** [if (v < lo) v = lo; if (v > hi) v = hi;] *)
Definition limit (v lo hi : Z) : Z :=
  let v := if v <? lo then lo else v in
  if v >? hi then hi else v.

Definition with_config (s : System) (r : Config * EEPROM) : System :=
  mkSystem (fst r) (snd r) (sys_engine s).

(** The branch of [ui_handleKey] that completes edit [e]; [now] is the
    [millis()] read by [burnengine_startBoost]. *)
Definition ui_handleKey_edit (now : Z) (e : Edit) (s : System) : System :=
  let c := sys_config s in
  let rom := sys_eeprom s in
  match e with
  | SaveSetpoint v =>
      let v := limit v 200 900 in
      with_config s (eeprom_saveSetpoint v (set_exhaustSetpoint (to_int16 v) c) rom)
  | SaveBoostTime v =>
      let v := limit v 5 300 in
      let r := eeprom_saveBoostTime v (set_boostTimeSeconds (to_int16 v) c) rom in
      mkSystem (fst r) (snd r) (burnengine_startBoost now (sys_engine s))
  | SaveDeadband v =>
      let v := limit v 1 100 in
      with_config s (eeprom_saveDeadband v (set_deadbandF (to_int16 v) c) rom)
  | ToggleDeadzone =>
      let dz := if deadzoneFanMode c =? 0 then 1 else 0 in
      with_config s (eeprom_saveDeadzone dz (set_deadzoneFanMode dz c) rom)
  | SaveClampMin v =>
      let v := limit v 0 100 in
      with_config s (eeprom_saveClampMin v (set_clampMinPercent (to_int16 v) c) rom)
  | SaveClampMax v =>
      let v := limit v 0 100 in
      with_config s (eeprom_saveClampMax v (set_clampMaxPercent (to_int16 v) c) rom)
  | SaveCoalBedTimer v =>
      let v := limit v 5 60 in
      with_config s
        (eeprom_saveCoalBedTimer v (set_coalBedTimerMinutes (to_int16 v) c) rom)
  | SaveFlueLow v =>
      let v := limit v 200 500 in
      with_config s (eeprom_saveFlueLow v (set_flueLowThreshold (to_int16 v) c) rom)
  | SaveFlueRec v =>
      let v := limit v (flueLowThreshold c + 10) 600 in
      with_config s
        (eeprom_saveFlueRecovery v (set_flueRecoveryThreshold (to_int16 v) c) rom)
  end.

(** A session: [setup()] loads the configuration with [eeprom_init], then
    the operator issues edits, each stamped with its [millis()]. *)
Definition boot (rom : EEPROM) (g : Engine) : System :=
  let r := eeprom_init rom in mkSystem (fst r) (snd r) g.

Fixpoint run_edits (edits : list (Z * Edit)) (s : System) : System :=
  match edits with
  | [] => s
  | (now, e) :: rest => run_edits rest (ui_handleKey_edit now e s)
  end.

End UI.

Import Sensors UI.

(* ================================================================== *)
(** * Keypad.cpp                                                        *)
(* ================================================================== *)

Module Keypad.

(** The key mapping table. *)
Definition KEYS : list (list ascii) :=
  [ ["1"; "2"; "3"; "A"];
    ["4"; "5"; "6"; "B"];
    ["7"; "8"; "9"; "C"];
    ["*"; "0"; "#"; "D"] ]%char.

Definition KEYS_at (r c : nat) : ascii := nth c (nth r KEYS []) zero.

(** [scanKeypad()].  [low r c] tells whether, with row [r] driven low,
    column [c] reads LOW on both [digitalRead]s (the second one 80
    microseconds after the first).  The loops run over the rows and, within a
    row, over the columns; a later hit overwrites [found]. *)
Definition scanKeypad (low : nat -> nat -> bool) : ascii :=
  fold_left
    (fun found r =>
       fold_left (fun found c => if low r c then KEYS_at r c else found)
                 (seq 0 4) found)
    (seq 0 4) zero.

(** The statics of [getKey()]. *)
Record KeypadState : Type := mkKeypadState {
  lastKey    : ascii;
  stableKey  : ascii;
  lastChange : Z
}.

Definition initial_keypad : KeypadState := mkKeypadState zero zero 0.

(** [toupper] of the C library on the ASCII letters. *)
Definition toupper (k : ascii) : ascii :=
  let n := N_of_ascii k in
  if ((97 <=? n) && (n <=? 122))%N then ascii_of_N (n - 32) else k.

(** [getKey()]: [now] is [millis()] and [k] the result of [scanKeypad()]
    (called only once the first 4000 ms have passed). *)
Definition getKey (now : Z) (k : ascii) (s : KeypadState)
  : KeypadState * ascii :=
  if now <? 4000 then (mkKeypadState zero zero (lastChange s), zero)
  else if Ascii.eqb k zero then (mkKeypadState zero zero (lastChange s), zero)
  else if negb (Ascii.eqb k (stableKey s)) then
    (mkKeypadState (lastKey s) k now, zero)
  else if ulong_sub now (lastChange s) <? 40 then (s, zero)
  else if Ascii.eqb k (lastKey s) then (s, zero)
  else (mkKeypadState k (stableKey s) (lastChange s), toupper k).


Definition keypad_after (calls : list (Z * ascii)) (s : KeypadState)
  : KeypadState :=
  fold_left (fun s i => fst (getKey (fst i) (snd i) s)) calls s.

End Keypad.

Import Keypad.

(* ================================================================== *)
(** * UI.cpp: the whole of [ui_handleKey]                               *)
(* ================================================================== *)

Module UIKeys.

(** [enum UIState] of UI.h. *)
Inductive UIState : Type :=
| UI_HOME | UI_SETPOINT | UI_BOOSTTIME | UI_SYSTEM | UI_DEADBAND
| UI_CLAMP_MENU | UI_CLAMP_MIN | UI_CLAMP_MAX
| UI_COALBED_TIMER | UI_FLUE_LOW | UI_FLUE_REC.

(** The UI globals of the sketch: the screen, the redraw flag and the
    eight edit texts (Arduino [String]s, here the list of their characters). *)
Record Screen : Type := mkScreen {
  uiState               : UIState;
  uiNeedRedraw          : bool;
  newSetpointValue      : list ascii;
  boostTimeEditValue    : list ascii;
  deadbandEditValue     : list ascii;
  clampMinEditValue     : list ascii;
  clampMaxEditValue     : list ascii;
  coalBedTimerEditValue : list ascii;
  flueLowEditValue      : list ascii;
  flueRecEditValue      : list ascii
}.

(** The initialisers of the sketch. *)
Definition initial_screen : Screen :=
  mkScreen UI_HOME true [] [] [] [] [] [] [] [].

Definition set_uiState (v : UIState) (u : Screen) : Screen :=
  mkScreen v (uiNeedRedraw u) (newSetpointValue u) (boostTimeEditValue u)
           (deadbandEditValue u) (clampMinEditValue u) (clampMaxEditValue u)
           (coalBedTimerEditValue u) (flueLowEditValue u) (flueRecEditValue u).
Definition set_uiNeedRedraw (v : bool) (u : Screen) : Screen :=
  mkScreen (uiState u) v (newSetpointValue u) (boostTimeEditValue u)
           (deadbandEditValue u) (clampMinEditValue u) (clampMaxEditValue u)
           (coalBedTimerEditValue u) (flueLowEditValue u) (flueRecEditValue u).
Definition set_newSetpointValue (v : list ascii) (u : Screen) : Screen :=
  mkScreen (uiState u) (uiNeedRedraw u) v (boostTimeEditValue u)
           (deadbandEditValue u) (clampMinEditValue u) (clampMaxEditValue u)
           (coalBedTimerEditValue u) (flueLowEditValue u) (flueRecEditValue u).
Definition set_boostTimeEditValue (v : list ascii) (u : Screen) : Screen :=
  mkScreen (uiState u) (uiNeedRedraw u) (newSetpointValue u) v
           (deadbandEditValue u) (clampMinEditValue u) (clampMaxEditValue u)
           (coalBedTimerEditValue u) (flueLowEditValue u) (flueRecEditValue u).
Definition set_deadbandEditValue (v : list ascii) (u : Screen) : Screen :=
  mkScreen (uiState u) (uiNeedRedraw u) (newSetpointValue u)
           (boostTimeEditValue u) v (clampMinEditValue u) (clampMaxEditValue u)
           (coalBedTimerEditValue u) (flueLowEditValue u) (flueRecEditValue u).
Definition set_clampMinEditValue (v : list ascii) (u : Screen) : Screen :=
  mkScreen (uiState u) (uiNeedRedraw u) (newSetpointValue u)
           (boostTimeEditValue u) (deadbandEditValue u) v (clampMaxEditValue u)
           (coalBedTimerEditValue u) (flueLowEditValue u) (flueRecEditValue u).
Definition set_clampMaxEditValue (v : list ascii) (u : Screen) : Screen :=
  mkScreen (uiState u) (uiNeedRedraw u) (newSetpointValue u)
           (boostTimeEditValue u) (deadbandEditValue u) (clampMinEditValue u) v
           (coalBedTimerEditValue u) (flueLowEditValue u) (flueRecEditValue u).
Definition set_coalBedTimerEditValue (v : list ascii) (u : Screen) : Screen :=
  mkScreen (uiState u) (uiNeedRedraw u) (newSetpointValue u)
           (boostTimeEditValue u) (deadbandEditValue u) (clampMinEditValue u)
           (clampMaxEditValue u) v (flueLowEditValue u) (flueRecEditValue u).
Definition set_flueLowEditValue (v : list ascii) (u : Screen) : Screen :=
  mkScreen (uiState u) (uiNeedRedraw u) (newSetpointValue u)
           (boostTimeEditValue u) (deadbandEditValue u) (clampMinEditValue u)
           (clampMaxEditValue u) (coalBedTimerEditValue u) v (flueRecEditValue u).
Definition set_flueRecEditValue (v : list ascii) (u : Screen) : Screen :=
  mkScreen (uiState u) (uiNeedRedraw u) (newSetpointValue u)
           (boostTimeEditValue u) (deadbandEditValue u) (clampMinEditValue u)
           (clampMaxEditValue u) (coalBedTimerEditValue u) (flueLowEditValue u) v.

(** [k >= '0' && k <= '9']. *)
Definition is_digit (k : ascii) : bool :=
  ((48 <=? N_of_ascii k) && (N_of_ascii k <=? 57))%N.

Definition digit_value (k : ascii) : Z := Z.of_N (N_of_ascii k) - 48.

(** [String::toInt()] on a text of decimal digits (the only characters
    the editors append): its decimal value.  The result is a [long]; the
    model is exact for texts of at most nine digits. *)
Definition toInt (text : list ascii) : Z :=
  fold_left (fun acc k => acc * 10 + digit_value k) text 0.

Definition is_empty (text : list ascii) : bool :=
  match text with [] => true | _ => false end.

(** [ui_handleKey(k, ...)]; [now] is the [millis()] read by
    [burnengine_init] and [burnengine_startBoost].  The two display
    arguments are not used by the function. *)
Definition ui_handleKey (now : Z) (k : ascii) (u : Screen) (s : System)
  : Screen * System :=
  if Ascii.eqb k zero then (u, s) else
  let u := set_uiNeedRedraw true u in
  if BurnState_eqb (burnState (sys_engine s)) BURN_COALBED
     && Ascii.eqb k "*" then
    (set_uiState UI_HOME u,
     mkSystem (sys_config s) (sys_eeprom s)
              (burnengine_init now (sys_engine s)))
  else
  match uiState u with
  | UI_HOME =>
      if Ascii.eqb k "A" then
        (set_newSetpointValue [] (set_uiState UI_SETPOINT u), s)
      else if Ascii.eqb k "B" then
        (set_boostTimeEditValue [] (set_uiState UI_BOOSTTIME u), s)
      else if Ascii.eqb k "C" then (set_uiState UI_SYSTEM u, s)
      else (u, s)
  | UI_SETPOINT =>
      if is_digit k then
        (set_newSetpointValue (newSetpointValue u ++ [k]) u, s)
      else if Ascii.eqb k "#" then
        if is_empty (newSetpointValue u) then (u, s)
        else
          (set_uiState UI_HOME (set_newSetpointValue [] u),
           ui_handleKey_edit now (SaveSetpoint (toInt (newSetpointValue u))) s)
      else if Ascii.eqb k "*" then
        (set_uiState UI_HOME (set_newSetpointValue [] u), s)
      else (u, s)
  | UI_BOOSTTIME =>
      if is_digit k then
        (set_boostTimeEditValue (boostTimeEditValue u ++ [k]) u, s)
      else if Ascii.eqb k "#" then
        if is_empty (boostTimeEditValue u) then (u, s)
        else
          (set_uiState UI_HOME (set_boostTimeEditValue [] u),
           ui_handleKey_edit now
             (SaveBoostTime (toInt (boostTimeEditValue u))) s)
      else if Ascii.eqb k "*" then
        (set_uiState UI_HOME (set_boostTimeEditValue [] u), s)
      else (u, s)
  | UI_SYSTEM =>
      if Ascii.eqb k "1" then (set_uiState UI_DEADBAND u, s)
      else if Ascii.eqb k "2" then (set_uiState UI_CLAMP_MENU u, s)
      else if Ascii.eqb k "3" then
        (set_uiState UI_COALBED_TIMER (set_coalBedTimerEditValue [] u), s)
      else if Ascii.eqb k "*" then (set_uiState UI_HOME u, s)
      else (u, s)
  | UI_DEADBAND =>
      if is_digit k then
        (set_deadbandEditValue (deadbandEditValue u ++ [k]) u, s)
      else if Ascii.eqb k "#" then
        if is_empty (deadbandEditValue u) then (u, s)
        else
          (set_uiState UI_SYSTEM (set_deadbandEditValue [] u),
           ui_handleKey_edit now (SaveDeadband (toInt (deadbandEditValue u))) s)
      else if Ascii.eqb k "*" then
        (set_uiState UI_SYSTEM (set_deadbandEditValue [] u), s)
      else (u, s)
  | UI_CLAMP_MENU =>
      if Ascii.eqb k "1" then
        (set_uiState UI_CLAMP_MIN (set_clampMinEditValue [] u), s)
      else if Ascii.eqb k "2" then
        (set_uiState UI_CLAMP_MAX (set_clampMaxEditValue [] u), s)
      else if Ascii.eqb k "3" then (u, ui_handleKey_edit now ToggleDeadzone s)
      else if Ascii.eqb k "*" then (set_uiState UI_SYSTEM u, s)
      else (u, s)
  | UI_CLAMP_MIN =>
      if is_digit k then
        (set_clampMinEditValue (clampMinEditValue u ++ [k]) u, s)
      else if Ascii.eqb k "#" then
        if is_empty (clampMinEditValue u) then (u, s)
        else
          (set_uiState UI_CLAMP_MENU (set_clampMinEditValue [] u),
           ui_handleKey_edit now (SaveClampMin (toInt (clampMinEditValue u))) s)
      else if Ascii.eqb k "*" then
        (set_uiState UI_CLAMP_MENU (set_clampMinEditValue [] u), s)
      else (u, s)
  | UI_CLAMP_MAX =>
      if is_digit k then
        (set_clampMaxEditValue (clampMaxEditValue u ++ [k]) u, s)
      else if Ascii.eqb k "#" then
        if is_empty (clampMaxEditValue u) then (u, s)
        else
          (set_uiState UI_CLAMP_MENU (set_clampMaxEditValue [] u),
           ui_handleKey_edit now (SaveClampMax (toInt (clampMaxEditValue u))) s)
      else if Ascii.eqb k "*" then
        (set_uiState UI_CLAMP_MENU (set_clampMaxEditValue [] u), s)
      else (u, s)
  | UI_COALBED_TIMER =>
      if is_digit k then
        (set_coalBedTimerEditValue (coalBedTimerEditValue u ++ [k]) u, s)
      else if Ascii.eqb k "#" then
        if is_empty (coalBedTimerEditValue u) then (u, s)
        else
          (set_uiState UI_FLUE_LOW
             (set_flueLowEditValue [] (set_coalBedTimerEditValue [] u)),
           ui_handleKey_edit now
             (SaveCoalBedTimer (toInt (coalBedTimerEditValue u))) s)
      else if Ascii.eqb k "*" then
        (set_uiState UI_SYSTEM (set_coalBedTimerEditValue [] u), s)
      else (u, s)
  | UI_FLUE_LOW =>
      if is_digit k then
        (set_flueLowEditValue (flueLowEditValue u ++ [k]) u, s)
      else if Ascii.eqb k "#" then
        if is_empty (flueLowEditValue u) then (u, s)
        else
          (set_uiState UI_FLUE_REC
             (set_flueRecEditValue [] (set_flueLowEditValue [] u)),
           ui_handleKey_edit now (SaveFlueLow (toInt (flueLowEditValue u))) s)
      else if Ascii.eqb k "*" then
        (set_uiState UI_SYSTEM (set_flueLowEditValue [] u), s)
      else (u, s)
  | UI_FLUE_REC =>
      if is_digit k then
        (set_flueRecEditValue (flueRecEditValue u ++ [k]) u, s)
      else if Ascii.eqb k "#" then
        if is_empty (flueRecEditValue u) then (u, s)
        else
          (set_uiState UI_HOME (set_flueRecEditValue [] u),
           ui_handleKey_edit now (SaveFlueRec (toInt (flueRecEditValue u))) s)
      else if Ascii.eqb k "*" then
        (set_uiState UI_SYSTEM (set_flueRecEditValue [] u), s)
      else (u, s)
  end.

(** A run of key presses, each with the [millis()] of its call. *)
Definition press (st : Screen * System) (i : Z * ascii) : Screen * System :=
  ui_handleKey (fst i) (snd i) (fst st) (snd st).

Definition run_presses (keys : list (Z * ascii)) (st : Screen * System)
  : Screen * System :=
  fold_left press keys st.

End UIKeys.

Import UIKeys.

(* ================================================================== *)
(** * Runs and observations used in the statements                      *)
(* ================================================================== *)

(** What one control tick shows to the rest of the system. *)
Record Outputs : Type := mkOutputs {
  out_phase    : BurnState;
  out_rawFan   : Z;
  out_damper   : PinLevel;
  out_finalFan : Z
}.

Definition observe (r : (Engine * FanMem) * (Z * Z)) : Outputs :=
  mkOutputs (burnState (fst (fst r))) (fst (snd r))
            (damperRelay (fst (fst r))) (snd (snd r)).

(** The outputs of a run of control ticks; each input is [millis()] and the
    smoothed exhaust temperature of that loop iteration. *)
Fixpoint run_ticks (cfg : Config) (inputs : list (Z * double))
         (st : Engine * FanMem) : list Outputs :=
  match inputs with
  | [] => []
  | (now, smoothExh) :: rest =>
      let r := control_tick cfg now smoothExh st in
      observe r :: run_ticks cfg rest (fst r)
  end.

(** The engine after a run of [burnengine_compute] calls. *)
Definition engine_step (cfg : Config) (g : Engine) (i : Z * double) : Engine :=
  fst (burnengine_compute cfg (fst i) (snd i) g).

Definition run_engine (cfg : Config) (inputs : list (Z * double))
           (g : Engine) : Engine :=
  fold_left (engine_step cfg) inputs g.

(** Two configurations that differ at most in [flueRecoveryThreshold]. *)
Definition agree_except_flueRecovery (c1 c2 : Config) : Prop :=
  exhaustSetpoint c1 = exhaustSetpoint c2 /\
  boostTimeSeconds c1 = boostTimeSeconds c2 /\
  deadbandF c1 = deadbandF c2 /\
  clampMinPercent c1 = clampMinPercent c2 /\
  clampMaxPercent c1 = clampMaxPercent c2 /\
  deadzoneFanMode c1 = deadzoneFanMode c2 /\
  coalBedTimerMinutes c1 = coalBedTimerMinutes c2 /\
  flueLowThreshold c1 = flueLowThreshold c2.

(** [smoothExh >= exhaustSetpoint - deadbandF], the RAMP-case test. *)
Definition inHoldBand (cfg : Config) (smoothExh : double) : bool :=
  d_ge smoothExh (d_of_int (exhaustSetpoint cfg - deadbandF cfg)).

(** [smoothExh > exhaustSetpoint - deadbandF], the COALBED exit test. *)
Definition aboveHoldBand (cfg : Config) (smoothExh : double) : bool :=
  d_gt smoothExh (d_of_int (exhaustSetpoint cfg - deadbandF cfg)).

(** [smoothExh < flueLowThreshold], the coal-bed entry test. *)
Definition belowFlueLow (cfg : Config) (smoothExh : double) : bool :=
  d_lt smoothExh (d_of_int (flueLowThreshold cfg)).

(** The instant the coal-bed entry timer counts from on this tick: its
    stored start when it is already running, [now] when it starts. *)
Definition coalbed_timer_start (now : Z) (g : Engine) : Z :=
  if coalbedTimerActive g then coalbedStartMs g else now.

(** The coal-bed entry fires on this tick. *)
Definition coalbed_fires (cfg : Config) (now : Z) (smoothExh : double)
           (g : Engine) : bool :=
  belowFlueLow cfg smoothExh
  && (ulong_sub now (coalbed_timer_start now g) >=? coalbed_required_ms cfg).

(** Likewise for the HOLD-stability timer of the RAMP case. *)
Definition hold_timer_start (now : Z) (g : Engine) : Z :=
  if holdTimerActive g then holdStartMs g else now.

(** The history of ticks ends with an unbroken run of in-band ticks whose
    first tick carries the timestamp [start]. *)
Definition hold_window (cfg : Config) (hist : list (Z * double)) (start : Z)
  : Prop :=
  exists pre t0 rest,
    hist = pre ++ (start, t0) :: rest /\
    Forall (fun i => inHoldBand cfg (snd i) = true) ((start, t0) :: rest).

(** A running HOLD timer is backed by such a run, under RAMP with the
    boost window closed. *)
Definition hold_timer_sound (cfg : Config) (hist : list (Z * double))
           (g : Engine) : Prop :=
  holdTimerActive g = true ->
  boostActive g = false /\ burnState g = BURN_RAMP /\
  hold_window cfg hist (holdStartMs g).

(** Likewise for the coal-bed entry timer: an unbroken run of ticks below
    the flue-low threshold, and a running timer backed by one. *)
Definition coalbed_window (cfg : Config) (hist : list (Z * double)) (start : Z)
  : Prop :=
  exists pre t0 rest,
    hist = pre ++ (start, t0) :: rest /\
    Forall (fun i => belowFlueLow cfg (snd i) = true) ((start, t0) :: rest).

Definition coalbed_timer_sound (cfg : Config) (hist : list (Z * double))
           (g : Engine) : Prop :=
  coalbedTimerActive g = true ->
  boostActive g = false /\ coalbed_window cfg hist (coalbedStartMs g).


(** The three rejection conditions of the sensor cache, for the frame a
    hardware read delivers: the chip's fault bit, a decoded temperature
    outside -100..2000 F, or a jump of more than 150 F from the cached value
    (when there is one). *)
Definition sample_rejected (f : SpiFrame) (s : SensorState) : bool :=
  let raw := raw_word f in
  fault_bit raw
  || impossible (temp_F raw)
  || (negb (isnan (lastTCValueF s)) && spike (temp_F raw) (lastTCValueF s)).

(** The two cross-field inequalities of the configuration. *)
Definition settings_consistent (c : Config) : Prop :=
  clampMinPercent c <= clampMaxPercent c /\
  flueLowThreshold c + 10 <= flueRecoveryThreshold c.

(** What [validateSettings] guarantees about the four fields involved. *)
Definition settings_validated (c : Config) : Prop :=
  0 <= clampMinPercent c <= clampMaxPercent c /\
  clampMaxPercent c <= 100 /\
  0 <= flueLowThreshold c <= 900 /\
  flueLowThreshold c + 10 <= flueRecoveryThreshold c /\
  (flueRecoveryThreshold c <= 900 \/
   flueRecoveryThreshold c = flueLowThreshold c + 50).

(** Integer ranges and the exhaustive checks run over them: on small
    integers the [double] operations of the HOLD curve are exact. *)
Definition Z_range (lo len : Z) : list Z :=
  map (fun k => lo + Z.of_nat k) (seq 0 (Z.to_nat len)).





(* ================================================================== *)
(** * BoilerAssistant_2_0_0.ino: [setup()] and [loop()]                 *)
(* ================================================================== *)

Module Sketch.

(** The globals and statics the loop works on. *)
Record Globals : Type := mkGlobals {
  sensor     : SensorState;   (* Sensors.cpp: lastTCRead, lastTCValueF *)
  smoothLast : double;        (* Sensors.cpp: smoothLast *)
  system     : System;        (* the settings, the EEPROM, the burn engine *)
  fan        : FanMem;        (* FanControl.cpp *)
  keypad     : KeypadState;   (* the statics of getKey *)
  lastKey    : ascii;         (* the sketch's own lastKey *)
  screen     : Screen         (* uiState, uiNeedRedraw, the edit texts *)
}.

(** What one iteration reads from outside: the frame the MAX31855 would
    deliver, the keypad matrix, and the [millis()] seen by each of the
    functions that read the clock. *)
Record LoopInput : Type := mkLoopInput {
  in_frame      : SpiFrame;
  in_low        : nat -> nat -> bool;
  now_sensor    : Z;
  now_engine    : Z;
  now_keypad    : Z;
  now_ui        : Z
}.

(** The initialisers of BurnEngine.cpp and of the sketch. *)
Definition initial_engine : Engine :=
  mkEngine BURN_RAMP false 0 false 0 false 0 false 0 HIGH.

(** [setup()]: [burnengine_init], [eeprom_init], [fancontrol_init]; the
    other initialisations touch hardware only. *)
Definition setup (now : Z) (rom : EEPROM) : Globals :=
  let g := burnengine_init now initial_engine in
  let r := eeprom_init rom in
  mkGlobals initial_state NAN (mkSystem (fst r) (snd r) g)
            (fancontrol_init (burnState g)) initial_keypad zero
            initial_screen.

(** Steps 1 to 3 of [loop()]: the sensor cache, the smoothing filter, the
    burn engine and the fan shaping layer. *)
Definition control_part (i : LoopInput) (w : Globals) : Globals * Outputs :=
  let r := exhaust_readF_cached (now_sensor i) (in_frame i) (sensor w) in
  let smoothExh := smoothExhaustF (snd r) (smoothLast w) in
  let s := system w in
  let t := control_tick (sys_config s) (now_engine i) smoothExh
                        (sys_engine s, fan w) in
  (mkGlobals (fst r) smoothExh
             (mkSystem (sys_config s) (sys_eeprom s) (fst (fst t)))
             (snd (fst t)) (keypad w) (lastKey w) (screen w),
   observe t).

(** Step 4 of [loop()]: the keypad. *)
Definition key_part (i : LoopInput) (w : Globals) : Globals :=
  let r := getKey (now_keypad i) (scanKeypad (in_low i)) (keypad w) in
  let key := snd r in
  if negb (Ascii.eqb key zero) then
    let h := if negb (Ascii.eqb key (lastKey w))
             then ui_handleKey (now_ui i) key (screen w) (system w)
             else (screen w, system w) in
    mkGlobals (sensor w) (smoothLast w) (snd h) (fan w) (fst r) key (fst h)
  else
    mkGlobals (sensor w) (smoothLast w) (system w) (fan w) (fst r) zero
              (screen w).

(** One iteration of [loop()] (the display is not modelled): the new
    globals and what the control part put out. *)
Definition loop (i : LoopInput) (w : Globals) : Globals * Outputs :=
  let c := control_part i w in
  (key_part i (fst c), snd c).

(** A run of iterations: the outputs, and the globals at the end. *)
Fixpoint run_loop (ins : list LoopInput) (w : Globals) : list Outputs :=
  match ins with
  | [] => []
  | i :: rest => snd (loop i w) :: run_loop rest (fst (loop i w))
  end.

Definition globals_after (ins : list LoopInput) (w : Globals) : Globals :=
  fold_left (fun w i => fst (loop i w)) ins w.

End Sketch.

(* ================================================================== *)
(** * Further vocabulary                                               *)
(* ================================================================== *)

(** [smoothExh < exhaustSetpoint - (deadbandF * 2)], the HOLD-case test. *)
Definition belowRampBand (cfg : Config) (smoothExh : double) : bool :=
  d_lt smoothExh (d_of_int (exhaustSetpoint cfg - deadbandF cfg * 2)).

(** The instant the RAMP-fallback timer of the HOLD case counts from. *)
Definition ramp_timer_start (now : Z) (g : Engine) : Z :=
  if rampTimerActive g then rampStartMs g else now.

(** The history ends with an unbroken run of ticks below the fallback
    threshold whose first tick carries the timestamp [start]; a running
    fallback timer is backed by such a run, under HOLD with the boost window
    closed. *)
Definition ramp_window (cfg : Config) (hist : list (Z * double)) (start : Z)
  : Prop :=
  exists pre t0 rest,
    hist = pre ++ (start, t0) :: rest /\
    Forall (fun i => belowRampBand cfg (snd i) = true) ((start, t0) :: rest).

Definition ramp_timer_sound (cfg : Config) (hist : list (Z * double))
           (g : Engine) : Prop :=
  rampTimerActive g = true ->
  boostActive g = false /\ burnState g = BURN_HOLD /\
  ramp_window cfg hist (rampStartMs g).

(** The operations of the program that write the burn engine's globals:
    [burnengine_compute] from [loop()], [burnengine_startBoost] from the
    boost-time editor and [burnengine_init] from [setup()] and from the
    coal-bed screen; each with the [millis()] it reads, and the compute with
    the configuration and temperature of its loop iteration. *)
Inductive EngineOp : Type :=
| OpCompute (cfg : Config) (now : Z) (smoothExh : double)
| OpStartBoost (now : Z)
| OpInit (now : Z).

Definition engine_op (g : Engine) (op : EngineOp) : Engine :=
  match op with
  | OpCompute cfg now smoothExh => fst (burnengine_compute cfg now smoothExh g)
  | OpStartBoost now => burnengine_startBoost now g
  | OpInit now => burnengine_init now g
  end.

Definition run_ops (ops : list EngineOp) (g : Engine) : Engine :=
  fold_left engine_op ops g.

(** The configurations [validateSettings] leaves alone: every field within
    the range the function tests, the clamps ordered, and the recovery
    threshold either within 0..900 and 10 above flue-low, or flue-low + 50. *)
Definition settings_fixed (c : Config) : Prop :=
  100 <= exhaustSetpoint c <= 900 /\
  0 <= boostTimeSeconds c <= 1800 /\
  0 <= deadbandF c <= 200 /\
  (0 <= clampMinPercent c <= clampMaxPercent c /\ clampMaxPercent c <= 100) /\
  (deadzoneFanMode c = 0 \/ deadzoneFanMode c = 1) /\
  0 <= coalBedTimerMinutes c <= 720 /\
  0 <= flueLowThreshold c <= 900 /\
  (flueLowThreshold c + 10 <= flueRecoveryThreshold c <= 900 \/
   flueRecoveryThreshold c = flueLowThreshold c + 50).

(** The EEPROM holds configuration [c]: the version byte is current and
    each of the nine cells reads back as the corresponding global. *)
Definition eeprom_mirrors (c : Config) (rom : EEPROM) : Prop :=
  readByte ADDR_VERSION rom = EEPROM_VERSION /\
  readInt16 ADDR_SETPOINT rom = exhaustSetpoint c /\
  readInt16 ADDR_BOOST rom = boostTimeSeconds c /\
  readInt16 ADDR_DEADBAND rom = deadbandF c /\
  readInt16 ADDR_CLAMP_MIN rom = clampMinPercent c /\
  readInt16 ADDR_CLAMP_MAX rom = clampMaxPercent c /\
  readInt16 ADDR_DEADZONE rom = deadzoneFanMode c /\
  readInt16 ADDR_COALBED_TIMER rom = coalBedTimerMinutes c /\
  readInt16 ADDR_FLUE_LOW rom = flueLowThreshold c /\
  readInt16 ADDR_FLUE_REC rom = flueRecoveryThreshold c.

(** The thermocouple field of a frame as a signed 14-bit number, from its
    first two bytes; and the temperature formula on such a number. *)
Definition tc_of_bytes (B0 B1 : Z) : Z :=
  let u := B0 * 64 + B1 / 4 in
  if B0 <? 128 then u else u - 16384.

Definition temp_of_tc (tc : Z) : double :=
  d_add (d_div (d_mul (d_mul (d_of_int tc) d_quarter) (d_of_int 9))
               (d_of_int 5))
        (d_of_int 32).

(** The exhaustive check over the 14-bit field: the temperature is a
    number, and within -100..2000 exactly for the values -293..4373. *)
Definition tc_accept_exact (tc : Z) : bool :=
  let t := temp_of_tc tc in
  negb (isnan t)
  && Bool.eqb (negb (impossible t)) ((-293 <=? tc) && (tc <=? 4373)).

(** The check is run in sixteen blocks of 1024 values. *)
Definition tc_chunk_exact (c : Z) : bool :=
  forallb tc_accept_exact (Z_range (-8192 + 1024 * c) 1024).

(** The history of [getKey] calls ends with an unbroken run of scans
    showing key [k], all after the boot-safe period, whose first call carries
    the timestamp [start]; the debounce candidate is backed by such a run. *)
Definition key_window (hist : list (Z * ascii)) (start : Z) (k : ascii)
  : Prop :=
  exists pre rest,
    hist = pre ++ (start, k) :: rest /\
    Forall (fun i => snd i = k /\ 4000 <= fst i) ((start, k) :: rest).

Definition stable_sound (hist : list (Z * ascii)) (s : KeypadState) : Prop :=
  stableKey s <> zero -> key_window hist (lastChange s) (stableKey s).

(** Position [(r, c)] of the matrix is visited after [(r', c')]. *)
Definition scanned_after (r c r' c' : nat) : Prop :=
  (r' < r \/ (r' = r /\ c' < c))%nat.

(** The edit text of the screen shown (empty on the three menus), and the
    screen the '*' key leads to. *)
Definition edit_text (u : Screen) : list ascii :=
  match uiState u with
  | UI_SETPOINT => newSetpointValue u
  | UI_BOOSTTIME => boostTimeEditValue u
  | UI_DEADBAND => deadbandEditValue u
  | UI_CLAMP_MIN => clampMinEditValue u
  | UI_CLAMP_MAX => clampMaxEditValue u
  | UI_COALBED_TIMER => coalBedTimerEditValue u
  | UI_FLUE_LOW => flueLowEditValue u
  | UI_FLUE_REC => flueRecEditValue u
  | UI_HOME | UI_SYSTEM | UI_CLAMP_MENU => []
  end.

Definition parent_screen (st : UIState) : UIState :=
  match st with
  | UI_HOME | UI_SETPOINT | UI_BOOSTTIME | UI_SYSTEM => UI_HOME
  | UI_DEADBAND | UI_CLAMP_MENU | UI_COALBED_TIMER | UI_FLUE_LOW
  | UI_FLUE_REC => UI_SYSTEM
  | UI_CLAMP_MIN | UI_CLAMP_MAX => UI_CLAMP_MENU
  end.

(** What holds of the globals throughout a run of the sketch: the
    settings are in the normal form of [validateSettings], the EEPROM mirrors
    them, the phase is neither SAFETY nor IDLE, and the stored fan percentage
    is within 0..100. *)
Definition sketch_invariant (w : Sketch.Globals) : Prop :=
  settings_fixed (sys_config (Sketch.system w)) /\
  eeprom_mirrors (sys_config (Sketch.system w))
                 (sys_eeprom (Sketch.system w)) /\
  burnState (sys_engine (Sketch.system w)) <> BURN_SAFETY /\
  burnState (sys_engine (Sketch.system w)) <> BURN_IDLE /\
  0 <= lastFan (Sketch.fan w) <= 100.

(** The sketch's [lastKey] is non-zero only right after a report of
    [getKey], when the next call cannot report. *)
Definition lastKey_sound (w : Sketch.Globals) : Prop :=
  Sketch.lastKey w <> zero ->
  forall now k, snd (getKey now k (Sketch.keypad w)) = zero.

(* ================================================================== *)
(** * Basic facts about the machine types                               *)
(* ================================================================== *)

Lemma BurnState_eqb_spec (a b : BurnState) : reflect (a = b) (BurnState_eqb a b).
Proof. destruct a, b; simpl; constructor; congruence. Qed.

Lemma BurnState_eqb_refl (a : BurnState) : BurnState_eqb a a = true.
Proof. now destruct a. Qed.

Lemma ulong_sub_diag (a : Z) : ulong_sub a a = 0.
Proof. unfold ulong_sub. now rewrite Z.sub_diag. Qed.

Lemma ulong_sub_nonneg (a b : Z) : 0 <= ulong_sub a b.
Proof. unfold ulong_sub, ULONG_MODULUS. apply Z.mod_pos_bound. lia. Qed.

Lemma to_int16_small (z : Z) : int16_range z -> to_int16 z = z.
Proof.
  unfold int16_range, to_int16. intros H.
  rewrite Z.mod_small by lia. lia.
Qed.

Lemma to_ulong_small (z : Z) : 0 <= z < ULONG_MODULUS -> to_ulong z = z.
Proof. unfold to_ulong. apply Z.mod_small. Qed.

Lemma ulong_mul_small (a b : Z) :
  0 <= a * b < ULONG_MODULUS -> ulong_mul a b = a * b.
Proof. unfold ulong_mul. apply Z.mod_small. Qed.

(* ================================================================== *)
(** * Order facts about [double] comparisons                            *)
(* ================================================================== *)

Lemma SFcompare_antisym (a b : double) :
  SFcompare b a = option_map CompOpp (SFcompare a b).
Proof.
  destruct a as [sa|sa| |sa ma ea], b as [sb|sb| |sb mb eb]; simpl;
    try reflexivity;
    try (destruct sa; reflexivity); try (destruct sb; reflexivity);
    try (destruct sa, sb; reflexivity).
  destruct sa, sb; simpl; try reflexivity;
    rewrite (Z.compare_antisym ea eb);
    destruct (ea ?= eb); simpl; try reflexivity;
    rewrite (Pos.compare_cont_antisym ma mb Eq); reflexivity.
Qed.




Lemma d_gt_ge (a b : double) : d_gt a b = true -> d_ge a b = true.
Proof.
  unfold d_gt, d_ge, SFltb, SFleb.
  destruct (SFcompare b a) as [[| |]|]; congruence.
Qed.

Lemma d_ge_not_lt (a b : double) : d_ge a b = true -> d_lt a b = false.
Proof.
  unfold d_ge, d_lt, SFleb, SFltb. rewrite (SFcompare_antisym b a).
  destruct (SFcompare b a) as [[| |]|]; simpl; congruence.
Qed.

(* ================================================================== *)
(** * SAFETY override                                                   *)
(* ================================================================== *)

(** C1. On a tick that begins in SAFETY, [burnengine_compute] leaves the
    boost window and the coal-bed, HOLD and RAMP timers inactive, writes the
    damper relay HIGH (closed) and returns 0; [fan_compute], run on the phase
    the engine leaves (still SAFETY), returns 0 and clears [lastFan] and
    [fanOn], whatever demand it is handed and whatever the earlier state. *)
Theorem safety_tick_forces_everything_off :
  forall (cfg : Config) (now : Z) (smoothExh : double) (g : Engine)
         (m : FanMem) (demand : Z),
    burnState g = BURN_SAFETY ->
    let r := burnengine_compute cfg now smoothExh g in
    let f := fan_compute cfg (burnState (fst r)) (snd r) m in
    let f' := fan_compute cfg (burnState (fst r)) demand m in
    burnState (fst r) = BURN_SAFETY /\
    boostActive (fst r) = false /\
    coalbedTimerActive (fst r) = false /\
    holdTimerActive (fst r) = false /\
    rampTimerActive (fst r) = false /\
    damperRelay (fst r) = HIGH /\
    snd r = 0 /\
    snd f = 0 /\ lastFan (fst f) = 0 /\ fanOn (fst f) = false /\
    snd f' = 0 /\ lastFan (fst f') = 0 /\ fanOn (fst f') = false.
Proof.
  intros cfg now smoothExh g m demand Hs.
  unfold burnengine_compute. rewrite Hs. simpl.
  rewrite Hs. simpl. repeat split; reflexivity.
Qed.

Lemma safety_tick_forces_everything_off_witness :
  let g := mkEngine BURN_SAFETY true 1000 true 200 true 300 true 400 LOW in
  let m := mkFanMem 87 true BURN_BOOST in
  let r := burnengine_compute default_config 5000 (d_of_int 640) g in
  burnState g = BURN_SAFETY /\
  boostActive (fst r) = false /\ holdTimerActive (fst r) = false /\
  damperRelay (fst r) = HIGH /\ snd r = 0 /\
  snd (fan_compute default_config (burnState (fst r)) (snd r) m) = 0.
Proof.
  pose proof (safety_tick_forces_everything_off default_config 5000
                (d_of_int 640)
                (mkEngine BURN_SAFETY true 1000 true 200 true 300 true 400 LOW)
                (mkFanMem 87 true BURN_BOOST) 100 eq_refl) as H.
  cbv zeta in H. cbv zeta.
  destruct H as (_ & Hb & _ & Hh & _ & Hd & Hr & Hf & _).
  repeat split; assumption.
Defined.

(* ================================================================== *)
(** * Fan shaping layer                                                 *)
(* ================================================================== *)

Lemma handleStateChange_same_phase (bs : BurnState) (m : FanMem) :
  bs <> BURN_IDLE \/ prevBurnState m = BURN_IDLE ->
  bs <> BURN_BOOST -> bs <> BURN_SAFETY ->
  lastFan (fancontrol_handleStateChange bs m) = lastFan m /\
  fanOn (fancontrol_handleStateChange bs m) = fanOn m.
Proof.
  intros Hidle Hb Hs. unfold fancontrol_handleStateChange.
  destruct (BurnState_eqb_spec bs (prevBurnState m)) as [E|E]; simpl.
  - split; reflexivity.
  - destruct bs; simpl; try (split; reflexivity); try congruence.
    destruct Hidle as [H|H]; congruence.
Qed.

Lemma clamp_max_le (cfg : Config) (fan : Z) : clamp_max cfg fan <= fan.
Proof. unfold clamp_max. destruct (fan >? clampMaxPercent cfg) eqn:E; lia. Qed.

Lemma clamp_max_spec (cfg : Config) (fan : Z) :
  clamp_max cfg fan = Z.min fan (clampMaxPercent cfg).
Proof. unfold clamp_max. destruct (fan >? clampMaxPercent cfg) eqn:E; lia. Qed.

Lemma clamp_mode_spec (cfg : Config) (fan : Z) :
  clamp_mode cfg fan = Z.max fan (clampMinPercent cfg).
Proof. unfold clamp_mode. destruct (fan <? clampMinPercent cfg) eqn:E; lia. Qed.

Lemma hysteresis_turn_on (cfg : Config) (fan : Z) :
  hysteresis cfg false fan = true -> clampMinPercent cfg + 10 < fan.
Proof.
  unfold hysteresis. simpl.
  destruct (fan >? clampMinPercent cfg + 10) eqn:E; simpl; [lia|discriminate].
Qed.

Lemma hysteresis_turn_off (cfg : Config) (fan : Z) :
  hysteresis cfg true fan = false -> fan < clampMinPercent cfg.
Proof.
  unfold hysteresis. simpl.
  destruct (fan <? clampMinPercent cfg) eqn:E; [lia|discriminate].
Qed.

(** The shape of [fan_compute] outside BOOST and SAFETY. *)
Lemma fan_compute_normal (cfg : Config) (bs : BurnState) (demand : Z) (m : FanMem) :
  bs <> BURN_BOOST -> bs <> BURN_SAFETY ->
  let m0 := fancontrol_handleStateChange bs m in
  let s := smooth (lastFan m0) demand in
  let c := clamp_max cfg s in
  fan_compute cfg bs demand m =
    if deadzoneFanMode cfg =? 1
    then (mkFanMem s (fanOn m0) (prevBurnState m0), clamp_mode cfg c)
    else (mkFanMem s (hysteresis cfg (fanOn m0) c) (prevBurnState m0),
          if hysteresis cfg (fanOn m0) c then c else 0).
Proof.
  intros Hb Hs. unfold fan_compute.
  destruct bs; try congruence; reflexivity.
Qed.

(** C2, as stated, fails: with hysteresis mode and the factory clamps, a
    HOLD tick with demand 40 smooths to 10 and returns 0 (fan still off);
    the next tick, with demand 60, smooths to (3*10 + 60)/4 = 22 and returns
    22, not the (3*0 + 60)/4 = 15 that three parts of the returned value
    would give. *)
Lemma fan_smoothing_ignores_returned_value :
  let m0 := mkFanMem 0 false BURN_HOLD in
  let r1 := fan_compute default_config BURN_HOLD 40 m0 in
  let r2 := fan_compute default_config BURN_HOLD 60 (fst r1) in
  snd r1 = 0 /\
  lastFan (fst r2) = 22 /\ snd r2 = 22 /\
  lastFan (fst r2) <> Z.quot (3 * snd r1 + 60) 4.
Proof. vm_compute. repeat split; discriminate. Qed.

(** C2, amended. Outside BOOST and SAFETY the smoothed demand is
    [(3 * lastFan + demand) / 4], where [lastFan] is the smoothed value the
    previous tick stored before clamping and before the deadzone step (0
    after a reset on entering IDLE, 100 after a BOOST tick, 0 after a SAFETY
    tick); the smoothed value is stored unclamped, then clamped to
    clamp-maximum, and the clamped value is what the deadzone or hysteresis
    step works on. *)
Theorem fan_smoothing_from_stored_value :
  forall (cfg : Config) (bs : BurnState) (demand : Z) (m : FanMem),
    bs <> BURN_BOOST -> bs <> BURN_SAFETY ->
    let m0 := fancontrol_handleStateChange bs m in
    let s := Z.quot (3 * lastFan m0 + demand) 4 in
    let r := fan_compute cfg bs demand m in
    lastFan (fst r) = s /\
    (bs <> BURN_IDLE \/ prevBurnState m = BURN_IDLE -> lastFan m0 = lastFan m) /\
    (bs = BURN_IDLE -> prevBurnState m <> BURN_IDLE -> lastFan m0 = 0) /\
    snd r = (if deadzoneFanMode cfg =? 1
             then Z.max (Z.min s (clampMaxPercent cfg)) (clampMinPercent cfg)
             else if fanOn (fst r) then Z.min s (clampMaxPercent cfg) else 0) /\
    lastFan (fst (fan_compute cfg BURN_BOOST demand m)) = 100 /\
    lastFan (fst (fan_compute cfg BURN_SAFETY demand m)) = 0.
Proof.
  intros cfg bs demand m Hb Hs m0 s r.
  cut (lastFan (fst r) = s /\
       (bs <> BURN_IDLE \/ prevBurnState m = BURN_IDLE -> lastFan m0 = lastFan m) /\
       (bs = BURN_IDLE -> prevBurnState m <> BURN_IDLE -> lastFan m0 = 0) /\
       snd r = (if deadzoneFanMode cfg =? 1
                then Z.max (Z.min s (clampMaxPercent cfg)) (clampMinPercent cfg)
                else if fanOn (fst r) then Z.min s (clampMaxPercent cfg) else 0)).
  { intros (H1 & H2 & H3 & H4). repeat split; assumption. }
  assert (Es : smooth (lastFan m0) demand = s).
  { unfold smooth, s. f_equal. lia. }
  subst r. rewrite (fan_compute_normal cfg bs demand m Hb Hs).
  fold m0. rewrite Es.
  split; [|split; [|split]].
  - destruct (deadzoneFanMode cfg =? 1); reflexivity.
  - intros H. apply (handleStateChange_same_phase bs m H Hb Hs).
  - intros -> Hp. unfold m0, fancontrol_handleStateChange.
    destruct (BurnState_eqb_spec BURN_IDLE (prevBurnState m)) as [E|E];
      [congruence|reflexivity].
  - destruct (deadzoneFanMode cfg =? 1); simpl.
    + now rewrite clamp_mode_spec, clamp_max_spec.
    + now rewrite clamp_max_spec.
Qed.

Lemma fan_smoothing_from_stored_value_witness :
  let m1 := mkFanMem 10 false BURN_HOLD in
  let r := fan_compute default_config BURN_HOLD 60 m1 in
  lastFan (fst r) = 22 /\ snd r = 22.
Proof.
  pose proof (fan_smoothing_from_stored_value default_config BURN_HOLD 60
                (mkFanMem 10 false BURN_HOLD)
                ltac:(discriminate) ltac:(discriminate)) as H.
  cbv zeta in H. destruct H as (H1 & _ & _ & H4 & _).
  split; [exact H1 | rewrite H4; reflexivity].
Defined.

(** C7.  With deadzone-fan-mode on, the final fan percentage is not always
    non-zero: clamp-minimum 0 is a setting [validateSettings] leaves alone
    (it accepts 0..100), and with it a tick outside BOOST and SAFETY whose
    demand is 0, from a stored value of 0, returns 0.  The fan stops in the
    mode the source describes as "fan never turns off". *)
Lemma deadzone_on_fan_can_be_zero :
  let cfg := mkConfig 350 30 25 0 100 1 30 250 300 in
  let m := mkFanMem 0 false BURN_COALBED in
  deadzoneFanMode cfg = 1 /\
  validateSettings cfg = cfg /\
  snd (fan_compute cfg BURN_COALBED 0 m) = 0.
Proof. vm_compute. repeat split. Qed.

(** What [fan_compute] does guarantee outside BOOST and SAFETY: with
    deadzone-fan-mode on the
    final percentage is at least clamp-minimum, hence non-zero whenever
    clamp-minimum is positive; with it off, and taking the memory as it stands
    after the phase-change handling (which switches the fan off on entering
    IDLE), the fan turns on only when the smoothed demand, clamped to
    clamp-maximum, is strictly above clampMinimum + 10, turns off only when it
    is strictly below clampMinimum, and while the fan is off the result is 0,
    otherwise the clamped smoothed demand. *)
Theorem fan_deadzone_policy :
  forall (cfg : Config) (bs : BurnState) (demand : Z) (m : FanMem),
    bs <> BURN_BOOST -> bs <> BURN_SAFETY ->
    let m0 := fancontrol_handleStateChange bs m in
    let s := smooth (lastFan m0) demand in
    let c := clamp_max cfg s in
    let r := fan_compute cfg bs demand m in
    (deadzoneFanMode cfg = 1 ->
       clampMinPercent cfg <= snd r /\
       (0 < clampMinPercent cfg -> snd r <> 0)) /\
    (deadzoneFanMode cfg <> 1 ->
       (fanOn m0 = false -> fanOn (fst r) = true ->
          clampMinPercent cfg + 10 < c /\ clampMinPercent cfg + 10 < s) /\
       (fanOn m0 = true -> fanOn (fst r) = false ->
          c < clampMinPercent cfg /\
          (clampMinPercent cfg <= clampMaxPercent cfg -> s < clampMinPercent cfg)) /\
       (fanOn (fst r) = false -> snd r = 0) /\
       (fanOn (fst r) = true -> snd r = c)) /\
    (bs <> BURN_IDLE \/ prevBurnState m = BURN_IDLE -> fanOn m0 = fanOn m).
Proof.
  intros cfg bs demand m Hb Hs m0 s c r.
  subst r. rewrite (fan_compute_normal cfg bs demand m Hb Hs).
  fold m0. fold s. fold c.
  split; [|split].
  - intros Hdz. rewrite Hdz. simpl. rewrite clamp_mode_spec. split; lia.
  - intros Hdz. destruct (Z.eqb_spec (deadzoneFanMode cfg) 1) as [E|E];
      [contradiction|]. simpl.
    pose proof (clamp_max_le cfg s) as Hle. fold c in Hle.
    pose proof (clamp_max_spec cfg s) as Hsp. fold c in Hsp.
    repeat split.
    + rewrite H in H0. now apply hysteresis_turn_on.
    + rewrite H in H0. apply hysteresis_turn_on in H0. lia.
    + rewrite H in H0. now apply hysteresis_turn_off.
    + rewrite H in H0. apply hysteresis_turn_off in H0. lia.
    + intros H. now rewrite H.
    + intros H. now rewrite H.
  - intros H. apply (handleStateChange_same_phase bs m H Hb Hs).
Qed.

Lemma fan_deadzone_policy_witness :
  let cfg := mkConfig 350 30 25 10 100 1 30 250 300 in
  let m := mkFanMem 0 false BURN_COALBED in
  10 <= snd (fan_compute cfg BURN_COALBED 0 m) /\
  snd (fan_compute cfg BURN_COALBED 0 m) <> 0.
Proof.
  pose proof (fan_deadzone_policy (mkConfig 350 30 25 10 100 1 30 250 300)
                BURN_COALBED 0 (mkFanMem 0 false BURN_COALBED)
                ltac:(discriminate) ltac:(discriminate)) as H.
  cbv zeta in H. destruct H as (H1 & _ & _).
  destruct (H1 eq_refl) as (Ha & Hb).
  split; [exact Ha | apply Hb; reflexivity].
Defined.

(* ================================================================== *)
(** * The flue-recovery threshold is not read by the control core       *)
(* ================================================================== *)

Lemma control_tick_ignores_flueRecovery (cfg : Config) (v : Z) (now : Z)
      (smoothExh : double) (st : Engine * FanMem) :
  control_tick (set_flueRecoveryThreshold v cfg) now smoothExh st
  = control_tick cfg now smoothExh st.
Proof. reflexivity. Qed.

Lemma agree_except_flueRecovery_set (c1 c2 : Config) :
  agree_except_flueRecovery c1 c2 ->
  c1 = set_flueRecoveryThreshold (flueRecoveryThreshold c1) c2.
Proof.
  destruct c1, c2. unfold agree_except_flueRecovery, set_flueRecoveryThreshold.
  simpl. intros (-> & -> & -> & -> & -> & -> & -> & ->). reflexivity.
Qed.

(** C10. Two runs from the same state on the same inputs, under
    configurations that differ at most in [flueRecoveryThreshold], produce on
    every tick the same phase, raw fan demand, damper command and final fan
    percentage, and leave the engine and the fan memory in the same state:
    the recovery threshold is never read by [burnengine_compute] or
    [fan_compute]. *)
Theorem flueRecovery_noninterference :
  forall (c1 c2 : Config),
    agree_except_flueRecovery c1 c2 ->
    (forall now smoothExh st,
        control_tick c1 now smoothExh st = control_tick c2 now smoothExh st) /\
    (forall inputs st, run_ticks c1 inputs st = run_ticks c2 inputs st).
Proof.
  intros c1 c2 H.
  assert (Ht : forall now smoothExh st,
             control_tick c1 now smoothExh st = control_tick c2 now smoothExh st).
  { intros. rewrite (agree_except_flueRecovery_set c1 c2 H).
    apply control_tick_ignores_flueRecovery. }
  split; [exact Ht|].
  induction inputs as [|[now t] rest IH]; intros st; simpl.
  - reflexivity.
  - rewrite Ht. f_equal. apply IH.
Qed.

Lemma flueRecovery_noninterference_witness :
  let c2 := set_flueRecoveryThreshold 600 default_config in
  let st := (mkEngine BURN_COALBED false 0 false 0 false 0 false 0 LOW,
             mkFanMem 0 false BURN_COALBED) in
  let inputs := [(1000, d_of_int 310); (1500, d_of_int 340)] in
  agree_except_flueRecovery default_config c2 /\
  run_ticks default_config inputs st = run_ticks c2 inputs st /\
  map out_phase (run_ticks c2 inputs st) = [BURN_COALBED; BURN_RAMP].
Proof.
  assert (Ha : agree_except_flueRecovery default_config
                 (set_flueRecoveryThreshold 600 default_config))
    by (repeat split).
  pose proof (flueRecovery_noninterference default_config
                (set_flueRecoveryThreshold 600 default_config) Ha) as [_ Hr].
  cbv zeta. split; [exact Ha|]. split; [apply Hr|].
  vm_compute. reflexivity.
Defined.

(* ================================================================== *)
(** * Burn engine: case analysis of one tick                            *)
(* ================================================================== *)

Local Arguments d_lt : simpl never.
Local Arguments d_le : simpl never.
Local Arguments d_gt : simpl never.
Local Arguments d_ge : simpl never.
Local Arguments d_of_int : simpl never.
Local Arguments ulong_sub : simpl never.
Local Arguments coalbed_required_ms : simpl never.
Local Arguments boost_duration_ms : simpl never.
Local Arguments hold_fan_curve : simpl never.
Local Arguments Z.geb : simpl never.
Local Arguments Z.ltb : simpl never.

(** The coal-bed entry block in closed form. *)
Lemma coalbed_entry_eq (cfg : Config) (now : Z) (t : double) (g : Engine) :
  coalbed_entry cfg now t g =
  mkEngine (if coalbed_fires cfg now t g then BURN_COALBED else burnState g)
           (boostActive g) (boostStartMs g)
           (belowFlueLow cfg t && negb (coalbed_fires cfg now t g))
           (if belowFlueLow cfg t then coalbed_timer_start now g
            else coalbedStartMs g)
           (if coalbed_fires cfg now t g then false else holdTimerActive g)
           (holdStartMs g)
           (if coalbed_fires cfg now t g then false else rampTimerActive g)
           (rampStartMs g) (damperRelay g).
Proof.
  destruct g as [bs ba bst ca cst ha hst ra rst dr].
  unfold coalbed_entry, coalbed_fires, coalbed_timer_start, belowFlueLow.
  simpl.
  destruct (d_lt t (d_of_int (flueLowThreshold cfg))), ca; simpl;
    try reflexivity.
  - destruct (ulong_sub now cst >=? coalbed_required_ms cfg); reflexivity.
  - destruct (ulong_sub now now >=? coalbed_required_ms cfg); reflexivity.
Qed.

Ltac break_if :=
  match goal with
  | |- context [if ?b then _ else _] => destruct b eqn:?
  end.

(** Turn the integer tests met on the way into linear facts. *)
Ltac zbool :=
  repeat match goal with
  | H : true && _ = _ |- _ => cbn [andb] in H
  | H : context [ulong_sub ?a ?a] |- _ => rewrite ulong_sub_diag in H
  | H : (_ >=? _) = true |- _ => apply Z.geb_le in H
  | H : (_ >=? _) = false |- _ => rewrite Z.geb_leb in H; apply Z.leb_gt in H
  | H : (_ <? _) = true |- _ => apply Z.ltb_lt in H
  | H : (_ <? _) = false |- _ => apply Z.ltb_ge in H
  end.

(** Case analysis of a goal about one tick of an engine whose fields are
    variables: the boost test first, then the coal-bed entry through its
    closed form, then the state machine. *)
Ltac unfold_tests :=
  unfold coalbed_fires, coalbed_timer_start, hold_timer_start,
    belowFlueLow, inHoldBand, aboveHoldBand.

Ltac tick_cases :=
  unfold_tests;
  unfold burnengine_compute, boost_mode, safety_override; simpl;
  repeat (break_if; simpl);
  unfold after_boost; rewrite ?coalbed_entry_eq;
  unfold_tests; simpl;
  repeat (break_if; simpl);
  unfold state_machine, damper_control, fan_demand,
    HOLD_STABILITY_MS, RAMP_STABILITY_MS; simpl;
  repeat (break_if; simpl; rewrite ?ulong_sub_diag);
  zbool.

(** A running HOLD timer after a tick was running under RAMP, in band. *)
Lemma hold_timer_after_tick (cfg : Config) (now : Z) (t : double) (g : Engine) :
  let g' := fst (burnengine_compute cfg now t g) in
  (holdTimerActive g = true -> boostActive g = false /\ burnState g = BURN_RAMP) ->
  holdTimerActive g' = true ->
  inHoldBand cfg t = true /\ burnState g' = BURN_RAMP /\ boostActive g' = false /\
  holdStartMs g' = hold_timer_start now g.
Proof.
  destruct g as [bs ba bst ca cst ha hst ra rst dr].
  simpl. destruct bs, ba, ca, ha; tick_cases.
  all: intros Hinv Hact.
  all: try (destruct Hinv as [? ?]; [reflexivity|]); try discriminate; try congruence.
  all: repeat split; (reflexivity || assumption).
Qed.

(** A tick that moves the phase into HOLD found the HOLD timer running
    for at least [HOLD_STABILITY_MS], under RAMP and in band. *)
Lemma hold_entered_by_timer (cfg : Config) (now : Z) (t : double) (g : Engine) :
  let g' := fst (burnengine_compute cfg now t g) in
  (holdTimerActive g = true -> boostActive g = false /\ burnState g = BURN_RAMP) ->
  burnState g <> BURN_HOLD ->
  burnState g' = BURN_HOLD ->
  inHoldBand cfg t = true /\ holdTimerActive g = true /\
  burnState g = BURN_RAMP /\
  HOLD_STABILITY_MS <= ulong_sub now (holdStartMs g).
Proof.
  destruct g as [bs ba bst ca cst ha hst ra rst dr].
  simpl. destruct bs, ba, ca, ha; tick_cases.
  all: intros Hinv Hne Hh.
  all: try (destruct Hinv as [? ?]; [reflexivity|]); try discriminate; try congruence;
    try lia.
  all: repeat split; (reflexivity || assumption || lia).
Qed.

Ltac tick_solve :=
  repeat match goal with
         | H : d_gt _ _ = true |- _ => apply d_gt_ge in H
         end;
  try discriminate; try congruence; try lia;
  try (repeat split; (reflexivity || assumption || congruence || lia)).

(** One tick that starts in RAMP with the boost window closed and on
    which the coal-bed entry does not fire. *)
Lemma ramp_tick (cfg : Config) (now : Z) (t : double) (g : Engine) :
  let g' := fst (burnengine_compute cfg now t g) in
  burnState g = BURN_RAMP -> boostActive g = false ->
  coalbed_fires cfg now t g = false ->
  (burnState g' = BURN_HOLD <->
     inHoldBand cfg t = true /\
     HOLD_STABILITY_MS <= ulong_sub now (hold_timer_start now g)) /\
  (burnState g' = BURN_HOLD -> holdTimerActive g' = false) /\
  (burnState g' <> BURN_HOLD -> burnState g' = BURN_RAMP) /\
  (inHoldBand cfg t = true -> burnState g' <> BURN_HOLD ->
     holdTimerActive g' = true /\ holdStartMs g' = hold_timer_start now g).
Proof.
  destruct g as [bs ba bst ca cst ha hst ra rst dr].
  simpl. intros -> ->. destruct ca, ha; tick_cases.
  all: intros Hf; try discriminate Hf.
  all: repeat split; intros; tick_solve.
  all: try (match goal with H : _ /\ _ |- _ => destruct H end); tick_solve.
Qed.

(** An out-of-band tick under RAMP cancels the HOLD timer and cannot
    enter HOLD, whatever the coal-bed entry does. *)
Lemma ramp_tick_out_of_band (cfg : Config) (now : Z) (t : double) (g : Engine) :
  let g' := fst (burnengine_compute cfg now t g) in
  burnState g = BURN_RAMP -> boostActive g = false ->
  inHoldBand cfg t = false ->
  holdTimerActive g' = false /\ burnState g' <> BURN_HOLD.
Proof.
  destruct g as [bs ba bst ca cst ha hst ra rst dr].
  simpl. intros -> ->. destruct ca, ha; tick_cases.
  all: intros Hb; tick_solve.
Qed.

(* ================================================================== *)
(** * RAMP to HOLD: the stability window over a run of ticks            *)
(* ================================================================== *)

Lemma run_engine_app (cfg : Config) (xs ys : list (Z * double)) (g : Engine) :
  run_engine cfg (xs ++ ys) g = run_engine cfg ys (run_engine cfg xs g).
Proof. unfold run_engine. apply fold_left_app. Qed.

Lemma hold_window_extend (cfg : Config) (hist : list (Z * double))
      (start now : Z) (t : double) :
  hold_window cfg hist start -> inHoldBand cfg t = true ->
  hold_window cfg (hist ++ [(now, t)]) start.
Proof.
  intros (pre & t0 & rest & -> & Hall) Hin.
  exists pre, t0, (rest ++ [(now, t)]). split.
  - now rewrite <- app_assoc.
  - change ((start, t0) :: rest ++ [(now, t)])
      with (((start, t0) :: rest) ++ [(now, t)]).
    apply Forall_app. split; [assumption|]. constructor; [assumption|constructor].
Qed.

Lemma hold_window_start (cfg : Config) (hist : list (Z * double))
      (now : Z) (t : double) :
  inHoldBand cfg t = true -> hold_window cfg (hist ++ [(now, t)]) now.
Proof.
  intros Hin. exists hist, t, []. split; [reflexivity|].
  constructor; [assumption|constructor].
Qed.

(** The soundness of the HOLD timer is kept by every tick... *)
Lemma hold_timer_sound_step (cfg : Config) (hist : list (Z * double))
      (g : Engine) (now : Z) (t : double) :
  hold_timer_sound cfg hist g ->
  hold_timer_sound cfg (hist ++ [(now, t)]) (engine_step cfg g (now, t)).
Proof.
  intros Hs Hact. unfold engine_step in *. simpl in *.
  assert (Hinv : holdTimerActive g = true ->
                 boostActive g = false /\ burnState g = BURN_RAMP).
  { intros H. destruct (Hs H) as (? & ? & _). now split. }
  destruct (hold_timer_after_tick cfg now t g Hinv Hact) as (Hin & Hr & Hb & Hst).
  split; [assumption|]. split; [assumption|].
  rewrite Hst. unfold hold_timer_start.
  destruct (holdTimerActive g) eqn:Ha.
  - destruct (Hs Ha) as (_ & _ & Hw). now apply hold_window_extend.
  - now apply hold_window_start.
Qed.

(** ... hence by every run of ticks. *)
Lemma hold_timer_sound_run (cfg : Config) (ins hist : list (Z * double))
      (g : Engine) :
  hold_timer_sound cfg hist g ->
  hold_timer_sound cfg (hist ++ ins) (run_engine cfg ins g).
Proof.
  revert hist g. induction ins as [|[now t] rest IH]; intros hist g Hs.
  - now rewrite app_nil_r.
  - change ((now, t) :: rest) with ([(now, t)] ++ rest).
    rewrite app_assoc. unfold run_engine. simpl.
    apply (IH (hist ++ [(now, t)]) (engine_step cfg g (now, t))).
    now apply hold_timer_sound_step.
Qed.

(** C3, as stated, fails in one direction: the band condition can hold
    for an unbroken 5000 ms from RAMP without the phase becoming HOLD, when
    the coal-bed entry fires on that tick.  Setpoint 350, deadband 25, flue-low
    threshold 400, coal-bed timer 30 min, temperature 330 (in band, below
    flue-low); the coal-bed timer has been running since 0.  The first tick
    starts the HOLD timer; on the second, 5000 ms later, the coal-bed entry
    fires, clears the HOLD timer, and the COALBED exit returns to RAMP. *)
Lemma hold_window_preempted_by_coalbed :
  let cfg := mkConfig 350 30 25 10 100 0 30 400 450 in
  let g0 := mkEngine BURN_RAMP false 0 true 0 false 0 false 0 LOW in
  let t := d_of_int 330 in
  let g1 := run_engine cfg [(1795000, t)] g0 in
  let g2 := run_engine cfg [(1795000, t); (1800000, t)] g0 in
  validateSettings cfg = cfg /\
  inHoldBand cfg t = true /\
  burnState g1 = BURN_RAMP /\ holdTimerActive g1 = true /\
  holdStartMs g1 = 1795000 /\
  ulong_sub 1800000 1795000 = 5000 /\
  burnState g2 = BURN_RAMP /\ burnState g2 <> BURN_HOLD /\
  holdTimerActive g2 = false.
Proof. vm_compute. repeat split; discriminate. Qed.

(** C3, amended. (1) On a tick that starts in RAMP (boost window closed)
    and on which the coal-bed entry does not fire, the phase becomes HOLD
    exactly when the temperature is in band ([smoothExh >= setpoint -
    deadband]) and the HOLD timer has been running for at least 5000 ms
    (counted on the 32-bit millisecond clock); otherwise the phase stays RAMP,
    and an in-band tick leaves the timer running from its original start.
    (2) Any tick in RAMP on which the temperature is below the band cancels
    the timer and cannot enter HOLD.  (3) Over any run of engine ticks that
    starts with the HOLD timer inactive, a tick that moves the phase into HOLD
    started in RAMP and closes an unbroken run of in-band ticks whose first
    tick is at least 5000 ms old: the transition never comes earlier. *)
Theorem hold_entry_needs_unbroken_window :
  forall (cfg : Config),
    (forall now t g,
        burnState g = BURN_RAMP -> boostActive g = false ->
        coalbed_fires cfg now t g = false ->
        let g' := fst (burnengine_compute cfg now t g) in
        (burnState g' = BURN_HOLD <->
           inHoldBand cfg t = true /\
           5000 <= ulong_sub now (hold_timer_start now g)) /\
        (burnState g' <> BURN_HOLD -> burnState g' = BURN_RAMP) /\
        (inHoldBand cfg t = true -> burnState g' <> BURN_HOLD ->
           holdTimerActive g' = true /\
           holdStartMs g' = hold_timer_start now g)) /\
    (forall now t g,
        burnState g = BURN_RAMP -> boostActive g = false ->
        inHoldBand cfg t = false ->
        let g' := fst (burnengine_compute cfg now t g) in
        holdTimerActive g' = false /\ burnState g' <> BURN_HOLD) /\
    (forall ins g0 now t,
        holdTimerActive g0 = false ->
        let g := run_engine cfg ins g0 in
        burnState g <> BURN_HOLD ->
        burnState (fst (burnengine_compute cfg now t g)) = BURN_HOLD ->
        burnState g = BURN_RAMP /\
        exists pre start t0 rest,
          ins ++ [(now, t)] = pre ++ (start, t0) :: rest /\
          Forall (fun i => inHoldBand cfg (snd i) = true) ((start, t0) :: rest) /\
          5000 <= ulong_sub now start).
Proof.
  intros cfg. split; [|split].
  - intros now t g Hr Hb Hf g'.
    destruct (ramp_tick cfg now t g Hr Hb Hf) as (H1 & _ & H3 & H4).
    repeat split; try apply H1; try assumption; apply H4; assumption.
  - intros now t g Hr Hb Hout. exact (ramp_tick_out_of_band cfg now t g Hr Hb Hout).
  - intros ins g0 now t H0 g Hne Hh.
    assert (Hs0 : hold_timer_sound cfg [] g0).
    { intros H. congruence. }
    pose proof (hold_timer_sound_run cfg ins [] g0 Hs0) as Hs.
    simpl in Hs. fold g in Hs.
    assert (Hinv : holdTimerActive g = true ->
                   boostActive g = false /\ burnState g = BURN_RAMP).
    { intros H. destruct (Hs H) as (? & ? & _). now split. }
    destruct (hold_entered_by_timer cfg now t g Hinv Hne Hh)
      as (Hin & Ha & Hr & Hel).
    split; [assumption|].
    destruct (Hs Ha) as (_ & _ & Hw).
    destruct (hold_window_extend cfg ins (holdStartMs g) now t Hw Hin)
      as (pre & t0 & rest & Heq & Hall).
    exists pre, (holdStartMs g), t0, rest. repeat split; assumption.
Qed.

Lemma hold_entry_needs_unbroken_window_witness :
  let cfg := default_config in
  let g0 := mkEngine BURN_RAMP false 0 false 0 false 0 false 0 LOW in
  let t := d_of_int 330 in
  let g1 := run_engine cfg [(1000, t); (3000, t)] g0 in
  holdTimerActive g0 = false /\
  burnState g1 = BURN_RAMP /\
  burnState (fst (burnengine_compute cfg 6000 t g1)) = BURN_HOLD /\
  exists pre start t0 rest,
    [(1000, t); (3000, t)] ++ [(6000, t)] = pre ++ (start, t0) :: rest /\
    Forall (fun i => inHoldBand cfg (snd i) = true) ((start, t0) :: rest) /\
    5000 <= ulong_sub 6000 start.
Proof.
  cbv zeta.
  destruct (hold_entry_needs_unbroken_window default_config) as (_ & _ & Hw).
  assert (Hh : burnState
                 (fst (burnengine_compute default_config 6000 (d_of_int 330)
                         (run_engine default_config
                            [(1000, d_of_int 330); (3000, d_of_int 330)]
                            (mkEngine BURN_RAMP false 0 false 0 false 0 false 0 LOW))))
               = BURN_HOLD) by (vm_compute; reflexivity).
  assert (Hne : burnState
                  (run_engine default_config
                     [(1000, d_of_int 330); (3000, d_of_int 330)]
                     (mkEngine BURN_RAMP false 0 false 0 false 0 false 0 LOW))
                <> BURN_HOLD) by (vm_compute; discriminate).
  destruct (Hw [(1000, d_of_int 330); (3000, d_of_int 330)]
               (mkEngine BURN_RAMP false 0 false 0 false 0 false 0 LOW)
               6000 (d_of_int 330) eq_refl Hne Hh) as (Hr & Hex).
  split; [reflexivity|]. split; [exact Hr|]. split; [exact Hh | exact Hex].
Defined.

(* ================================================================== *)
(** * The boost window                                                  *)
(* ================================================================== *)

Lemma boost_duration_ms_small (cfg : Config) :
  0 <= boostTimeSeconds cfg <= 32767 ->
  boost_duration_ms cfg = boostTimeSeconds cfg * 1000.
Proof.
  intros H. unfold boost_duration_ms.
  rewrite to_ulong_small by (unfold ULONG_MODULUS; lia).
  apply ulong_mul_small. unfold ULONG_MODULUS. lia.
Qed.

Lemma coalbed_required_ms_small (cfg : Config) :
  0 <= coalBedTimerMinutes cfg <= 32767 ->
  coalbed_required_ms cfg = coalBedTimerMinutes cfg * 60 * 1000.
Proof.
  intros H. unfold coalbed_required_ms.
  rewrite to_ulong_small by (unfold ULONG_MODULUS; lia).
  rewrite (ulong_mul_small (coalBedTimerMinutes cfg) 60)
    by (unfold ULONG_MODULUS; lia).
  apply ulong_mul_small. unfold ULONG_MODULUS. lia.
Qed.

(** While the window is open the tick stops in the BOOST block. *)
Lemma boost_tick_open (cfg : Config) (now : Z) (t : double) (g : Engine) :
  burnState g <> BURN_SAFETY -> boostActive g = true ->
  ulong_sub now (boostStartMs g) < boost_duration_ms cfg ->
  burnengine_compute cfg now t g =
    (digitalWrite_damper LOW (set_burnState BURN_BOOST g), 100).
Proof.
  intros Hs Hb Hlt. unfold burnengine_compute, boost_mode. rewrite Hb.
  apply Z.ltb_lt in Hlt. rewrite Hlt.
  destruct (burnState g); try reflexivity. congruence.
Qed.

(** Once it has run out, the BOOST block closes the window, writes RAMP,
    and the rest of the tick is evaluated from there. *)
Lemma boost_tick_expired (cfg : Config) (now : Z) (t : double) (g : Engine) :
  burnState g <> BURN_SAFETY -> boostActive g = true ->
  boost_duration_ms cfg <= ulong_sub now (boostStartMs g) ->
  burnengine_compute cfg now t g =
    after_boost cfg now t (set_burnState BURN_RAMP (set_boostActive false g)).
Proof.
  intros Hs Hb Hge. unfold burnengine_compute, boost_mode. rewrite Hb.
  apply Z.ltb_ge in Hge. rewrite Hge.
  destruct (burnState g); try reflexivity. congruence.
Qed.

(** What the rest of the tick does to a fresh RAMP. *)
Lemma after_boost_from_ramp (cfg : Config) (now : Z) (t : double) (g1 : Engine) :
  burnState g1 = BURN_RAMP ->
  let r := after_boost cfg now t g1 in
  boostActive (fst r) = boostActive g1 /\
  burnState (fst r) <> BURN_BOOST /\
  (coalbed_fires cfg now t g1 = false -> holdTimerActive g1 = false ->
     burnState (fst r) = BURN_RAMP /\ snd r = 100 /\ damperRelay (fst r) = LOW).
Proof.
  destruct g1 as [bs ba bst ca cst ha hst ra rst dr].
  simpl. intros ->. destruct ca, ha; tick_cases.
  all: repeat split; intros; tick_solve.
Qed.

(** C4, as stated, fails on the expiry tick: the BOOST block writes RAMP
    and falls through, and the same tick's coal-bed entry can move the phase
    on.  (a) With a coal-bed timer of 0 minutes (accepted by the validation)
    a boost started by [burnengine_init] ends, on its first tick at the
    configured 30 s with the temperature below flue-low, in COALBED.
    (b) With the factory settings, a coal-bed timer that was running when
    [burnengine_startBoost] opened the window fires on the expiry tick.
    (c) And inside the window SAFETY wins: a tick that finds the phase SAFETY
    with the window still open closes the damper and returns 0. *)
Lemma boost_expiry_can_end_in_coalbed :
  let cfg0 := mkConfig 350 30 25 10 100 0 0 250 300 in
  let g0 := burnengine_init 0 (mkEngine BURN_RAMP false 0 false 0 false 0 false 0 HIGH) in
  let r0 := control_tick cfg0 30000 (d_of_int 200) (g0, fancontrol_init BURN_BOOST) in
  let g1 := burnengine_startBoost 1776000
              (mkEngine BURN_RAMP false 0 true 0 false 0 false 0 LOW) in
  let r1 := control_tick default_config 1806000 (d_of_int 240)
              (g1, mkFanMem 100 true BURN_BOOST) in
  let g2 := mkEngine BURN_SAFETY true 0 false 0 false 0 false 0 LOW in
  let r2 := control_tick default_config 1000 (d_of_int 300)
              (g2, mkFanMem 100 true BURN_BOOST) in
  (validateSettings cfg0 = cfg0 /\
   boostActive g0 = true /\
   boostTimeSeconds cfg0 * 1000 <= ulong_sub 30000 (boostStartMs g0) /\
   out_phase (observe r0) = BURN_COALBED /\ out_rawFan (observe r0) = 0) /\
  (boostActive g1 = true /\
   boostTimeSeconds default_config * 1000 <= ulong_sub 1806000 (boostStartMs g1) /\
   out_phase (observe r1) = BURN_COALBED /\ out_rawFan (observe r1) = 0) /\
  (boostActive g2 = true /\
   ulong_sub 1000 (boostStartMs g2) < boostTimeSeconds default_config * 1000 /\
   out_phase (observe r2) = BURN_SAFETY /\ out_damper (observe r2) = HIGH /\
   out_rawFan (observe r2) = 0 /\ out_finalFan (observe r2) = 0).
Proof. vm_compute. repeat split; discriminate. Qed.

(** The same fall-through with a HOLD timer left running by
    [burnengine_startBoost] (which, unlike [burnengine_init], does not clear
    the timers): RAMP in band at 100 s starts the HOLD timer, the operator
    starts a 30 s boost at 101 s, the temperature dips below the band during
    the boost, and the expiry tick, back in band, lands in HOLD at once. *)
Lemma boost_expiry_with_running_hold_timer :
  let g0 := mkEngine BURN_RAMP false 0 false 0 false 0 false 0 LOW in
  let g1 := run_engine default_config [(100000, d_of_int 330)] g0 in
  let g2 := burnengine_startBoost 101000 g1 in
  let g3 := run_engine default_config [(110000, d_of_int 200)] g2 in
  let r := burnengine_compute default_config 131000 (d_of_int 330) g3 in
  holdTimerActive g1 = true /\ holdTimerActive g2 = true /\
  burnState g3 = BURN_BOOST /\ holdTimerActive g3 = true /\
  inHoldBand default_config (d_of_int 200) = false /\
  burnState (fst r) = BURN_HOLD /\ snd r = 40.
Proof. vm_compute. repeat split. Qed.

(** C4, amended. With the phase not SAFETY and the boost window active:
    on every tick whose elapsed time since the window started (on the 32-bit
    millisecond clock) is strictly less than boostTimeSeconds * 1000 the phase
    is BOOST, the window stays open, the damper is commanded open, the raw fan
    demand is 100 and the final fan percentage is 100, whatever the
    temperature; on the first tick at or past the duration the window closes
    ([boostActive] becomes false), the phase is set to RAMP and the rest of
    the tick (coal-bed entry, state machine, damper, fan demand) is evaluated
    from RAMP, so the phase is no longer BOOST, and it is RAMP with raw
    demand 100 and the damper open whenever the coal-bed entry does not fire
    on that tick and no HOLD timer was already running. *)
Theorem boost_window_policy :
  forall (cfg : Config) (now : Z) (t : double) (g : Engine) (m : FanMem),
    burnState g <> BURN_SAFETY ->
    boostActive g = true ->
    0 <= boostTimeSeconds cfg <= 32767 ->
    let elapsed := ulong_sub now (boostStartMs g) in
    let r := control_tick cfg now t (g, m) in
    let g' := fst (fst r) in
    (elapsed < boostTimeSeconds cfg * 1000 ->
       burnState g' = BURN_BOOST /\ boostActive g' = true /\
       damperRelay g' = LOW /\
       fst (snd r) = 100 /\ snd (snd r) = 100) /\
    (boostTimeSeconds cfg * 1000 <= elapsed ->
       boostActive g' = false /\
       burnState g' <> BURN_BOOST /\
       burnengine_compute cfg now t g =
         after_boost cfg now t (set_burnState BURN_RAMP (set_boostActive false g)) /\
       (coalbed_fires cfg now t g = false -> holdTimerActive g = false ->
          burnState g' = BURN_RAMP /\ fst (snd r) = 100 /\
          damperRelay g' = LOW)).
Proof.
  intros cfg now t g m Hs Hb Hrange elapsed r g'.
  pose proof (boost_duration_ms_small cfg Hrange) as Hd.
  split.
  - intros Hlt. subst g' r elapsed. unfold control_tick. simpl fst.
    rewrite (boost_tick_open cfg now t g Hs Hb) by (rewrite Hd; exact Hlt).
    simpl. repeat split; (reflexivity || exact Hb).
  - intros Hge. subst g' r elapsed. unfold control_tick. simpl fst.
    assert (He := boost_tick_expired cfg now t g Hs Hb
                    ltac:(rewrite Hd; exact Hge)).
    rewrite He.
    destruct (after_boost_from_ramp cfg now t
                (set_burnState BURN_RAMP (set_boostActive false g)) eq_refl)
      as (H1 & H2 & H3).
    destruct (after_boost cfg now t
                (set_burnState BURN_RAMP (set_boostActive false g)))
      as [g2 raw] eqn:Ea.
    destruct (fancontrol_apply cfg (burnState g2) raw m) as [m2 fin] eqn:Ef.
    simpl in *.
    repeat split; try assumption.
    + apply H3; assumption.
    + apply H3; assumption.
    + apply H3; assumption.
Qed.

Lemma boost_window_policy_witness :
  let g := burnengine_init 0 (mkEngine BURN_RAMP false 0 false 0 false 0 false 0 HIGH) in
  let m := fancontrol_init BURN_BOOST in
  let r := control_tick default_config 29999 (d_of_int 70) (g, m) in
  let r' := control_tick default_config 30001 (d_of_int 70) (g, m) in
  (burnState (fst (fst r)) = BURN_BOOST /\ damperRelay (fst (fst r)) = LOW /\
   fst (snd r) = 100 /\ snd (snd r) = 100) /\
  (boostActive (fst (fst r')) = false /\ burnState (fst (fst r')) = BURN_RAMP).
Proof.
  pose proof (boost_window_policy default_config 29999 (d_of_int 70)
                (burnengine_init 0
                   (mkEngine BURN_RAMP false 0 false 0 false 0 false 0 HIGH))
                (fancontrol_init BURN_BOOST)
                ltac:(discriminate) eq_refl ltac:(simpl; lia)) as H.
  pose proof (boost_window_policy default_config 30001 (d_of_int 70)
                (burnengine_init 0
                   (mkEngine BURN_RAMP false 0 false 0 false 0 false 0 HIGH))
                (fancontrol_init BURN_BOOST)
                ltac:(discriminate) eq_refl ltac:(simpl; lia)) as H'.
  cbv zeta in H, H'. cbv zeta.
  destruct H as (H1 & _). destruct H' as (_ & H2).
  split.
  - destruct (H1 ltac:(vm_compute; reflexivity)) as (Ha & _ & Hb & Hc & Hd).
    repeat split; assumption.
  - destruct (H2 ltac:(vm_compute; discriminate)) as (Ha & _ & _ & Hb).
    split; [exact Ha|].
    apply Hb; vm_compute; reflexivity.
Defined.

(* ================================================================== *)
(** * Coal-bed entry                                                    *)
(* ================================================================== *)

Lemma coalbed_entry_fires (cfg : Config) (now : Z) (t : double) (g : Engine) :
  coalbed_fires cfg now t g = true ->
  burnState (coalbed_entry cfg now t g) = BURN_COALBED /\
  holdTimerActive (coalbed_entry cfg now t g) = false /\
  rampTimerActive (coalbed_entry cfg now t g) = false /\
  coalbedTimerActive (coalbed_entry cfg now t g) = false.
Proof.
  intros Hf. rewrite coalbed_entry_eq. simpl. rewrite Hf.
  rewrite andb_false_r. repeat split.
Qed.

(** The coal-bed bookkeeping of the part of the tick below the BOOST block. *)
Lemma after_boost_coalbed (cfg : Config) (now : Z) (t : double) (g1 : Engine) :
  let g' := fst (after_boost cfg now t g1) in
  (belowFlueLow cfg t = false -> coalbedTimerActive g' = false) /\
  (belowFlueLow cfg t = true -> coalbed_fires cfg now t g1 = false ->
     coalbedTimerActive g' = true /\
     coalbedStartMs g' = coalbed_timer_start now g1) /\
  (coalbed_fires cfg now t g1 = true ->
     coalbedTimerActive g' = false /\ holdTimerActive g' = false /\
     rampTimerActive g' = false /\
     burnState g' = (if aboveHoldBand cfg t then BURN_RAMP else BURN_COALBED)) /\
  (coalbed_fires cfg now t g1 = false -> burnState g' = BURN_COALBED ->
     burnState g1 = BURN_COALBED).
Proof.
  destruct g1 as [bs ba bst ca cst ha hst ra rst dr].
  simpl. destruct bs, ca, ha, ra; tick_cases.
  all: repeat split; intros; tick_solve.
Qed.

(** A running coal-bed timer after a tick was running, below threshold,
    with the boost window closed. *)
Lemma coalbed_timer_after_tick (cfg : Config) (now : Z) (t : double) (g : Engine) :
  let g' := fst (burnengine_compute cfg now t g) in
  (coalbedTimerActive g = true -> boostActive g = false) ->
  coalbedTimerActive g' = true ->
  belowFlueLow cfg t = true /\ boostActive g' = false /\
  coalbedStartMs g' = coalbed_timer_start now g.
Proof.
  destruct g as [bs ba bst ca cst ha hst ra rst dr].
  simpl. destruct bs, ba, ca; tick_cases.
  all: intros Hinv Hact.
  all: try (specialize (Hinv eq_refl)); try discriminate; try congruence.
  all: repeat split; (reflexivity || assumption).
Qed.

(** A tick that moves the phase into COALBED has the temperature below
    threshold and the coal-bed timer at or past the required duration. *)
Lemma coalbed_entered_by_timer (cfg : Config) (now : Z) (t : double) (g : Engine) :
  let g' := fst (burnengine_compute cfg now t g) in
  (coalbedTimerActive g = true -> boostActive g = false) ->
  burnState g <> BURN_COALBED ->
  burnState g' = BURN_COALBED ->
  belowFlueLow cfg t = true /\
  coalbed_required_ms cfg <= ulong_sub now (coalbed_timer_start now g).
Proof.
  destruct g as [bs ba bst ca cst ha hst ra rst dr].
  simpl. destruct bs, ba, ca; tick_cases.
  all: intros Hinv Hne Hc.
  all: try (specialize (Hinv eq_refl)); try discriminate; try congruence.
  all: repeat split; (reflexivity || assumption || lia).
Qed.

Lemma coalbed_window_extend (cfg : Config) (hist : list (Z * double))
      (start now : Z) (t : double) :
  coalbed_window cfg hist start -> belowFlueLow cfg t = true ->
  coalbed_window cfg (hist ++ [(now, t)]) start.
Proof.
  intros (pre & t0 & rest & -> & Hall) Hin.
  exists pre, t0, (rest ++ [(now, t)]). split.
  - now rewrite <- app_assoc.
  - change ((start, t0) :: rest ++ [(now, t)])
      with (((start, t0) :: rest) ++ [(now, t)]).
    apply Forall_app. split; [assumption|]. constructor; [assumption|constructor].
Qed.

Lemma coalbed_window_start (cfg : Config) (hist : list (Z * double))
      (now : Z) (t : double) :
  belowFlueLow cfg t = true -> coalbed_window cfg (hist ++ [(now, t)]) now.
Proof.
  intros Hin. exists hist, t, []. split; [reflexivity|].
  constructor; [assumption|constructor].
Qed.

Lemma coalbed_timer_sound_step (cfg : Config) (hist : list (Z * double))
      (g : Engine) (now : Z) (t : double) :
  coalbed_timer_sound cfg hist g ->
  coalbed_timer_sound cfg (hist ++ [(now, t)]) (engine_step cfg g (now, t)).
Proof.
  intros Hs Hact. unfold engine_step in *. simpl in *.
  assert (Hinv : coalbedTimerActive g = true -> boostActive g = false).
  { intros H. now destruct (Hs H). }
  destruct (coalbed_timer_after_tick cfg now t g Hinv Hact) as (Hb & Hba & Hst).
  split; [assumption|].
  rewrite Hst. unfold coalbed_timer_start.
  destruct (coalbedTimerActive g) eqn:Ha.
  - destruct (Hs Ha) as (_ & Hw). now apply coalbed_window_extend.
  - now apply coalbed_window_start.
Qed.

Lemma coalbed_timer_sound_run (cfg : Config) (ins hist : list (Z * double))
      (g : Engine) :
  coalbed_timer_sound cfg hist g ->
  coalbed_timer_sound cfg (hist ++ ins) (run_engine cfg ins g).
Proof.
  revert hist g. induction ins as [|[now t] rest IH]; intros hist g Hs.
  - now rewrite app_nil_r.
  - change ((now, t) :: rest) with ([(now, t)] ++ rest).
    rewrite app_assoc. unfold run_engine. simpl.
    apply (IH (hist ++ [(now, t)]) (engine_step cfg g (now, t))).
    now apply coalbed_timer_sound_step.
Qed.

(** Over a run of ticks, COALBED is entered only at the end of an unbroken
    run of below-threshold ticks that is at least the required time old. *)
Lemma coalbed_entry_needs_window (cfg : Config) (ins : list (Z * double))
      (g0 : Engine) (now : Z) (t : double) :
  coalbedTimerActive g0 = false ->
  burnState (run_engine cfg ins g0) <> BURN_COALBED ->
  burnState (fst (burnengine_compute cfg now t (run_engine cfg ins g0)))
    = BURN_COALBED ->
  exists pre start t0 rest,
    ins ++ [(now, t)] = pre ++ (start, t0) :: rest /\
    Forall (fun i => belowFlueLow cfg (snd i) = true) ((start, t0) :: rest) /\
    coalbed_required_ms cfg <= ulong_sub now start.
Proof.
  intros H0 Hne Hc.
  assert (Hs0 : coalbed_timer_sound cfg [] g0) by (intros H; congruence).
  pose proof (coalbed_timer_sound_run cfg ins [] g0 Hs0) as Hs. simpl in Hs.
  set (g := run_engine cfg ins g0) in *.
  assert (Hinv : coalbedTimerActive g = true -> boostActive g = false).
  { intros H. now destruct (Hs H). }
  destruct (coalbed_entered_by_timer cfg now t g Hinv Hne Hc) as (Hb & Hel).
  unfold coalbed_timer_start in Hel.
  destruct (coalbedTimerActive g) eqn:Ha.
  - destruct (Hs Ha) as (_ & Hw).
    destruct (coalbed_window_extend cfg ins (coalbedStartMs g) now t Hw Hb)
      as (pre & t0 & rest & Heq & Hall).
    exists pre, (coalbedStartMs g), t0, rest. repeat split; assumption.
  - exists ins, now, t, []. repeat split; try assumption.
    constructor; [assumption|constructor].
Qed.

(** C5, as stated, fails: the entry can fire and the tick still end in
    RAMP.  Setpoint 350, deadband 25, flue-low threshold 400 (all within the
    editor's bounds), coal-bed timer 30 min; the temperature has been 380,
    below flue-low, since 0 and the phase is HOLD.  At 1,800,000 ms the entry
    fires and writes COALBED, and the COALBED exit test of the same tick
    (380 > 325) writes RAMP: no tick ever shows COALBED. *)
Lemma coalbed_entry_undone_by_exit :
  let cfg := mkConfig 350 30 25 10 100 0 30 400 450 in
  let g := mkEngine BURN_HOLD false 0 true 0 false 0 false 0 LOW in
  let t := d_of_int 380 in
  let r := burnengine_compute cfg 1800000 t g in
  validateSettings cfg = cfg /\
  belowFlueLow cfg t = true /\
  coalBedTimerMinutes cfg * 60 * 1000 <= ulong_sub 1800000 (coalbedStartMs g) /\
  coalbed_fires cfg 1800000 t g = true /\
  burnState (fst r) = BURN_RAMP /\ burnState (fst r) <> BURN_COALBED /\
  snd r = 100.
Proof. vm_compute. repeat split; discriminate. Qed.

(** C5, amended. A tick that begins in SAFETY stays in SAFETY, and a tick
    inside an open boost window stays in BOOST and leaves the coal-bed timer
    untouched: the entry overrides neither.  On every other tick: if the
    smoothed temperature is not below flueLowThreshold (in particular when it
    is at or above it) the coal-bed timer is cancelled; if it is below, the
    timer runs (from its stored start, or from
    now when it starts), and once the elapsed time reaches the required
    duration (coalBedTimerMinutes * 60000 ms) the entry block sets the phase
    to COALBED and clears the coal-bed, HOLD and RAMP timers, whatever the
    phase was; the tick then ends in COALBED, unless the temperature is above
    setpoint - deadband, in which case the COALBED exit test of the same tick
    returns it to RAMP (timers still cleared).  A tick on which the entry does
    not fire ends in COALBED only if it began there; and over any run of engine
    ticks that starts with the coal-bed timer inactive, a tick that moves the
    phase into COALBED closes an unbroken run of below-threshold ticks whose
    first tick is at least the required duration old. *)
Theorem coalbed_entry_policy :
  forall (cfg : Config) (now : Z) (t : double) (g : Engine),
    let g' := fst (burnengine_compute cfg now t g) in
    (burnState g = BURN_SAFETY ->
       burnState g' = BURN_SAFETY /\ coalbedTimerActive g' = false) /\
    (burnState g <> BURN_SAFETY -> boostActive g = true ->
     ulong_sub now (boostStartMs g) < boost_duration_ms cfg ->
       burnState g' = BURN_BOOST /\
       coalbedTimerActive g' = coalbedTimerActive g /\
       coalbedStartMs g' = coalbedStartMs g) /\
    (burnState g <> BURN_SAFETY ->
     boostActive g = false \/
     boost_duration_ms cfg <= ulong_sub now (boostStartMs g) ->
       (belowFlueLow cfg t = false -> coalbedTimerActive g' = false) /\
       (d_ge t (d_of_int (flueLowThreshold cfg)) = true ->
          coalbedTimerActive g' = false) /\
       (belowFlueLow cfg t = true -> coalbed_fires cfg now t g = false ->
          coalbedTimerActive g' = true /\
          coalbedStartMs g' = coalbed_timer_start now g) /\
       (coalbed_fires cfg now t g = true ->
          burnState (coalbed_entry cfg now t g) = BURN_COALBED /\
          coalbedTimerActive g' = false /\ holdTimerActive g' = false /\
          rampTimerActive g' = false /\
          burnState g' =
            (if aboveHoldBand cfg t then BURN_RAMP else BURN_COALBED)) /\
       (coalbed_fires cfg now t g = false -> burnState g' = BURN_COALBED ->
          burnState g = BURN_COALBED)) /\
    (0 <= coalBedTimerMinutes cfg <= 32767 ->
       coalbed_required_ms cfg = coalBedTimerMinutes cfg * 60 * 1000) /\
    (forall ins g0,
        coalbedTimerActive g0 = false ->
        g = run_engine cfg ins g0 ->
        burnState g <> BURN_COALBED -> burnState g' = BURN_COALBED ->
        exists pre start t0 rest,
          ins ++ [(now, t)] = pre ++ (start, t0) :: rest /\
          Forall (fun i => belowFlueLow cfg (snd i) = true)
                 ((start, t0) :: rest) /\
          coalbed_required_ms cfg <= ulong_sub now start).
Proof.
  intros cfg now t g g'. subst g'.
  split; [|split; [|split; [|split]]].
  - intros Hs. unfold burnengine_compute. rewrite Hs. simpl. now split.
  - intros Hs Hb Hlt. rewrite (boost_tick_open cfg now t g Hs Hb Hlt).
    simpl. repeat split.
  - intros Hs Hw.
    assert (Hc : exists g1,
               burnengine_compute cfg now t g = after_boost cfg now t g1 /\
               coalbed_fires cfg now t g1 = coalbed_fires cfg now t g /\
               coalbed_timer_start now g1 = coalbed_timer_start now g /\
               (burnState g1 = BURN_COALBED -> burnState g = BURN_COALBED)).
    { destruct (boostActive g) eqn:Hb.
      - destruct Hw as [Hw|Hw]; [discriminate|].
        exists (set_burnState BURN_RAMP (set_boostActive false g)).
        split; [now apply boost_tick_expired|].
        repeat split. simpl. discriminate.
      - exists g. split; [|repeat split; auto].
        unfold burnengine_compute, boost_mode. rewrite Hb.
        destruct (burnState g); try reflexivity. congruence. }
    destruct Hc as (g1 & -> & Hf & Hst & Hcb).
    destruct (after_boost_coalbed cfg now t g1) as (H1 & H2 & H3 & H4).
    rewrite Hf in H2, H3, H4. rewrite Hst in H2.
    split; [exact H1|].
    split; [intros Hge; apply H1; now apply d_ge_not_lt|].
    split; [exact H2|]. split.
    + intros Hfire. split; [now apply coalbed_entry_fires | now apply H3].
    + intros Hnf Hc. apply Hcb. now apply H4.
  - apply coalbed_required_ms_small.
  - intros ins g0 H0 -> Hne Hc.
    exact (coalbed_entry_needs_window cfg ins g0 now t H0 Hne Hc).
Qed.

Lemma coalbed_entry_policy_witness :
  let g := mkEngine BURN_HOLD false 0 true 0 false 0 true 1700000 LOW in
  let t := d_of_int 240 in
  let g' := fst (burnengine_compute default_config 1800000 t g) in
  coalbed_fires default_config 1800000 t g = true /\
  burnState g' = BURN_COALBED /\ coalbedTimerActive g' = false /\
  holdTimerActive g' = false /\ rampTimerActive g' = false.
Proof.
  pose proof (coalbed_entry_policy default_config 1800000 (d_of_int 240)
                (mkEngine BURN_HOLD false 0 true 0 false 0 true 1700000 LOW))
    as H.
  cbv zeta in H. destruct H as (_ & _ & H & _).
  destruct (H ltac:(discriminate) (or_introl eq_refl)) as (_ & _ & _ & Hf & _).
  assert (Hfire : coalbed_fires default_config 1800000 (d_of_int 240)
                    (mkEngine BURN_HOLD false 0 true 0 false 0 true 1700000 LOW)
                  = true) by (vm_compute; reflexivity).
  destruct (Hf Hfire) as (_ & Hc & Hh & Hr & Hp).
  cbv zeta. split; [exact Hfire|]. split; [|repeat split; assumption].
  rewrite Hp. vm_compute. reflexivity.
Defined.

(* ================================================================== *)
(** * The HOLD fan curve                                                *)
(* ================================================================== *)


Lemma In_Z_range (lo len z : Z) :
  lo <= z < lo + len -> In z (Z_range lo len).
Proof.
  intros H. unfold Z_range. apply in_map_iff.
  exists (Z.to_nat (z - lo)). split; [lia|]. apply in_seq. lia.
Qed.










(** The raw demand is a function of the phase the tick ends in. *)
Lemma raw_demand_of_final_phase (cfg : Config) (now : Z) (t : double) (g : Engine) :
  snd (burnengine_compute cfg now t g)
  = fan_demand cfg t (fst (burnengine_compute cfg now t g)).
Proof.
  unfold burnengine_compute, boost_mode.
  destruct (burnState g) eqn:Hs;
    try (unfold fan_demand; simpl; rewrite Hs; reflexivity);
    destruct (boostActive g); try reflexivity;
    destruct (ulong_sub now (boostStartMs g) <? boost_duration_ms cfg);
    reflexivity.
Qed.




(* ================================================================== *)
(** * The sensor cache                                                  *)
(* ================================================================== *)

Local Arguments temp_F : simpl never.
Local Arguments raw_word : simpl never.
Local Arguments impossible : simpl never.
Local Arguments spike : simpl never.
Local Arguments fault_bit : simpl never.

Lemma impossible_nan : impossible NAN = false.
Proof. reflexivity. Qed.

Lemma readMAX31855_F_cases (f : SpiFrame) :
  (readMAX31855_F f = NAN /\
   (fault_bit (raw_word f) = true \/ impossible (temp_F (raw_word f)) = true)) \/
  (readMAX31855_F f = temp_F (raw_word f) /\
   fault_bit (raw_word f) = false /\ impossible (temp_F (raw_word f)) = false).
Proof.
  unfold readMAX31855_F.
  destruct (fault_bit (raw_word f)); [left; auto|].
  destruct (impossible (temp_F (raw_word f))); [left; auto|right; auto].
Qed.

(** One call either leaves the cache alone and returns it, or caches and
    returns the decoded temperature of a frame that passed all three tests. *)
Lemma exhaust_readF_cached_cases (now : Z) (f : SpiFrame) (s : SensorState) :
  let r := exhaust_readF_cached now f s in
  (lastTCValueF (fst r) = lastTCValueF s /\ snd r = lastTCValueF s) \/
  (sample_rejected f s = false /\
   500 <= ulong_sub now (lastTCRead s) /\
   lastTCValueF (fst r) = temp_F (raw_word f) /\
   snd r = temp_F (raw_word f)).
Proof.
  unfold exhaust_readF_cached, sample_rejected.
  destruct (Z.geb_spec (ulong_sub now (lastTCRead s)) 500) as [Hg|Hg];
    [|left; split; reflexivity].
  cbn [lastTCValueF lastTCRead].
  destruct (readMAX31855_F_cases f) as [(-> & _)|(-> & Hf & Hi)].
  - left. split; reflexivity.
  - rewrite Hf, Hi.
    generalize (temp_F (raw_word f)). intros t.
    destruct (isnan t) eqn:Hn; cbn [negb orb];
      [left; split; reflexivity|].
    destruct (negb (isnan (lastTCValueF s)) && spike t (lastTCValueF s))
      eqn:Hsp.
    + left. split; reflexivity.
    + right. repeat split; (reflexivity || lia).
Qed.

Lemma exhaust_readF_cached_rejects (now : Z) (f : SpiFrame) (s : SensorState) :
  sample_rejected f s = true ->
  lastTCValueF (fst (exhaust_readF_cached now f s)) = lastTCValueF s /\
  snd (exhaust_readF_cached now f s) = lastTCValueF s.
Proof.
  intros Hr.
  destruct (exhaust_readF_cached_cases now f s) as [H|(Hn & _)];
    [exact H | congruence].
Qed.

Lemma run_cache_origin (calls : list (Z * SpiFrame)) (s0 : SensorState) :
  lastTCValueF (run calls s0) = lastTCValueF s0 \/
  exists now f,
    In (now, f) calls /\
    fault_bit (raw_word f) = false /\
    impossible (temp_F (raw_word f)) = false /\
    lastTCValueF (run calls s0) = temp_F (raw_word f).
Proof.
  revert s0. induction calls as [|[now f] rest IH]; intros s0; simpl.
  - left. reflexivity.
  - destruct (IH (fst (exhaust_readF_cached now f s0)))
      as [Heq|(now' & f' & Hin & Hf & Hi & Heq)].
    + rewrite Heq.
      destruct (exhaust_readF_cached_cases now f s0)
        as [(Hc & _)|(Hrej & _ & Hc & _)].
      * left. exact Hc.
      * right. exists now, f. unfold sample_rejected in Hrej.
        apply orb_false_elim in Hrej. destruct Hrej as [Hrej _].
        apply orb_false_elim in Hrej. destruct Hrej as [Hf Hi].
        repeat split; auto.
    + right. exists now', f'. repeat split; auto.
Qed.

(** C8. A call of [exhaust_readF_cached] whose reading signals a hardware
    fault, decodes to a temperature outside -100..2000 F, or differs from the
    cached value by more than 150 F leaves the cached raw value unchanged and
    returns it, whether or not the cadence gate let the read happen; and after
    every sequence of calls the cached value is either the one the sequence
    started with or the decoded temperature of one of its frames that carried
    no fault bit and lay within the range, so that a cache that starts
    plausible (NAN, or within range) never holds an out-of-range value. *)
Theorem sensor_cache_rejects_bad_samples :
  (forall (now : Z) (f : SpiFrame) (s : SensorState),
      sample_rejected f s = true ->
      let r := exhaust_readF_cached now f s in
      lastTCValueF (fst r) = lastTCValueF s /\ snd r = lastTCValueF s) /\
  (forall (calls : list (Z * SpiFrame)) (s0 : SensorState),
      (lastTCValueF (run calls s0) = lastTCValueF s0 \/
       exists now f,
         In (now, f) calls /\
         fault_bit (raw_word f) = false /\
         impossible (temp_F (raw_word f)) = false /\
         lastTCValueF (run calls s0) = temp_F (raw_word f)) /\
      (impossible (lastTCValueF s0) = false ->
       impossible (lastTCValueF (run calls s0)) = false)).
Proof.
  split.
  - intros now f s Hr. exact (exhaust_readF_cached_rejects now f s Hr).
  - intros calls s0. split; [apply run_cache_origin|].
    intros H0. destruct (run_cache_origin calls s0)
      as [->|(now & f & _ & _ & Hi & ->)]; assumption.
Qed.

(** A frame for 150 C (302 F) followed, one cadence interval later, by a
    frame for 1200 C (2192 F, outside the range): the second is rejected and
    the cache keeps 302 F. *)
Lemma sensor_cache_rejects_bad_samples_witness :
  let good := mkSpiFrame 9 96 0 0 in
  let bad := mkSpiFrame 75 0 0 0 in
  let s1 := run [(500, good)] initial_state in
  let r := exhaust_readF_cached 1000 bad s1 in
  lastTCValueF s1 = d_of_int 302 /\
  temp_F (raw_word bad) = d_of_int 2192 /\
  sample_rejected bad s1 = true /\
  lastTCValueF (fst r) = d_of_int 302 /\ snd r = d_of_int 302.
Proof.
  assert (H1 : lastTCValueF (run [(500, mkSpiFrame 9 96 0 0)] initial_state)
               = d_of_int 302) by (vm_compute; reflexivity).
  assert (Hrej : sample_rejected (mkSpiFrame 75 0 0 0)
                   (run [(500, mkSpiFrame 9 96 0 0)] initial_state) = true)
    by (vm_compute; reflexivity).
  destruct sensor_cache_rejects_bad_samples as [Hstep _].
  destruct (Hstep 1000 _ _ Hrej) as [Ha Hb].
  cbv zeta. split; [exact H1|]. split; [vm_compute; reflexivity|].
  split; [exact Hrej|]. split; [rewrite Ha | rewrite Hb]; exact H1.
Defined.

(* ================================================================== *)
(** * The configuration invariant                                       *)
(* ================================================================== *)

Local Arguments to_int16 : simpl never.

Ltac no_test t :=
  lazymatch t with
  | context [if _ then _ else _] => fail
  | _ => idtac
  end.

(** Decide the integer tests of the goal, innermost first. *)
Ltac zcases :=
  repeat (match goal with
          | |- context [?a <? ?b] =>
              no_test a; no_test b; destruct (Z.ltb_spec a b)
          | |- context [?a >? ?b] =>
              no_test a; no_test b; destruct (Z.gtb_spec a b)
          end;
          cbn [orb andb negb]).

Lemma limit_spec (v lo hi : Z) : limit v lo hi = Z.min (Z.max v lo) hi.
Proof. unfold limit. zcases; lia. Qed.

(** Whatever it is handed, [validateSettings] returns a configuration
    with both inequalities and the four fields within their ranges. *)
Lemma validateSettings_validated (c : Config) :
  settings_validated (validateSettings c).
Proof.
  unfold settings_validated, validateSettings.
  cbn [clampMinPercent clampMaxPercent flueLowThreshold flueRecoveryThreshold].
  zcases; rewrite ?to_int16_small by (unfold int16_range; lia); lia.
Qed.

Lemma settings_validated_consistent (c : Config) :
  settings_validated c -> settings_consistent c.
Proof. unfold settings_validated, settings_consistent. lia. Qed.

(** Every edit ends with a freshly validated configuration. *)
Lemma ui_handleKey_edit_validated (now : Z) (e : Edit) (s : System) :
  exists c0, sys_config (ui_handleKey_edit now e s) = validateSettings c0.
Proof.
  destruct e; simpl; eexists; reflexivity.
Qed.

Lemma boot_validated (rom : EEPROM) (g : Engine) :
  exists c0, sys_config (boot rom g) = validateSettings c0.
Proof.
  unfold boot, eeprom_init.
  destruct (negb (readByte ADDR_VERSION rom =? EEPROM_VERSION));
    simpl; eexists; reflexivity.
Qed.

Lemma run_edits_validated (edits : list (Z * Edit)) (s : System) :
  (exists c0, sys_config s = validateSettings c0) ->
  exists c0, sys_config (run_edits edits s) = validateSettings c0.
Proof.
  revert s. induction edits as [|[now e] rest IH]; intros s Hs; simpl.
  - exact Hs.
  - apply IH. apply ui_handleKey_edit_validated.
Qed.

(** The repairs made by the four edits that touch a bound. *)
Lemma edit_clamp_max (now v : Z) (s : System) :
  settings_validated (sys_config s) ->
  let c' := sys_config (ui_handleKey_edit now (SaveClampMax v) s) in
  clampMaxPercent c' = limit v 0 100 /\
  clampMinPercent c' = Z.min (clampMinPercent (sys_config s)) (limit v 0 100).
Proof.
  unfold settings_validated. intros Hv.
  pose proof (limit_spec v 0 100) as Hl.
  cbn [ui_handleKey_edit with_config eeprom_saveClampMax sys_config fst].
  unfold validateSettings.
  cbn [clampMinPercent clampMaxPercent set_clampMaxPercent].
  rewrite !to_int16_small by (unfold int16_range; lia).
  zcases; lia.
Qed.

Lemma edit_clamp_min (now v : Z) (s : System) :
  settings_validated (sys_config s) ->
  let c' := sys_config (ui_handleKey_edit now (SaveClampMin v) s) in
  clampMaxPercent c' = clampMaxPercent (sys_config s) /\
  clampMinPercent c' = Z.min (limit v 0 100) (clampMaxPercent (sys_config s)).
Proof.
  unfold settings_validated. intros Hv.
  pose proof (limit_spec v 0 100) as Hl.
  cbn [ui_handleKey_edit with_config eeprom_saveClampMin sys_config fst].
  unfold validateSettings.
  cbn [clampMinPercent clampMaxPercent set_clampMinPercent].
  rewrite !to_int16_small by (unfold int16_range; lia).
  zcases; lia.
Qed.

Lemma edit_flue_low (now v : Z) (s : System) :
  settings_validated (sys_config s) ->
  let c := sys_config s in
  let c' := sys_config (ui_handleKey_edit now (SaveFlueLow v) s) in
  flueLowThreshold c' = limit v 200 500 /\
  flueRecoveryThreshold c' =
    (if (flueRecoveryThreshold c >? 900)
        || (flueRecoveryThreshold c <? limit v 200 500 + 10)
     then limit v 200 500 + 50
     else flueRecoveryThreshold c).
Proof.
  unfold settings_validated. intros Hv.
  pose proof (limit_spec v 200 500) as Hl.
  cbn [ui_handleKey_edit with_config eeprom_saveFlueLow sys_config fst].
  unfold validateSettings.
  cbn [flueLowThreshold flueRecoveryThreshold set_flueLowThreshold].
  rewrite !(to_int16_small (limit v 200 500)) by (unfold int16_range; lia).
  zcases; rewrite ?to_int16_small by (unfold int16_range; lia); lia.
Qed.

Lemma edit_flue_rec (now v : Z) (s : System) :
  settings_validated (sys_config s) ->
  let c := sys_config s in
  let c' := sys_config (ui_handleKey_edit now (SaveFlueRec v) s) in
  flueLowThreshold c' = flueLowThreshold c /\
  flueRecoveryThreshold c' =
    (let v1 := limit v (flueLowThreshold c + 10) 600 in
     if v1 <? flueLowThreshold c + 10 then flueLowThreshold c + 50 else v1).
Proof.
  unfold settings_validated. intros Hv.
  pose proof (limit_spec v (flueLowThreshold (sys_config s) + 10) 600) as Hl.
  cbn [ui_handleKey_edit with_config eeprom_saveFlueRecovery sys_config fst].
  unfold validateSettings.
  cbn [flueLowThreshold flueRecoveryThreshold set_flueRecoveryThreshold].
  rewrite !(to_int16_small (limit v (flueLowThreshold (sys_config s) + 10) 600))
    by (unfold int16_range; lia).
  cbv zeta.
  zcases; rewrite ?to_int16_small by (unfold int16_range; lia); lia.
Qed.

(** C9. After [eeprom_init] and after every completed edit, for every
    EEPROM content, every sequence of edits and every entered value,
    clampMinPercent <= clampMaxPercent and flueRecoveryThreshold >=
    flueLowThreshold + 10.  No edit is refused; the one that would break an
    inequality is repaired: a new clamp-maximum (limited to 0..100) pulls
    clamp-minimum down to it, a new clamp-minimum is cut to clamp-maximum, a
    new flue-low threshold (limited to 200..500) moves a recovery threshold
    that is no longer 10 above it (or is above 900) to flue-low + 50, and a
    new recovery threshold is raised to flue-low + 10 and limited to 600 (to
    flue-low + 50 if 600 is still too low). *)
Theorem settings_consistent_after_every_edit :
  forall (rom : EEPROM) (g : Engine) (edits : list (Z * Edit)),
    let s := run_edits edits (boot rom g) in
    let c := sys_config s in
    (clampMinPercent c <= clampMaxPercent c /\
     flueRecoveryThreshold c >= flueLowThreshold c + 10) /\
    (forall now v,
        let c' := sys_config (ui_handleKey_edit now (SaveClampMax v) s) in
        clampMaxPercent c' = limit v 0 100 /\
        clampMinPercent c' = Z.min (clampMinPercent c) (limit v 0 100)) /\
    (forall now v,
        let c' := sys_config (ui_handleKey_edit now (SaveClampMin v) s) in
        clampMaxPercent c' = clampMaxPercent c /\
        clampMinPercent c' = Z.min (limit v 0 100) (clampMaxPercent c)) /\
    (forall now v,
        let c' := sys_config (ui_handleKey_edit now (SaveFlueLow v) s) in
        flueLowThreshold c' = limit v 200 500 /\
        flueRecoveryThreshold c' =
          (if (flueRecoveryThreshold c >? 900)
              || (flueRecoveryThreshold c <? limit v 200 500 + 10)
           then limit v 200 500 + 50
           else flueRecoveryThreshold c)) /\
    (forall now v,
        let c' := sys_config (ui_handleKey_edit now (SaveFlueRec v) s) in
        flueLowThreshold c' = flueLowThreshold c /\
        flueRecoveryThreshold c' =
          (let v1 := limit v (flueLowThreshold c + 10) 600 in
           if v1 <? flueLowThreshold c + 10
           then flueLowThreshold c + 50 else v1)).
Proof.
  intros rom g edits s c.
  assert (Hv : settings_validated c).
  { destruct (run_edits_validated edits (boot rom g) (boot_validated rom g))
      as (c0 & Hc0).
    unfold c, s. rewrite Hc0. apply validateSettings_validated. }
  split.
  - destruct (settings_validated_consistent c Hv). split; lia.
  - split; [|split; [|split]]; intros now v.
    + exact (edit_clamp_max now v s Hv).
    + exact (edit_clamp_min now v s Hv).
    + exact (edit_flue_low now v s Hv).
    + exact (edit_flue_rec now v s Hv).
Qed.

(** A session on a blank EEPROM: clamp-maximum is set to 30, clamp-minimum
    to 80 (cut to 30), flue-low to 450 (the recovery threshold 300 moves to
    500). *)
Example settings_session :
  let s := run_edits [(1000, SaveClampMax 30); (2000, SaveClampMin 80);
                      (3000, SaveFlueLow 450)]
                     (boot (fun _ => 255)
                           (mkEngine BURN_BOOST true 0 false 0 false 0 false 0 HIGH)) in
  clampMaxPercent (sys_config s) = 30 /\
  clampMinPercent (sys_config s) = 30 /\
  flueLowThreshold (sys_config s) = 450 /\
  flueRecoveryThreshold (sys_config s) = 500.
Proof. vm_compute. repeat split. Qed.

(* ================================================================== *)
(** * HOLD back to RAMP: the fallback window                            *)
(* ================================================================== *)

Ltac hold_cases := unfold belowRampBand, ramp_timer_start; tick_cases.

(** One tick that starts in HOLD with the boost window closed and on
    which the coal-bed entry does not fire. *)
Lemma hold_tick (cfg : Config) (now : Z) (t : double) (g : Engine) :
  let g' := fst (burnengine_compute cfg now t g) in
  burnState g = BURN_HOLD -> boostActive g = false ->
  coalbed_fires cfg now t g = false ->
  (burnState g' = BURN_RAMP <->
     belowRampBand cfg t = true /\
     RAMP_STABILITY_MS <= ulong_sub now (ramp_timer_start now g)) /\
  (burnState g' = BURN_RAMP ->
     rampTimerActive g' = false /\ holdTimerActive g' = false) /\
  (burnState g' <> BURN_RAMP -> burnState g' = BURN_HOLD) /\
  (belowRampBand cfg t = true -> burnState g' <> BURN_RAMP ->
     rampTimerActive g' = true /\ rampStartMs g' = ramp_timer_start now g).
Proof.
  destruct g as [bs ba bst ca cst ha hst ra rst dr].
  simpl. intros -> ->. destruct ca, ra; hold_cases.
  all: intros Hf; try discriminate Hf.
  all: unfold RAMP_STABILITY_MS.
  all: repeat split; intros; tick_solve.
  all: try (match goal with H : _ /\ _ |- _ => destruct H end); tick_solve.
Qed.

(** A HOLD tick at or above the fallback threshold cancels the
    fallback timer, whatever the coal-bed entry does. *)
Lemma hold_tick_above_band (cfg : Config) (now : Z) (t : double) (g : Engine) :
  let g' := fst (burnengine_compute cfg now t g) in
  burnState g = BURN_HOLD -> boostActive g = false ->
  belowRampBand cfg t = false ->
  rampTimerActive g' = false /\
  (coalbed_fires cfg now t g = false -> burnState g' = BURN_HOLD).
Proof.
  destruct g as [bs ba bst ca cst ha hst ra rst dr].
  simpl. intros -> ->. destruct ca, ra; hold_cases.
  all: intros Hb; tick_solve.
Qed.

(** A running fallback timer after a tick was running under HOLD, below
    the threshold. *)
Lemma ramp_timer_after_tick (cfg : Config) (now : Z) (t : double) (g : Engine) :
  let g' := fst (burnengine_compute cfg now t g) in
  (rampTimerActive g = true -> boostActive g = false /\ burnState g = BURN_HOLD) ->
  rampTimerActive g' = true ->
  belowRampBand cfg t = true /\ burnState g' = BURN_HOLD /\ boostActive g' = false /\
  rampStartMs g' = ramp_timer_start now g.
Proof.
  destruct g as [bs ba bst ca cst ha hst ra rst dr].
  simpl. destruct bs, ba, ca, ra; hold_cases.
  all: intros Hinv Hact.
  all: try (destruct Hinv as [? ?]; [reflexivity|]); try discriminate; try congruence.
  all: repeat split; (reflexivity || assumption).
Qed.

(** A tick that moves HOLD to RAMP without the coal-bed entry firing
    found the fallback timer running for at least [RAMP_STABILITY_MS]. *)
Lemma ramp_entered_by_timer (cfg : Config) (now : Z) (t : double) (g : Engine) :
  let g' := fst (burnengine_compute cfg now t g) in
  (rampTimerActive g = true -> boostActive g = false /\ burnState g = BURN_HOLD) ->
  burnState g = BURN_HOLD -> boostActive g = false ->
  coalbed_fires cfg now t g = false ->
  burnState g' = BURN_RAMP ->
  belowRampBand cfg t = true /\
  RAMP_STABILITY_MS <= ulong_sub now (ramp_timer_start now g).
Proof.
  intros g' _ Hh Hb Hf Hr.
  destruct (hold_tick cfg now t g Hh Hb Hf) as (H1 & _).
  apply H1. exact Hr.
Qed.

Lemma ramp_window_extend (cfg : Config) (hist : list (Z * double))
      (start now : Z) (t : double) :
  ramp_window cfg hist start -> belowRampBand cfg t = true ->
  ramp_window cfg (hist ++ [(now, t)]) start.
Proof.
  intros (pre & t0 & rest & -> & Hall) Hin.
  exists pre, t0, (rest ++ [(now, t)]). split.
  - now rewrite <- app_assoc.
  - change ((start, t0) :: rest ++ [(now, t)])
      with (((start, t0) :: rest) ++ [(now, t)]).
    apply Forall_app. split; [assumption|]. constructor; [assumption|constructor].
Qed.

Lemma ramp_window_start (cfg : Config) (hist : list (Z * double))
      (now : Z) (t : double) :
  belowRampBand cfg t = true -> ramp_window cfg (hist ++ [(now, t)]) now.
Proof.
  intros Hin. exists hist, t, []. split; [reflexivity|].
  constructor; [assumption|constructor].
Qed.

Lemma ramp_timer_sound_step (cfg : Config) (hist : list (Z * double))
      (g : Engine) (now : Z) (t : double) :
  ramp_timer_sound cfg hist g ->
  ramp_timer_sound cfg (hist ++ [(now, t)]) (engine_step cfg g (now, t)).
Proof.
  intros Hs Hact. unfold engine_step in *. simpl in *.
  assert (Hinv : rampTimerActive g = true ->
                 boostActive g = false /\ burnState g = BURN_HOLD).
  { intros H. destruct (Hs H) as (? & ? & _). now split. }
  destruct (ramp_timer_after_tick cfg now t g Hinv Hact) as (Hin & Hr & Hb & Hst).
  split; [assumption|]. split; [assumption|].
  rewrite Hst. unfold ramp_timer_start.
  destruct (rampTimerActive g) eqn:Ha.
  - destruct (Hs Ha) as (_ & _ & Hw). now apply ramp_window_extend.
  - now apply ramp_window_start.
Qed.

Lemma ramp_timer_sound_run (cfg : Config) (ins hist : list (Z * double))
      (g : Engine) :
  ramp_timer_sound cfg hist g ->
  ramp_timer_sound cfg (hist ++ ins) (run_engine cfg ins g).
Proof.
  revert hist g. induction ins as [|[now t] rest IH]; intros hist g Hs.
  - now rewrite app_nil_r.
  - change ((now, t) :: rest) with ([(now, t)] ++ rest).
    rewrite app_assoc. unfold run_engine. simpl.
    apply (IH (hist ++ [(now, t)]) (engine_step cfg g (now, t))).
    now apply ramp_timer_sound_step.
Qed.

(** X1.  The HOLD case of the state machine.  (1) On a tick that starts in
    HOLD (boost window closed) and on which the coal-bed entry does not fire,
    the phase falls back to RAMP exactly when the temperature is below
    [setpoint - 2 * deadband] and the fallback timer has been running for at
    least 3000 ms on the 32-bit clock; the fallback clears both stability
    timers, and otherwise the phase stays HOLD with the timer running from its
    original start.  (2) A HOLD tick not below that threshold cancels the
    timer.  (3) Over any run of engine ticks that starts with the fallback
    timer inactive, such a fallback closes an unbroken run of below-threshold
    ticks whose first tick is at least 3000 ms old. *)
Theorem ramp_fallback_needs_unbroken_window :
  forall (cfg : Config),
    (forall now t g,
        burnState g = BURN_HOLD -> boostActive g = false ->
        coalbed_fires cfg now t g = false ->
        let g' := fst (burnengine_compute cfg now t g) in
        (burnState g' = BURN_RAMP <->
           belowRampBand cfg t = true /\
           3000 <= ulong_sub now (ramp_timer_start now g)) /\
        (burnState g' = BURN_RAMP ->
           rampTimerActive g' = false /\ holdTimerActive g' = false) /\
        (burnState g' <> BURN_RAMP -> burnState g' = BURN_HOLD) /\
        (belowRampBand cfg t = true -> burnState g' <> BURN_RAMP ->
           rampTimerActive g' = true /\
           rampStartMs g' = ramp_timer_start now g)) /\
    (forall now t g,
        burnState g = BURN_HOLD -> boostActive g = false ->
        belowRampBand cfg t = false ->
        rampTimerActive (fst (burnengine_compute cfg now t g)) = false) /\
    (forall ins g0 now t,
        rampTimerActive g0 = false ->
        let g := run_engine cfg ins g0 in
        burnState g = BURN_HOLD -> boostActive g = false ->
        coalbed_fires cfg now t g = false ->
        burnState (fst (burnengine_compute cfg now t g)) = BURN_RAMP ->
        exists pre start t0 rest,
          ins ++ [(now, t)] = pre ++ (start, t0) :: rest /\
          Forall (fun i => belowRampBand cfg (snd i) = true) ((start, t0) :: rest) /\
          3000 <= ulong_sub now start).
Proof.
  intros cfg. split; [|split].
  - intros now t g Hh Hb Hf. exact (hold_tick cfg now t g Hh Hb Hf).
  - intros now t g Hh Hb Hout.
    exact (proj1 (hold_tick_above_band cfg now t g Hh Hb Hout)).
  - intros ins g0 now t H0 g Hh Hb Hf Hr.
    assert (Hs0 : ramp_timer_sound cfg [] g0).
    { intros H. congruence. }
    pose proof (ramp_timer_sound_run cfg ins [] g0 Hs0) as Hs.
    simpl in Hs. fold g in Hs.
    assert (Hinv : rampTimerActive g = true ->
                   boostActive g = false /\ burnState g = BURN_HOLD).
    { intros H. destruct (Hs H) as (? & ? & _). now split. }
    destruct (ramp_entered_by_timer cfg now t g Hinv Hh Hb Hf Hr) as (Hin & Hel).
    unfold ramp_timer_start in Hel.
    destruct (rampTimerActive g) eqn:Ha.
    + destruct (Hs Ha) as (_ & _ & Hw).
      destruct (ramp_window_extend cfg ins (rampStartMs g) now t Hw Hin)
        as (pre & t0 & rest & Heq & Hall).
      exists pre, (rampStartMs g), t0, rest. repeat split; assumption.
    + rewrite ulong_sub_diag in Hel. unfold RAMP_STABILITY_MS in Hel. lia.
Qed.

Lemma ramp_fallback_needs_unbroken_window_witness :
  let cfg := default_config in
  let g0 := mkEngine BURN_HOLD false 0 false 0 false 0 false 0 LOW in
  let t := d_of_int 260 in
  let g1 := run_engine cfg [(1000, t); (2000, t)] g0 in
  rampTimerActive g0 = false /\
  burnState g1 = BURN_HOLD /\
  burnState (fst (burnengine_compute cfg 4000 t g1)) = BURN_RAMP /\
  exists pre start t0 rest,
    [(1000, t); (2000, t)] ++ [(4000, t)] = pre ++ (start, t0) :: rest /\
    Forall (fun i => belowRampBand cfg (snd i) = true) ((start, t0) :: rest) /\
    3000 <= ulong_sub 4000 start.
Proof.
  cbv zeta.
  destruct (ramp_fallback_needs_unbroken_window default_config) as (_ & _ & Hw).
  split; [reflexivity|].
  split; [vm_compute; reflexivity|].
  split; [vm_compute; reflexivity|].
  apply (Hw [(1000, d_of_int 260); (2000, d_of_int 260)]
            (mkEngine BURN_HOLD false 0 false 0 false 0 false 0 LOW)
            4000 (d_of_int 260)).
  - reflexivity.
  - vm_compute; reflexivity.
  - vm_compute; reflexivity.
  - vm_compute; reflexivity.
  - vm_compute; reflexivity.
Defined.

(* ================================================================== *)
(** * Phases the engine never enters, and the damper                    *)
(* ================================================================== *)

(** One tick: SAFETY is kept and never entered, IDLE is never entered, a
    boost window is never opened, and the damper ends closed exactly in the
    phases IDLE and SAFETY. *)
Lemma tick_phase_policy (cfg : Config) (now : Z) (t : double) (g : Engine) :
  let g' := fst (burnengine_compute cfg now t g) in
  (burnState g' = BURN_SAFETY <-> burnState g = BURN_SAFETY) /\
  (burnState g' = BURN_IDLE -> burnState g = BURN_IDLE) /\
  (boostActive g' = true -> boostActive g = true /\ burnState g' = BURN_BOOST) /\
  (damperRelay g' = HIGH <->
     burnState g' = BURN_IDLE \/ burnState g' = BURN_SAFETY).
Proof.
  destruct g as [bs ba bst ca cst ha hst ra rst dr].
  simpl. destruct bs, ba, ca; tick_cases.
  all: repeat split; intros; tick_solve.
  all: try (left; reflexivity); try (right; reflexivity).
  all: try (match goal with H : _ \/ _ |- _ => destruct H end); tick_solve.
Qed.

(** X2.  One tick of [burnengine_compute], from any state and for any
    inputs: the phase after the tick is SAFETY exactly when it was SAFETY
    before (the tick neither enters nor leaves it); IDLE is never entered; a
    boost window is never opened, and one that is still open after the tick
    shows BOOST; and the damper ends closed exactly when the phase after the
    tick is IDLE or SAFETY. *)
Theorem phase_and_damper_policy :
  forall (cfg : Config) (now : Z) (t : double) (g : Engine),
    let g' := fst (burnengine_compute cfg now t g) in
    (burnState g' = BURN_SAFETY <-> burnState g = BURN_SAFETY) /\
    (burnState g' = BURN_IDLE -> burnState g = BURN_IDLE) /\
    (boostActive g' = true -> boostActive g = true /\ burnState g' = BURN_BOOST) /\
    (damperRelay g' = HIGH <->
       burnState g' = BURN_IDLE \/ burnState g' = BURN_SAFETY).
Proof. exact tick_phase_policy. Qed.

Lemma startBoost_phase (now : Z) (g : Engine) :
  burnState g <> BURN_SAFETY ->
  burnState (burnengine_startBoost now g) = BURN_BOOST.
Proof. destruct g as [bs ba bst ca cst ha hst ra rst dr]. destruct bs; simpl; congruence. Qed.

Lemma engine_op_keeps_live (g : Engine) (op : EngineOp) :
  burnState g <> BURN_SAFETY /\ burnState g <> BURN_IDLE ->
  burnState (engine_op g op) <> BURN_SAFETY /\
  burnState (engine_op g op) <> BURN_IDLE.
Proof.
  intros [Hs Hi]. destruct op as [cfg now t|now|now]; simpl.
  - destruct (tick_phase_policy cfg now t g) as (H1 & H2 & _).
    split; intro H; [apply Hs, H1, H | apply Hi, H2, H].
  - rewrite (startBoost_phase now g Hs). split; discriminate.
  - split; discriminate.
Qed.

(** X3.  From [burnengine_init] on, whatever sequence of control ticks,
    boost restarts and re-initialisations follows (with any configurations,
    clock values and temperatures), the phase is never SAFETY and never IDLE;
    so every control tick of such a run leaves the damper open. *)
Theorem safety_and_idle_unreachable :
  forall (ops : list EngineOp) (now0 : Z) (g0 : Engine),
    let g := run_ops ops (burnengine_init now0 g0) in
    burnState g <> BURN_SAFETY /\ burnState g <> BURN_IDLE /\
    forall cfg now t,
      damperRelay (fst (burnengine_compute cfg now t g)) = LOW.
Proof.
  intros ops now0 g0 g.
  assert (Hlive : burnState g <> BURN_SAFETY /\ burnState g <> BURN_IDLE).
  { subst g. unfold run_ops.
    assert (H0 : burnState (burnengine_init now0 g0) <> BURN_SAFETY /\
                 burnState (burnengine_init now0 g0) <> BURN_IDLE)
      by (split; discriminate).
    revert H0. generalize (burnengine_init now0 g0).
    induction ops as [|op rest IH]; intros e He; simpl.
    - exact He.
    - apply IH. apply engine_op_keeps_live. exact He. }
  destruct Hlive as [Hs Hi]. split; [exact Hs|]. split; [exact Hi|].
  intros cfg now t.
  destruct (tick_phase_policy cfg now t g) as (H1 & H2 & _ & H4).
  destruct (damperRelay (fst (burnengine_compute cfg now t g))) eqn:Hd.
  - exfalso. destruct (proj1 H4 eq_refl) as [H|H].
    + apply Hi, H2, H.
    + apply Hs, H1, H.
  - reflexivity.
Qed.

(* ================================================================== *)
(** * Leaving the coal-bed saver                                        *)
(* ================================================================== *)

(** X4.  The COALBED case: with the boost window closed, a tick that
    starts in COALBED returns to RAMP at once, without any timer, when the
    temperature is strictly above [setpoint - deadband], with demand 100 and
    both stability timers cleared; otherwise it stays in COALBED with demand
    0.  The damper is open either way. *)
Theorem coalbed_exit_is_immediate :
  forall cfg now t g,
    burnState g = BURN_COALBED -> boostActive g = false ->
    let r := burnengine_compute cfg now t g in
    (aboveHoldBand cfg t = true ->
       burnState (fst r) = BURN_RAMP /\ snd r = 100 /\
       holdTimerActive (fst r) = false /\ rampTimerActive (fst r) = false) /\
    (aboveHoldBand cfg t = false ->
       burnState (fst r) = BURN_COALBED /\ snd r = 0) /\
    damperRelay (fst r) = LOW.
Proof.
  intros cfg now t g. destruct g as [bs ba bst ca cst ha hst ra rst dr].
  simpl. intros -> ->. destruct ca; tick_cases.
  all: repeat split; intros; tick_solve.
Qed.

(* ================================================================== *)
(** * A whole boost window                                              *)
(* ================================================================== *)

(** Every tick of a run that stays inside the boost window shows BOOST,
    demand 100, the damper open and the final fan at 100. *)
Lemma boost_run (cfg : Config) (ins : list (Z * double)) (g : Engine)
      (m : FanMem) :
  burnState g <> BURN_SAFETY -> boostActive g = true ->
  Forall (fun i => ulong_sub (fst i) (boostStartMs g) < boost_duration_ms cfg)
         ins ->
  Forall (fun o => out_phase o = BURN_BOOST /\ out_rawFan o = 100 /\
                   out_damper o = LOW /\ out_finalFan o = 100)
         (run_ticks cfg ins (g, m)).
Proof.
  revert g m. induction ins as [|[now t] rest IH]; intros g m Hs Hb Hall.
  - constructor.
  - inversion Hall as [|? ? Hnow Hrest]; subst. simpl in Hnow.
    simpl run_ticks. unfold control_tick. simpl fst. simpl snd.
    rewrite (boost_tick_open cfg now t g Hs Hb Hnow).
    cbn [burnState digitalWrite_damper set_burnState fancontrol_apply].
    unfold fan_compute. cbn [fst snd].
    constructor.
    + unfold observe. simpl. repeat split; reflexivity.
    + apply IH.
      * simpl. discriminate.
      * simpl. exact Hb.
      * simpl. exact Hrest.
Qed.

Lemma limit_bounds (v lo hi : Z) : lo <= hi -> lo <= limit v lo hi <= hi.
Proof. intros H. rewrite limit_spec. lia. Qed.

Lemma edit_boost_time (now v : Z) (s : System) :
  let s' := ui_handleKey_edit now (SaveBoostTime v) s in
  boostTimeSeconds (sys_config s') = limit v 5 300 /\
  5 <= limit v 5 300 <= 300 /\
  sys_engine s' = burnengine_startBoost now (sys_engine s).
Proof.
  pose proof (limit_bounds v 5 300 ltac:(lia)) as Hl.
  cbv zeta. unfold ui_handleKey_edit, eeprom_saveBoostTime.
  cbn [fst snd sys_config sys_engine].
  rewrite (to_int16_small (limit v 5 300)) by (unfold int16_range; lia).
  split; [|split; [exact Hl | reflexivity]].
  unfold validateSettings, set_boostTimeSeconds. cbn [boostTimeSeconds].
  destruct (limit v 5 300 <? 0) eqn:E1; [apply Z.ltb_lt in E1; lia|].
  destruct (limit v 5 300 >? 1800) eqn:E2; [apply Z.gtb_lt in E2; lia|].
  reflexivity.
Qed.

(** X5.  The '#' key of the boost-time editor: the entered value, limited to
    5..300, becomes [boostTimeSeconds], and unless the phase is SAFETY a boost
    window of exactly that many seconds opens at the key press: every control
    tick of a following run that stays within it (on the 32-bit clock) shows
    BOOST, demand 100, the damper open and the final fan at 100, whatever the
    temperatures.  In SAFETY the engine is left as it was. *)
Theorem boost_time_edit_restarts_boost :
  forall (now v : Z) (s : System),
    let s' := ui_handleKey_edit now (SaveBoostTime v) s in
    boostTimeSeconds (sys_config s') = limit v 5 300 /\
    5 <= boostTimeSeconds (sys_config s') <= 300 /\
    (burnState (sys_engine s) = BURN_SAFETY -> sys_engine s' = sys_engine s) /\
    (burnState (sys_engine s) <> BURN_SAFETY ->
     forall (ins : list (Z * double)) (m : FanMem),
       Forall (fun i => ulong_sub (fst i) now < limit v 5 300 * 1000) ins ->
       Forall (fun o => out_phase o = BURN_BOOST /\ out_rawFan o = 100 /\
                        out_damper o = LOW /\ out_finalFan o = 100)
              (run_ticks (sys_config s') ins (sys_engine s', m))).
Proof.
  intros now v s s'.
  destruct (edit_boost_time now v s) as (Hbt & Hr & He). fold s' in Hbt, He.
  split; [exact Hbt|]. split; [rewrite Hbt; exact Hr|]. split.
  - intros Hs. rewrite He. unfold burnengine_startBoost. rewrite Hs. reflexivity.
  - intros Hs ins m Hall. rewrite He.
    assert (Hd : boost_duration_ms (sys_config s') = limit v 5 300 * 1000).
    { rewrite boost_duration_ms_small by (rewrite Hbt; lia). now rewrite Hbt. }
    apply boost_run.
    + rewrite (startBoost_phase now _ Hs). discriminate.
    + destruct (sys_engine s) as [bs ba bst ca cst ha hst ra rst dr].
      simpl in Hs. destruct bs; try reflexivity. congruence.
    + rewrite Hd.
      assert (Hst : boostStartMs (burnengine_startBoost now (sys_engine s)) = now).
      { destruct (sys_engine s) as [bs ba bst ca cst ha hst ra rst dr].
        simpl in Hs. destruct bs; try reflexivity. congruence. }
      rewrite Hst. exact Hall.
Qed.

Lemma boost_time_edit_restarts_boost_witness :
  let s := mkSystem default_config (fun _ => 0)
                    (mkEngine BURN_HOLD false 0 false 0 false 0 false 0 LOW) in
  let s' := ui_handleKey_edit 50000 (SaveBoostTime 3) s in
  boostTimeSeconds (sys_config s') = 5 /\
  Forall (fun o => out_phase o = BURN_BOOST /\ out_rawFan o = 100 /\
                   out_damper o = LOW /\ out_finalFan o = 100)
         (run_ticks (sys_config s')
            [(50000, d_of_int 900); (54999, d_of_int 100)]
            (sys_engine s', fancontrol_init BURN_HOLD)).
Proof.
  cbv zeta.
  destruct (boost_time_edit_restarts_boost 50000 3
              (mkSystem default_config (fun _ => 0)
                 (mkEngine BURN_HOLD false 0 false 0 false 0 false 0 LOW)))
    as (Hbt & _ & _ & Hrun).
  split; [exact Hbt|].
  apply Hrun.
  - simpl. discriminate.
  - repeat constructor; vm_compute; reflexivity.
Defined.

(* ================================================================== *)
(** * A tick without a valid temperature                                *)
(* ================================================================== *)

Lemma nan_tests (cfg : Config) (t : double) :
  isnan t = true ->
  belowFlueLow cfg t = false /\ inHoldBand cfg t = false /\
  belowRampBand cfg t = false /\ aboveHoldBand cfg t = false.
Proof.
  destruct t; simpl; try discriminate. intros _.
  unfold belowFlueLow, inHoldBand, belowRampBand, aboveHoldBand,
    d_lt, d_ge, d_gt, SFltb, SFleb.
  repeat split;
    match goal with |- context [SFcompare ?a ?b] =>
      try (destruct a; reflexivity); try (destruct b; reflexivity)
    end.
Qed.

(** A tick on which none of the four temperature tests holds. *)
Lemma tick_no_test (cfg : Config) (now : Z) (t : double) (g : Engine) :
  belowFlueLow cfg t = false -> inHoldBand cfg t = false ->
  belowRampBand cfg t = false -> aboveHoldBand cfg t = false ->
  boostActive g = false ->
  let r := burnengine_compute cfg now t g in
  burnState (fst r) = burnState g /\
  boostActive (fst r) = false /\
  coalbedTimerActive (fst r) = false /\
  (burnState g = BURN_RAMP -> holdTimerActive (fst r) = false /\ snd r = 100) /\
  (burnState g = BURN_HOLD -> rampTimerActive (fst r) = false).
Proof.
  destruct g as [bs ba bst ca cst ha hst ra rst dr].
  simpl. intros H1 H2 H3 H4 ->. revert H1 H2 H3 H4.
  destruct bs, ca; hold_cases.
  all: intros H1 H2 H3 H4; try discriminate.
  all: repeat split; intros; tick_solve.
Qed.

(** X6.  While the smoothed temperature is NaN (no valid reading yet) and
    the boost window is closed, a tick changes no phase: every test on the
    temperature fails, the coal-bed timer is cancelled, RAMP cancels its HOLD
    timer and demands 100, HOLD cancels its fallback timer; so over any run of
    such ticks the phase stays what it was. *)
Theorem no_reading_freezes_phase :
  forall (cfg : Config),
    (forall now t g,
        isnan t = true -> boostActive g = false ->
        let r := burnengine_compute cfg now t g in
        burnState (fst r) = burnState g /\
        boostActive (fst r) = false /\
        coalbedTimerActive (fst r) = false /\
        (burnState g = BURN_RAMP ->
           holdTimerActive (fst r) = false /\ snd r = 100) /\
        (burnState g = BURN_HOLD -> rampTimerActive (fst r) = false)) /\
    (forall ins g,
        Forall (fun i => isnan (snd i) = true) ins -> boostActive g = false ->
        burnState (run_engine cfg ins g) = burnState g).
Proof.
  intros cfg.
  assert (Htick : forall now t g,
             isnan t = true -> boostActive g = false ->
             let r := burnengine_compute cfg now t g in
             burnState (fst r) = burnState g /\
             boostActive (fst r) = false /\
             coalbedTimerActive (fst r) = false /\
             (burnState g = BURN_RAMP ->
                holdTimerActive (fst r) = false /\ snd r = 100) /\
             (burnState g = BURN_HOLD -> rampTimerActive (fst r) = false)).
  { intros now t g Hn Hb.
    destruct (nan_tests cfg t Hn) as (H1 & H2 & H3 & H4).
    exact (tick_no_test cfg now t g H1 H2 H3 H4 Hb). }
  split; [exact Htick|].
  intros ins. induction ins as [|[now t] rest IH]; intros g Hall Hb.
  - reflexivity.
  - inversion Hall as [|? ? Hn Hrest]; subst. simpl in Hn.
    destruct (Htick now t g Hn Hb) as (Hp & Hb' & _).
    unfold run_engine. simpl. unfold engine_step at 2. simpl.
    change (fold_left (engine_step cfg) rest
              (fst (burnengine_compute cfg now t g)))
      with (run_engine cfg rest (fst (burnengine_compute cfg now t g))).
    rewrite (IH _ Hrest Hb'). exact Hp.
Qed.

Lemma no_reading_freezes_phase_witness :
  let g := mkEngine BURN_RAMP false 0 false 0 true 100 false 0 LOW in
  burnState (run_engine default_config [(1000, NAN); (9000, NAN)] g) = BURN_RAMP /\
  snd (burnengine_compute default_config 9000 NAN g) = 100.
Proof.
  cbv zeta.
  destruct (no_reading_freezes_phase default_config) as (Ht & Hrun).
  split.
  - apply (Hrun [(1000, NAN); (9000, NAN)]
                (mkEngine BURN_RAMP false 0 false 0 true 100 false 0 LOW)).
    + repeat constructor.
    + reflexivity.
  - apply (Ht 9000 NAN
              (mkEngine BURN_RAMP false 0 false 0 true 100 false 0 LOW)
              eq_refl eq_refl).
    reflexivity.
Defined.

(* ================================================================== *)
(** * Ranges of the two fan percentages                                 *)
(* ================================================================== *)

Lemma constrain_bounds (amt lo hi : Z) :
  lo <= hi -> lo <= constrain amt lo hi <= hi.
Proof.
  intros H. unfold constrain.
  destruct (amt <? lo) eqn:E1; [lia|]. apply Z.ltb_ge in E1.
  destruct (amt >? hi) eqn:E2; [lia|].
  rewrite Z.gtb_ltb in E2. apply Z.ltb_ge in E2. lia.
Qed.

Lemma hold_fan_curve_bounds (cfg : Config) (t : double) :
  clampMinPercent cfg <= clampMaxPercent cfg <= 100 ->
  clampMinPercent cfg <= hold_fan_curve cfg t <= 100.
Proof.
  intros H. unfold hold_fan_curve.
  destruct (d_le (hold_error cfg t) (d_of_int 5)); [lia|].
  destruct (d_le (hold_error cfg t) (d_of_int 25)).
  - match goal with |- _ <= constrain ?a ?l ?h <= _ =>
      pose proof (constrain_bounds a l h ltac:(lia)) end. lia.
  - match goal with |- _ <= constrain ?a ?l ?h <= _ =>
      pose proof (constrain_bounds a l h ltac:(lia)) end. lia.
Qed.

Lemma raw_demand_bounds (cfg : Config) (now : Z) (t : double) (g : Engine) :
  0 <= clampMinPercent cfg -> clampMinPercent cfg <= clampMaxPercent cfg <= 100 ->
  let r := burnengine_compute cfg now t g in
  0 <= snd r <= 100 /\
  (burnState (fst r) = BURN_HOLD -> clampMinPercent cfg <= snd r).
Proof.
  intros H0 H r. subst r. rewrite raw_demand_of_final_phase.
  pose proof (hold_fan_curve_bounds cfg t H) as Hc.
  unfold fan_demand.
  destruct (burnState (fst (burnengine_compute cfg now t g)));
    split; try lia; try discriminate; intros _; lia.
Qed.

Lemma smooth_bounds (l d : Z) :
  0 <= l <= 100 -> 0 <= d <= 100 -> 0 <= smooth l d <= 100.
Proof.
  intros Hl Hd. unfold smooth. rewrite Z.quot_div_nonneg by lia.
  split.
  - apply Z.div_pos; lia.
  - apply Z.div_le_upper_bound; lia.
Qed.

Lemma hysteresis_on_ge (cfg : Config) (on : bool) (c : Z) :
  hysteresis cfg on c = true -> clampMinPercent cfg <= c.
Proof.
  unfold hysteresis.
  destruct (c <? clampMinPercent cfg) eqn:E.
  - rewrite andb_true_r.
    destruct (if negb on && (c >? clampMinPercent cfg + 10) then true else on);
      discriminate.
  - intros _. apply Z.ltb_ge in E. exact E.
Qed.

(** The shaping layer on percentages. *)
Lemma fan_compute_bounds (cfg : Config) (bs : BurnState) (d : Z) (m : FanMem) :
  0 <= clampMinPercent cfg -> clampMinPercent cfg <= clampMaxPercent cfg <= 100 ->
  0 <= lastFan m <= 100 -> 0 <= d <= 100 ->
  let r := fan_compute cfg bs d m in
  0 <= lastFan (fst r) <= 100 /\
  0 <= snd r <= 100 /\
  (snd r = 0 \/ clampMinPercent cfg <= snd r) /\
  (bs <> BURN_BOOST -> snd r <= clampMaxPercent cfg).
Proof.
  intros H0 H Hl Hd.
  assert (Hm0 : 0 <= lastFan (fancontrol_handleStateChange bs m) <= 100).
  { unfold fancontrol_handleStateChange.
    destruct (negb (BurnState_eqb bs (prevBurnState m))); [|exact Hl].
    destruct (resets_memory bs); simpl; lia. }
  assert (Hn : bs <> BURN_BOOST -> bs <> BURN_SAFETY ->
               let r := fan_compute cfg bs d m in
               0 <= lastFan (fst r) <= 100 /\
               0 <= snd r <= 100 /\
               (snd r = 0 \/ clampMinPercent cfg <= snd r) /\
               (bs <> BURN_BOOST -> snd r <= clampMaxPercent cfg)).
  { intros Hb Hs. cbv zeta. rewrite (fan_compute_normal cfg bs d m Hb Hs).
    cbv zeta.
    pose proof (smooth_bounds _ d Hm0 Hd) as Hsm.
    set (s := smooth (lastFan (fancontrol_handleStateChange bs m)) d) in *.
    pose proof (clamp_max_spec cfg s) as Hc.
    pose proof (clamp_mode_spec cfg (clamp_max cfg s)) as Hcm.
    destruct (deadzoneFanMode cfg =? 1); cbn [fst snd lastFan].
    - repeat split; try lia.
    - destruct (hysteresis cfg (fanOn (fancontrol_handleStateChange bs m))
                           (clamp_max cfg s)) eqn:Eh.
      + apply hysteresis_on_ge in Eh. repeat split; try lia.
      + repeat split; try lia. }
  destruct bs; try (apply Hn; discriminate).
  - unfold fan_compute. cbn [fst snd lastFan]. repeat split; try lia. congruence.
  - unfold fan_compute. cbn [fst snd lastFan]. repeat split; try lia.
Qed.

(** X7.  With the clamps as [validateSettings] leaves them
    (0 <= clampMin <= clampMax <= 100) and a stored [lastFan] within 0..100,
    every tick of every run of the control loop returns a raw demand within
    0..100 (at least clampMin in HOLD) and a final percentage within 0..100
    that is either 0 or at least clampMin, and at most clampMax outside
    BOOST; whatever the clock values and temperatures, NaN included. *)
Theorem fan_outputs_stay_in_range :
  forall (cfg : Config) (ins : list (Z * double)) (g : Engine) (m : FanMem),
    0 <= clampMinPercent cfg ->
    clampMinPercent cfg <= clampMaxPercent cfg <= 100 ->
    0 <= lastFan m <= 100 ->
    Forall (fun o =>
              0 <= out_rawFan o <= 100 /\
              (out_phase o = BURN_HOLD -> clampMinPercent cfg <= out_rawFan o) /\
              0 <= out_finalFan o <= 100 /\
              (out_finalFan o = 0 \/ clampMinPercent cfg <= out_finalFan o) /\
              (out_phase o <> BURN_BOOST ->
                 out_finalFan o <= clampMaxPercent cfg))
           (run_ticks cfg ins (g, m)).
Proof.
  intros cfg ins g m H0 H. revert g m.
  induction ins as [|[now t] rest IH]; intros g m Hl.
  - constructor.
  - simpl run_ticks. unfold control_tick. cbn [fst snd].
    destruct (raw_demand_bounds cfg now t g H0 H) as (Hraw & Hhold).
    destruct (burnengine_compute cfg now t g) as [g' raw] eqn:Et.
    cbn [fst snd] in Hraw, Hhold.
    pose proof (fan_compute_bounds cfg (burnState g') raw m H0 H Hl Hraw) as Hf.
    unfold fancontrol_apply.
    destruct (fan_compute cfg (burnState g') raw m) as [m' final] eqn:Ef.
    cbn [fst snd] in Hf. destruct Hf as (Hl' & Hfin & Hz & Hmax).
    constructor.
    + unfold observe. cbn [fst snd out_rawFan out_phase out_finalFan].
      repeat split; try lia; assumption.
    + cbn [fst]. apply IH. exact Hl'.
Qed.

Lemma fan_outputs_stay_in_range_witness :
  Forall (fun o =>
            0 <= out_rawFan o <= 100 /\
            (out_phase o = BURN_HOLD -> 10 <= out_rawFan o) /\
            0 <= out_finalFan o <= 100 /\
            (out_finalFan o = 0 \/ 10 <= out_finalFan o) /\
            (out_phase o <> BURN_BOOST -> out_finalFan o <= 100))
         (run_ticks default_config
            [(1000, d_of_int 340); (7000, d_of_int 340)]
            (mkEngine BURN_RAMP false 0 false 0 false 0 false 0 LOW,
             fancontrol_init BURN_RAMP)).
Proof.
  apply (fan_outputs_stay_in_range default_config
           [(1000, d_of_int 340); (7000, d_of_int 340)]
           (mkEngine BURN_RAMP false 0 false 0 false 0 false 0 LOW)
           (fancontrol_init BURN_RAMP)).
  - simpl. lia.
  - simpl. lia.
  - simpl. lia.
Defined.

(* ================================================================== *)
(** * Integer smoothing: no overshoot, and where it stalls              *)
(* ================================================================== *)

Lemma smooth_rising (l d : Z) :
  0 <= l <= d ->
  l <= smooth l d <= d /\ (smooth l d = l <-> d - l <= 3).
Proof.
  intros H. unfold smooth. rewrite Z.quot_div_nonneg by lia.
  pose proof (Z.div_mod (l * 3 + d) 4 ltac:(lia)) as Hdm.
  pose proof (Z.mod_pos_bound (l * 3 + d) 4 ltac:(lia)) as Hb.
  repeat split; try lia; intros; lia.
Qed.

Lemma smooth_falling (l d : Z) :
  0 <= d < l -> d <= smooth l d < l.
Proof.
  intros H. unfold smooth. rewrite Z.quot_div_nonneg by lia.
  pose proof (Z.div_mod (l * 3 + d) 4 ltac:(lia)) as Hdm.
  pose proof (Z.mod_pos_bound (l * 3 + d) 4 ltac:(lia)) as Hb.
  lia.
Qed.

Lemma smooth_nonneg (l d : Z) : 0 <= l -> 0 <= d -> 0 <= smooth l d.
Proof.
  intros Hl Hd. unfold smooth. rewrite Z.quot_div_nonneg by lia.
  apply Z.div_pos; lia.
Qed.

Lemma smooth_stall (l d : Z) : 0 <= l <= d - 3 -> smooth l d <= d - 3.
Proof.
  intros H. unfold smooth. rewrite Z.quot_div_nonneg by lia.
  pose proof (Z.div_mod (l * 3 + d) 4 ltac:(lia)) as Hdm.
  pose proof (Z.mod_pos_bound (l * 3 + d) 4 ltac:(lia)) as Hb.
  lia.
Qed.

(** A tick of the shaping layer in an unchanged phase other than BOOST and
    SAFETY stores the smoothed value and keeps the phase record. *)
Lemma fan_compute_same_phase (cfg : Config) (bs : BurnState) (d : Z) (m : FanMem) :
  bs <> BURN_BOOST -> bs <> BURN_SAFETY -> prevBurnState m = bs ->
  lastFan (fst (fan_compute cfg bs d m)) = smooth (lastFan m) d /\
  prevBurnState (fst (fan_compute cfg bs d m)) = bs.
Proof.
  intros Hb Hs Hp. rewrite (fan_compute_normal cfg bs d m Hb Hs). cbv zeta.
  assert (Hm : fancontrol_handleStateChange bs m = m).
  { unfold fancontrol_handleStateChange. rewrite Hp, BurnState_eqb_refl.
    reflexivity. }
  rewrite Hm. destruct (deadzoneFanMode cfg =? 1); simpl; split;
    (reflexivity || exact Hp).
Qed.

(** The smoothed value lies between the stored value and the demand, so a
    bound on both bounds it too. *)
Lemma smooth_le_bound (l d b : Z) :
  0 <= l <= b -> 0 <= d <= b -> 0 <= smooth l d <= b.
Proof.
  intros Hl Hd. split; [apply smooth_nonneg; lia|].
  destruct (Z.le_gt_cases l d) as [H|H].
  - pose proof (smooth_rising l d ltac:(lia)). lia.
  - pose proof (smooth_falling l d ltac:(lia)). lia.
Qed.

(** X8.  The smoothing step [lastFan = (lastFan * 3 + demand) / 4] of
    [fan_compute], in an unchanged phase other than BOOST and SAFETY, on a
    stored value and a demand that are non-negative and at most [INT_MAX / 4]
    (so that [lastFan * 3 + demand] is computed in [int] without overflow, at
    this call and at every later call with the same demand), never overshoots.
    Towards a higher demand the stored value moves up but stops as soon as the
    demand is at most 3 above it, so from 3 or more below it never gets closer
    than 3, over any number of calls (a constant demand of 100 settles at 97
    at most); towards a lower demand it strictly decreases and does not pass
    the demand. *)
Theorem smoothing_never_overshoots :
  forall (cfg : Config) (bs : BurnState) (d : Z) (m : FanMem),
    bs <> BURN_BOOST -> bs <> BURN_SAFETY -> prevBurnState m = bs ->
    0 <= lastFan m <= INT_MAX / 4 -> 0 <= d <= INT_MAX / 4 ->
    let l := lastFan m in
    let l' := lastFan (fst (fan_compute cfg bs d m)) in
    let step := fun x : FanMem => fst (fan_compute cfg bs d x) in
    (forall n : nat,
       let k := lastFan (Nat.iter n step m) in
       0 <= k <= INT_MAX / 4 /\ INT_MIN <= k * 3 + d <= INT_MAX) /\
    l' = smooth l d /\
    (l <= d -> l <= l' <= d /\ (l' = l <-> d - l <= 3)) /\
    (d < l -> d <= l' < l) /\
    (l <= d - 3 ->
       forall n : nat, lastFan (Nat.iter n step m) <= d - 3).
Proof.
  intros cfg bs d m Hb Hs Hp Hl Hd l l' step.
  assert (Hq : INT_MAX / 4 = 536870911) by reflexivity.
  assert (Hmax : INT_MAX = 2147483647) by reflexivity.
  assert (Hmin : INT_MIN = -2147483648) by reflexivity.
  destruct (fan_compute_same_phase cfg bs d m Hb Hs Hp) as (Hsm & _).
  subst l'. fold l in Hsm. rewrite Hsm.
  split; [|split; [reflexivity|]; split; [|split]].
  - assert (Hinv : forall k : nat,
               prevBurnState (Nat.iter k step m) = bs /\
               0 <= lastFan (Nat.iter k step m) <= INT_MAX / 4).
    { induction k as [|k IHk].
      - simpl. split; [exact Hp | exact Hl].
      - rewrite Nat.iter_succ. destruct IHk as (Hpk & Hlk).
        change (step (Nat.iter k step m))
          with (fst (fan_compute cfg bs d (Nat.iter k step m))).
        destruct (fan_compute_same_phase cfg bs d _ Hb Hs Hpk) as (E1 & E2).
        split; [exact E2|]. rewrite E1. apply smooth_le_bound; assumption. }
    intros n k. destruct (Hinv n) as (_ & Hk). fold k in Hk.
    split; [exact Hk|]. lia.
  - intros H. apply smooth_rising. subst l. lia.
  - intros H. apply smooth_falling. subst l. lia.
  - intros H n.
    assert (Hinv : forall k : nat,
               prevBurnState (Nat.iter k step m) = bs /\
               0 <= lastFan (Nat.iter k step m) <= d - 3).
    { induction k as [|k IHk].
      - simpl. split; [exact Hp|]. subst l. lia.
      - rewrite Nat.iter_succ. destruct IHk as (Hpk & Hlk).
        change (step (Nat.iter k step m))
          with (fst (fan_compute cfg bs d (Nat.iter k step m))).
        destruct (fan_compute_same_phase cfg bs d _ Hb Hs Hpk) as (E1 & E2).
        split; [exact E2|]. rewrite E1. split.
        + apply smooth_nonneg; lia.
        + apply smooth_stall. exact Hlk. }
    apply (Hinv n).
Qed.

Lemma smoothing_never_overshoots_witness :
  let m := mkFanMem 0 false BURN_RAMP in
  lastFan (fst (fan_compute default_config BURN_RAMP 100 m)) = 25 /\
  lastFan (Nat.iter 60 (fun x => fst (fan_compute default_config BURN_RAMP 100 x)) m)
  <= 97.
Proof.
  cbv zeta.
  destruct (smoothing_never_overshoots default_config BURN_RAMP 100
              (mkFanMem 0 false BURN_RAMP))
    as (_ & H1 & _ & _ & H4).
  - discriminate.
  - discriminate.
  - reflexivity.
  - simpl. unfold INT_MAX. change (2147483647 / 4) with 536870911. lia.
  - unfold INT_MAX. change (2147483647 / 4) with 536870911. lia.
  - split.
    + exact H1.
    + apply (H4 ltac:(simpl; lia) 60%nat).
Defined.

(* ================================================================== *)
(** * validateSettings and the EEPROM image                             *)
(* ================================================================== *)

(** Decide the integer tests of the goal, equality tests included. *)
Ltac zcases_eq :=
  repeat (match goal with
          | |- context [?a <? ?b] =>
              no_test a; no_test b; destruct (Z.ltb_spec a b)
          | |- context [?a >? ?b] =>
              no_test a; no_test b; destruct (Z.gtb_spec a b)
          | |- context [?a =? ?b] =>
              no_test a; no_test b; destruct (Z.eqb_spec a b)
          end;
          cbn [orb andb negb]).

Ltac config_fields :=
  cbn [exhaustSetpoint boostTimeSeconds deadbandF clampMinPercent
       clampMaxPercent deadzoneFanMode coalBedTimerMinutes flueLowThreshold
       flueRecoveryThreshold
       set_exhaustSetpoint set_boostTimeSeconds set_deadbandF
       set_clampMinPercent set_clampMaxPercent set_deadzoneFanMode
       set_coalBedTimerMinutes set_flueLowThreshold set_flueRecoveryThreshold].

Ltac int16_small :=
  rewrite ?to_int16_small by (unfold int16_range; lia).

Lemma validateSettings_fixed (c : Config) :
  settings_fixed (validateSettings c).
Proof.
  unfold settings_fixed, validateSettings. config_fields.
  repeat (match goal with |- _ /\ _ => split end);
    try (zcases_eq; int16_small; lia).
Qed.

Lemma validateSettings_id (c : Config) :
  settings_fixed c -> validateSettings c = c.
Proof.
  destruct c as [sp bt db cmin cmax dz cb fl fr].
  unfold settings_fixed, validateSettings. config_fields.
  intros (Hsp & Hbt & Hdb & Hcl & Hdz & Hcb & Hfl & Hfr).
  f_equal; zcases_eq; int16_small; lia.
Qed.

Lemma validateSettings_id_inv (c : Config) :
  validateSettings c = c -> settings_fixed c.
Proof.
  intros H. rewrite <- H. apply validateSettings_fixed.
Qed.

(** The recovery threshold of a fixed configuration: at least flue-low + 10,
    at most 950, and above 900 only as flue-low + 50. *)
Lemma settings_fixed_recovery (c : Config) :
  settings_fixed c ->
  flueLowThreshold c + 10 <= flueRecoveryThreshold c <= 950 /\
  (900 < flueRecoveryThreshold c ->
     flueRecoveryThreshold c = flueLowThreshold c + 50 /\
     850 < flueLowThreshold c).
Proof. unfold settings_fixed. lia. Qed.

(** X9.  [validateSettings] is a normal form.  Its result has every field
    other than the recovery threshold within the range the function tests
    (setpoint 100..900, boost time 0..1800, deadband 0..200, the clamps
    0..100 with clamp-minimum at most clamp-maximum, deadzone mode 0 or 1,
    coal-bed timer 0..720, flue-low 0..900).  The recovery threshold of the
    result is at least flue-low + 10 and either at most 900 or exactly
    flue-low + 50: it can lie above the tested range 0..900, as high as 950,
    which flue-low 900 with recovery 905 produces.  Applying the function
    twice is applying it once, and the configurations it returns unchanged are
    exactly those that already satisfy these conditions. *)
Theorem validateSettings_normal_form :
  forall c : Config,
    let c' := validateSettings c in
    settings_fixed c' /\
    (100 <= exhaustSetpoint c' <= 900 /\
     0 <= boostTimeSeconds c' <= 1800 /\
     0 <= deadbandF c' <= 200 /\
     0 <= clampMinPercent c' <= clampMaxPercent c' /\
     clampMaxPercent c' <= 100 /\
     (deadzoneFanMode c' = 0 \/ deadzoneFanMode c' = 1) /\
     0 <= coalBedTimerMinutes c' <= 720 /\
     0 <= flueLowThreshold c' <= 900) /\
    (flueLowThreshold c' + 10 <= flueRecoveryThreshold c' <= 950 /\
     (900 < flueRecoveryThreshold c' ->
        flueRecoveryThreshold c' = flueLowThreshold c' + 50 /\
        850 < flueLowThreshold c')) /\
    flueRecoveryThreshold
      (validateSettings
         (set_flueRecoveryThreshold 905 (set_flueLowThreshold 900 c))) = 950 /\
    validateSettings c' = c' /\
    (validateSettings c = c <-> settings_fixed c).
Proof.
  intros c c'.
  pose proof (validateSettings_fixed c) as Hf. fold c' in Hf.
  split; [exact Hf|]. split; [|split; [|split; [|split]]].
  - unfold settings_fixed in Hf. lia.
  - apply settings_fixed_recovery. exact Hf.
  - unfold validateSettings, set_flueRecoveryThreshold, set_flueLowThreshold.
    config_fields. reflexivity.
  - apply validateSettings_id. exact Hf.
  - split; [apply validateSettings_id_inv | apply validateSettings_id].
Qed.

Lemma settings_fixed_int16 (c : Config) :
  settings_fixed c ->
  int16_range (exhaustSetpoint c) /\ int16_range (boostTimeSeconds c) /\
  int16_range (deadbandF c) /\ int16_range (clampMinPercent c) /\
  int16_range (clampMaxPercent c) /\ int16_range (deadzoneFanMode c) /\
  int16_range (coalBedTimerMinutes c) /\ int16_range (flueLowThreshold c) /\
  int16_range (flueRecoveryThreshold c).
Proof. unfold settings_fixed, int16_range. intros H. repeat split; lia. Qed.

Ltac eeprom_cells :=
  unfold eeprom_mirrors, readInt16, readByte, writeInt16, writeByte,
    ADDR_SETPOINT, ADDR_BOOST, ADDR_DEADBAND, ADDR_CLAMP_MIN, ADDR_CLAMP_MAX,
    ADDR_DEADZONE, ADDR_COALBED_TIMER, ADDR_FLUE_LOW, ADDR_FLUE_REC,
    ADDR_VERSION, EEPROM_VERSION in *;
  cbn [Z.eqb Pos.eqb] in *.

(** [eeprom_saveAll] leaves the EEPROM holding the validated globals. *)
Lemma eeprom_saveAll_mirrors (c : Config) (rom : EEPROM) :
  let r := eeprom_saveAll c rom in
  fst r = validateSettings c /\ eeprom_mirrors (fst r) (snd r).
Proof.
  cbv zeta. unfold eeprom_saveAll. cbn [fst snd]. split; [reflexivity|].
  destruct (settings_fixed_int16 _ (validateSettings_fixed c))
    as (H1 & H2 & H3 & H4 & H5 & H6 & H7 & H8 & H9).
  generalize dependent (validateSettings c). intros c1 H1 H2 H3 H4 H5 H6 H7 H8 H9.
  eeprom_cells.
  repeat split; try reflexivity;
    repeat match goal with
           | H : int16_range ?x |- context [to_int16 ?x] =>
               rewrite (to_int16_small x H)
           end; reflexivity.
Qed.

(** [eeprom_init] on an EEPROM that holds a fixed configuration loads it. *)
Lemma eeprom_init_of_mirrors (c : Config) (rom : EEPROM) :
  settings_fixed c -> eeprom_mirrors c rom ->
  fst (eeprom_init rom) = c /\
  eeprom_mirrors c (snd (eeprom_init rom)).
Proof.
  intros Hf Hm.
  assert (Hcfg : mkConfig (readInt16 ADDR_SETPOINT rom) (readInt16 ADDR_BOOST rom)
                   (readInt16 ADDR_DEADBAND rom) (readInt16 ADDR_CLAMP_MIN rom)
                   (readInt16 ADDR_CLAMP_MAX rom) (readInt16 ADDR_DEADZONE rom)
                   (readInt16 ADDR_COALBED_TIMER rom)
                   (readInt16 ADDR_FLUE_LOW rom) (readInt16 ADDR_FLUE_REC rom) = c).
  { destruct Hm as (_ & -> & -> & -> & -> & -> & -> & -> & -> & ->).
    destruct c; reflexivity. }
  unfold eeprom_init.
  destruct Hm as (Hv & _). rewrite Hv. rewrite Z.eqb_refl. cbn [negb].
  rewrite Hcfg. rewrite (validateSettings_id c Hf).
  destruct (eeprom_saveAll_mirrors c rom) as (E1 & E2). cbv zeta in E1, E2.
  rewrite (validateSettings_id c Hf) in E1. rewrite E1 in E2.
  split; assumption.
Qed.

(** Whatever the EEPROM holds, [eeprom_init] ends with a fixed
    configuration that the EEPROM mirrors; the factory one on a version
    mismatch. *)
Lemma eeprom_init_mirrors (rom0 : EEPROM) :
  let i := eeprom_init rom0 in
  settings_fixed (fst i) /\ eeprom_mirrors (fst i) (snd i) /\
  (readByte ADDR_VERSION rom0 <> EEPROM_VERSION ->
     fst i = mkConfig 350 30 25 10 100 0 30 250 300).
Proof.
  cbv zeta. unfold eeprom_init.
  destruct (Z.eqb_spec (readByte ADDR_VERSION rom0) EEPROM_VERSION) as [E|E];
    cbn [negb].
  + match goal with |- context [eeprom_saveAll ?x rom0] =>
      destruct (eeprom_saveAll_mirrors x rom0) as (F1 & F2) end.
    cbv zeta in F1, F2. split; [rewrite F1; apply validateSettings_fixed|].
    split; [exact F2|]. intros H. contradiction.
  + match goal with |- context [eeprom_saveAll ?x rom0] =>
      destruct (eeprom_saveAll_mirrors x rom0) as (F1 & F2) end.
    cbv zeta in F1, F2. split; [rewrite F1; apply validateSettings_fixed|].
    split; [exact F2|]. intros _. rewrite F1. reflexivity.
Qed.

(** X10.  Persistence round trip: [eeprom_saveAll] stores the validated
    globals so that every cell and the version byte read back as them, and an
    [eeprom_init] on that EEPROM loads exactly the configuration saved.
    Whatever an EEPROM holds, [eeprom_init] ends with a configuration in the
    normal form that the EEPROM mirrors, the factory values (350, 30, 25, 10,
    100, 0, 30, 250, 300) when the version byte is not the current one. *)
Theorem eeprom_round_trip :
  forall (c : Config) (rom : EEPROM),
    let r := eeprom_saveAll c rom in
    fst r = validateSettings c /\
    eeprom_mirrors (fst r) (snd r) /\
    fst (eeprom_init (snd r)) = fst r /\
    (forall rom0 : EEPROM,
        let i := eeprom_init rom0 in
        settings_fixed (fst i) /\ eeprom_mirrors (fst i) (snd i) /\
        (readByte ADDR_VERSION rom0 <> EEPROM_VERSION ->
           fst i = mkConfig 350 30 25 10 100 0 30 250 300)).
Proof.
  intros c rom r.
  destruct (eeprom_saveAll_mirrors c rom) as (E1 & E2). fold r in E1, E2.
  split; [exact E1|]. split; [exact E2|]. split.
  - apply eeprom_init_of_mirrors; [|exact E2].
    rewrite E1. apply validateSettings_fixed.
  - intros rom0. exact (eeprom_init_mirrors rom0).
Qed.

(* ================================================================== *)
(** * What an edit changes                                              *)
(* ================================================================== *)

(** Every edit on a fixed configuration, in closed form. *)
Lemma edit_closed_form :
  forall (now : Z) (e : Edit) (s : System),
    settings_fixed (sys_config s) ->
    let c := sys_config s in
    sys_config (ui_handleKey_edit now e s) =
    match e with
    | SaveSetpoint v => set_exhaustSetpoint (limit v 200 900) c
    | SaveBoostTime v => set_boostTimeSeconds (limit v 5 300) c
    | SaveDeadband v => set_deadbandF (limit v 1 100) c
    | ToggleDeadzone => set_deadzoneFanMode (1 - deadzoneFanMode c) c
    | SaveClampMin v =>
        set_clampMinPercent (Z.min (limit v 0 100) (clampMaxPercent c)) c
    | SaveClampMax v =>
        set_clampMaxPercent (limit v 0 100)
          (set_clampMinPercent (Z.min (clampMinPercent c) (limit v 0 100)) c)
    | SaveCoalBedTimer v => set_coalBedTimerMinutes (limit v 5 60) c
    | SaveFlueLow v =>
        set_flueLowThreshold (limit v 200 500)
          (set_flueRecoveryThreshold
             (if (flueRecoveryThreshold c >? 900)
                 || (flueRecoveryThreshold c <? limit v 200 500 + 10)
              then limit v 200 500 + 50
              else flueRecoveryThreshold c) c)
    | SaveFlueRec v =>
        set_flueRecoveryThreshold
          (let v1 := limit v (flueLowThreshold c + 10) 600 in
           if v1 <? flueLowThreshold c + 10
           then flueLowThreshold c + 50 else v1) c
    end.
Proof.
  intros now e s Hf c. subst c.
  destruct s as [c rom g]. cbn [sys_config] in *.
  destruct c as [sp bt db cmin cmax dz cb fl fr].
  unfold settings_fixed in Hf. revert Hf. config_fields.
  intros (Hsp & Hbt & Hdb & Hcl & Hdz & Hcb & Hfl & Hfr).
  destruct e as [v|v|v| |v|v|v|v|v];
    cbn [ui_handleKey_edit with_config sys_config fst snd
         eeprom_saveSetpoint eeprom_saveBoostTime eeprom_saveDeadband
         eeprom_saveDeadzone eeprom_saveClampMin eeprom_saveClampMax
         eeprom_saveCoalBedTimer eeprom_saveFlueLow eeprom_saveFlueRecovery];
    unfold validateSettings, set_flueRecoveryThreshold, set_exhaustSetpoint,
      set_boostTimeSeconds, set_deadbandF, set_clampMinPercent,
      set_clampMaxPercent, set_deadzoneFanMode, set_coalBedTimerMinutes,
      set_flueLowThreshold; config_fields.
  - pose proof (limit_bounds v 200 900 ltac:(lia)).
    int16_small. f_equal; zcases_eq; int16_small; lia.
  - pose proof (limit_bounds v 5 300 ltac:(lia)).
    int16_small. f_equal; zcases_eq; int16_small; lia.
  - pose proof (limit_bounds v 1 100 ltac:(lia)).
    int16_small. f_equal; zcases_eq; int16_small; lia.
  - f_equal; zcases_eq; int16_small; lia.
  - pose proof (limit_bounds v 0 100 ltac:(lia)).
    int16_small. f_equal; zcases_eq; int16_small; lia.
  - pose proof (limit_bounds v 0 100 ltac:(lia)).
    int16_small. f_equal; zcases_eq; int16_small; lia.
  - pose proof (limit_bounds v 5 60 ltac:(lia)).
    int16_small. f_equal; zcases_eq; int16_small; lia.
  - pose proof (limit_bounds v 200 500 ltac:(lia)).
    int16_small. f_equal; zcases_eq; int16_small; lia.
  - pose proof (limit_spec v (fl + 10) 600).
    rewrite !(to_int16_small (limit v (fl + 10) 600))
      by (unfold int16_range; lia).
    cbv zeta. f_equal; zcases_eq; int16_small; lia.
Qed.

(** X11.  On a configuration in the normal form of [validateSettings],
    every completed edit changes its own field and nothing else, except that a
    clamp edit may pull clamp-minimum down and a flue-low edit may move the
    recovery threshold: the setpoint becomes the entry limited to 200..900,
    the boost time to 5..300, the deadband to 1..100, the coal-bed timer to
    5..60 (an entry of 3 gives 5), the toggle flips the deadzone mode between
    0 and 1; a new clamp-maximum (0..100) pulls clamp-minimum down to it, a
    new clamp-minimum is cut to clamp-maximum, a new flue-low (200..500) moves
    a recovery threshold that is above 900 or no longer 10 above it to
    flue-low + 50, and a new recovery threshold is raised to flue-low + 10 and
    limited to 600 (flue-low + 50 if 600 is too low). *)
Theorem edit_changes_only_its_field :
  forall (now : Z) (e : Edit) (s : System),
    settings_fixed (sys_config s) ->
    let c := sys_config s in
    sys_config (ui_handleKey_edit now e s) =
    match e with
    | SaveSetpoint v => set_exhaustSetpoint (limit v 200 900) c
    | SaveBoostTime v => set_boostTimeSeconds (limit v 5 300) c
    | SaveDeadband v => set_deadbandF (limit v 1 100) c
    | ToggleDeadzone => set_deadzoneFanMode (1 - deadzoneFanMode c) c
    | SaveClampMin v =>
        set_clampMinPercent (Z.min (limit v 0 100) (clampMaxPercent c)) c
    | SaveClampMax v =>
        set_clampMaxPercent (limit v 0 100)
          (set_clampMinPercent (Z.min (clampMinPercent c) (limit v 0 100)) c)
    | SaveCoalBedTimer v => set_coalBedTimerMinutes (limit v 5 60) c
    | SaveFlueLow v =>
        set_flueLowThreshold (limit v 200 500)
          (set_flueRecoveryThreshold
             (if (flueRecoveryThreshold c >? 900)
                 || (flueRecoveryThreshold c <? limit v 200 500 + 10)
              then limit v 200 500 + 50
              else flueRecoveryThreshold c) c)
    | SaveFlueRec v =>
        set_flueRecoveryThreshold
          (let v1 := limit v (flueLowThreshold c + 10) 600 in
           if v1 <? flueLowThreshold c + 10
           then flueLowThreshold c + 50 else v1) c
    end.
Proof. exact edit_closed_form. Qed.

(* ================================================================== *)
(** * The EEPROM follows the configuration                              *)
(* ================================================================== *)

Ltac unfold_setters :=
  unfold set_flueRecoveryThreshold, set_exhaustSetpoint,
    set_boostTimeSeconds, set_deadbandF, set_clampMinPercent,
    set_clampMaxPercent, set_deadzoneFanMode, set_coalBedTimerMinutes,
    set_flueLowThreshold.

Lemma edit_keeps_mirror (now : Z) (e : Edit) (s : System) :
  settings_fixed (sys_config s) ->
  eeprom_mirrors (sys_config s) (sys_eeprom s) ->
  let s' := ui_handleKey_edit now e s in
  settings_fixed (sys_config s') /\
  eeprom_mirrors (sys_config s') (sys_eeprom s').
Proof.
  intros Hf Hm s'.
  assert (Hf' : settings_fixed (sys_config s')).
  { destruct (ui_handleKey_edit_validated now e s) as (c0 & Hc0).
    subst s'. rewrite Hc0. apply validateSettings_fixed. }
  split; [exact Hf'|].
  pose proof (edit_closed_form now e s Hf) as Hc.
  cbv zeta in Hc. fold s' in Hc.
  destruct (settings_fixed_int16 _ Hf')
    as (H1 & H2 & H3 & H4 & H5 & H6 & H7 & H8 & H9).
  destruct s as [c rom g]. cbn [sys_config sys_eeprom] in *.
  assert (Hrom :
    sys_eeprom s' =
    match e with
    | SaveSetpoint _ =>
        writeInt16 ADDR_SETPOINT (exhaustSetpoint (sys_config s')) rom
    | SaveBoostTime _ =>
        writeInt16 ADDR_BOOST (boostTimeSeconds (sys_config s')) rom
    | SaveDeadband _ =>
        writeInt16 ADDR_DEADBAND (deadbandF (sys_config s')) rom
    | ToggleDeadzone =>
        writeInt16 ADDR_DEADZONE (deadzoneFanMode (sys_config s')) rom
    | SaveClampMin _ | SaveClampMax _ =>
        writeInt16 ADDR_CLAMP_MAX (clampMaxPercent (sys_config s'))
          (writeInt16 ADDR_CLAMP_MIN (clampMinPercent (sys_config s')) rom)
    | SaveCoalBedTimer _ =>
        writeInt16 ADDR_COALBED_TIMER (coalBedTimerMinutes (sys_config s')) rom
    | SaveFlueLow _ | SaveFlueRec _ =>
        writeInt16 ADDR_FLUE_REC (flueRecoveryThreshold (sys_config s'))
          (writeInt16 ADDR_FLUE_LOW (flueLowThreshold (sys_config s')) rom)
    end).
  { subst s'. destruct e; reflexivity. }
  rewrite Hrom. clear Hrom.
  generalize dependent (sys_config s'). intros c' Hf' Hc H1 H2 H3 H4 H5 H6 H7 H8 H9.
  clear s'.
  destruct c as [sp bt db cmin cmax dz cb fl fr].
  destruct e; eeprom_cells;
    destruct Hm as (M0 & M1 & M2 & M3 & M4 & M5 & M6 & M7 & M8 & M9);
    revert Hc; unfold_setters; config_fields; intros Hc;
    repeat split;
    try (repeat match goal with
                | H : int16_range ?x |- context [to_int16 ?x] =>
                    rewrite (to_int16_small x H)
                end; reflexivity);
    try rewrite Hc; config_fields; assumption.
Qed.

Lemma boot_mirrors (rom : EEPROM) (g : Engine) :
  settings_fixed (sys_config (boot rom g)) /\
  eeprom_mirrors (sys_config (boot rom g)) (sys_eeprom (boot rom g)).
Proof.
  unfold boot. cbn [sys_config sys_eeprom].
  destruct (eeprom_init_mirrors rom) as (Hf & Hm & _). split; assumption.
Qed.

Lemma run_edits_mirrors (edits : list (Z * Edit)) (s : System) :
  settings_fixed (sys_config s) ->
  eeprom_mirrors (sys_config s) (sys_eeprom s) ->
  settings_fixed (sys_config (run_edits edits s)) /\
  eeprom_mirrors (sys_config (run_edits edits s)) (sys_eeprom (run_edits edits s)).
Proof.
  revert s. induction edits as [|[now e] rest IH]; intros s Hf Hm; simpl.
  - split; assumption.
  - destruct (edit_keeps_mirror now e s Hf Hm) as (Hf' & Hm').
    apply IH; assumption.
Qed.

(** X12.  After [eeprom_init] and any sequence of completed edits, the
    configuration is in the normal form and the EEPROM mirrors it cell by
    cell, so a restart at that point ([eeprom_init] on the EEPROM as it
    stands) restores exactly the configuration in use. *)
Theorem settings_survive_power_cycle :
  forall (rom : EEPROM) (g : Engine) (edits : list (Z * Edit)),
    let s := run_edits edits (boot rom g) in
    settings_fixed (sys_config s) /\
    eeprom_mirrors (sys_config s) (sys_eeprom s) /\
    forall g' : Engine, sys_config (boot (sys_eeprom s) g') = sys_config s.
Proof.
  intros rom g edits s.
  destruct (boot_mirrors rom g) as (Hf0 & Hm0).
  destruct (run_edits_mirrors edits (boot rom g) Hf0 Hm0) as (Hf & Hm).
  fold s in Hf, Hm. split; [exact Hf|]. split; [exact Hm|].
  intros g'. unfold boot. cbn [sys_config].
  apply eeprom_init_of_mirrors; assumption.
Qed.

Lemma coalbed_exit_is_immediate_witness :
  let g := mkEngine BURN_COALBED false 0 false 0 false 0 false 0 LOW in
  burnState (fst (burnengine_compute default_config 1000 (d_of_int 326) g))
    = BURN_RAMP /\
  snd (burnengine_compute default_config 1000 (d_of_int 326) g) = 100.
Proof.
  cbv zeta.
  destruct (coalbed_exit_is_immediate default_config 1000 (d_of_int 326)
              (mkEngine BURN_COALBED false 0 false 0 false 0 false 0 LOW)
              eq_refl eq_refl) as (H1 & _ & _).
  destruct (H1 ltac:(vm_compute; reflexivity)) as (Ha & Hb & _).
  split; [exact Ha | exact Hb].
Defined.

Lemma validateSettings_normal_form_witness :
  settings_fixed default_config /\ validateSettings default_config = default_config.
Proof.
  assert (Hf : settings_fixed default_config)
    by (unfold settings_fixed; simpl; lia).
  split; [exact Hf|].
  destruct (validateSettings_normal_form default_config)
    as (_ & _ & _ & _ & _ & H).
  apply H. exact Hf.
Defined.

Lemma eeprom_round_trip_witness :
  readByte ADDR_VERSION (fun _ => 255) <> EEPROM_VERSION /\
  fst (eeprom_init (fun _ => 255)) = mkConfig 350 30 25 10 100 0 30 250 300.
Proof.
  assert (Hv : readByte ADDR_VERSION (fun _ => 255) <> EEPROM_VERSION)
    by (vm_compute; discriminate).
  split; [exact Hv|].
  destruct (eeprom_round_trip default_config (fun _ => 0)) as (_ & _ & _ & H).
  destruct (H (fun _ => 255)) as (_ & _ & Hd).
  apply Hd. exact Hv.
Defined.

Lemma edit_changes_only_its_field_witness :
  let s := mkSystem default_config (fun _ => 0)
                    (mkEngine BURN_RAMP false 0 false 0 false 0 false 0 LOW) in
  settings_fixed (sys_config s) /\
  sys_config (ui_handleKey_edit 1000 (SaveCoalBedTimer 3) s) =
  mkConfig 350 30 25 10 100 0 5 250 300.
Proof.
  cbv zeta.
  assert (Hf : settings_fixed default_config)
    by (unfold settings_fixed; simpl; lia).
  split; [exact Hf|].
  rewrite (edit_changes_only_its_field 1000 (SaveCoalBedTimer 3)
             (mkSystem default_config (fun _ => 0)
                (mkEngine BURN_RAMP false 0 false 0 false 0 false 0 LOW)) Hf).
  reflexivity.
Defined.

(* ================================================================== *)
(** * Decoding a MAX31855 frame                                         *)
(* ================================================================== *)

Lemma literal_0_88 : d_0_88 = d_div (d_of_int 88) (d_of_int 100).
Proof. vm_compute. reflexivity. Qed.

Lemma literal_0_12 : d_0_12 = d_div (d_of_int 12) (d_of_int 100).
Proof. vm_compute. reflexivity. Qed.

Lemma tc_chunks_checked :
  Forall (fun c => tc_chunk_exact c = true) (Z_range 0 16).
Proof.
  unfold Z_range. cbn [Z.to_nat Pos.to_nat Pos.iter_op Nat.add seq map].
  repeat (apply Forall_cons; [vm_cast_no_check (eq_refl true)|]).
  apply Forall_nil.
Qed.

Lemma tc_accept_exact_sound (tc : Z) :
  -8192 <= tc <= 8191 -> tc_accept_exact tc = true.
Proof.
  intros H.
  pose proof (Z.div_mod (tc + 8192) 1024 ltac:(lia)) as Hdm.
  pose proof (Z.mod_pos_bound (tc + 8192) 1024 ltac:(lia)) as Hmb.
  assert (Hc : 0 <= (tc + 8192) / 1024 < 16).
  { split; [apply Z.div_pos; lia | apply Z.div_lt_upper_bound; lia]. }
  pose proof tc_chunks_checked as Hall. rewrite Forall_forall in Hall.
  specialize (Hall _ (In_Z_range 0 16 ((tc + 8192) / 1024) ltac:(lia))).
  unfold tc_chunk_exact in Hall. rewrite forallb_forall in Hall.
  apply Hall. apply In_Z_range. lia.
Qed.

(** Bit operations as arithmetic. *)
Lemma lor_shiftl_small (a n b : Z) :
  0 <= n -> 0 <= b < 2 ^ n -> Z.lor (Z.shiftl a n) b = a * 2 ^ n + b.
Proof.
  intros Hn Hb.
  assert (Hl : Z.land (Z.shiftl a n) b = 0).
  { apply Z.bits_inj'. intros i Hi. rewrite Z.land_spec, Z.bits_0.
    destruct (Z.lt_ge_cases i n) as [H|H].
    - rewrite Z.shiftl_spec_low by lia. reflexivity.
    - replace b with (b mod 2 ^ n) by (apply Z.mod_small; lia).
      rewrite Z.mod_pow2_bits_high by lia. apply andb_false_r. }
  pose proof (Z.add_lor_land (Z.shiftl a n) b) as H.
  rewrite Hl, Z.add_0_r in H. rewrite H.
  rewrite (Z.shiftl_mul_pow2 a n Hn). reflexivity.
Qed.

Lemma land_pow2 (a n : Z) :
  0 <= n -> (Z.land a (2 ^ n) =? 0) = negb (Z.odd (a / 2 ^ n)).
Proof.
  intros Hn.
  assert (H : Z.land a (2 ^ n) = if Z.testbit a n then 2 ^ n else 0).
  { apply Z.bits_inj'. intros i Hi. rewrite Z.land_spec.
    rewrite (Z.pow2_bits_eqb n i Hn).
    destruct (Z.eqb_spec n i) as [->|Hne].
    - rewrite andb_true_r. destruct (Z.testbit a i) eqn:E.
      + rewrite Z.pow2_bits_true by lia. reflexivity.
      + rewrite Z.bits_0. reflexivity.
    - rewrite andb_false_r. destruct (Z.testbit a n).
      + rewrite Z.pow2_bits_false by lia. reflexivity.
      + rewrite Z.bits_0. reflexivity. }
  rewrite H, Z.testbit_odd, Z.shiftr_div_pow2 by lia.
  destruct (Z.odd (a / 2 ^ n)); [|reflexivity].
  cbn [negb]. apply Z.eqb_neq. pose proof (Z.pow_pos_nonneg 2 n). lia.
Qed.

Lemma to_uint8_range (z : Z) : 0 <= to_uint8 z < 256.
Proof. unfold to_uint8. apply Z.mod_pos_bound. lia. Qed.

(** The 32-bit word of a frame as a number. *)
Lemma raw_word_value (f : SpiFrame) :
  raw_word f =
  ((to_uint8 (b0 f) * 256 + to_uint8 (b1 f)) * 256 + to_uint8 (b2 f)) * 256
  + to_uint8 (b3 f).
Proof.
  pose proof (to_uint8_range (b0 f)) as H0.
  pose proof (to_uint8_range (b1 f)) as H1.
  pose proof (to_uint8_range (b2 f)) as H2.
  pose proof (to_uint8_range (b3 f)) as H3.
  unfold raw_word.
  generalize dependent (to_uint8 (b0 f)). intros B0 H0.
  generalize dependent (to_uint8 (b1 f)). intros B1 H1.
  generalize dependent (to_uint8 (b2 f)). intros B2 H2.
  generalize dependent (to_uint8 (b3 f)). intros B3 H3.
  replace (Z.shiftl B0 24) with (Z.shiftl (Z.shiftl (Z.shiftl B0 8) 8) 8)
    by (rewrite !Z.shiftl_shiftl by lia; reflexivity).
  replace (Z.shiftl B1 16) with (Z.shiftl (Z.shiftl B1 8) 8)
    by (rewrite !Z.shiftl_shiftl by lia; reflexivity).
  rewrite <- !Z.shiftl_lor.
  change 256 with (2 ^ 8) in *.
  rewrite !lor_shiftl_small by lia. reflexivity.
Qed.

Lemma frame_fields (f : SpiFrame) :
  fault_bit (raw_word f) = Z.odd (to_uint8 (b1 f)) /\
  tc_data (raw_word f) = tc_of_bytes (to_uint8 (b0 f)) (to_uint8 (b1 f)).
Proof.
  pose proof (to_uint8_range (b0 f)) as H0.
  pose proof (to_uint8_range (b1 f)) as H1.
  pose proof (to_uint8_range (b2 f)) as H2.
  pose proof (to_uint8_range (b3 f)) as H3.
  rewrite (raw_word_value f).
  generalize dependent (to_uint8 (b0 f)). intros B0 H0.
  generalize dependent (to_uint8 (b1 f)). intros B1 H1.
  generalize dependent (to_uint8 (b2 f)). intros B2 H2.
  generalize dependent (to_uint8 (b3 f)). intros B3 H3.
  set (raw := ((B0 * 256 + B1) * 256 + B2) * 256 + B3).
  split.
  - unfold fault_bit. change 65536 with (2 ^ 16).
    rewrite land_pow2 by lia. rewrite negb_involutive.
    assert (Hq : raw / 2 ^ 16 = B0 * 256 + B1).
    { symmetry. apply (Z.div_unique raw (2 ^ 16) (B0 * 256 + B1) (B2 * 256 + B3)).
      - left. lia.
      - unfold raw. lia. }
    rewrite Hq.
    replace (B0 * 256 + B1) with (B1 + 2 * (B0 * 128)) by lia.
    apply Z.odd_add_mul_2.
  - unfold tc_data. cbv zeta.
    pose proof (Z.div_mod B1 4 ltac:(lia)) as Hdm.
    pose proof (Z.mod_pos_bound B1 4 ltac:(lia)) as Hmb.
    assert (Hq4 : 0 <= B1 / 4 < 64).
    { split; [apply Z.div_pos; lia | apply Z.div_lt_upper_bound; lia]. }
    assert (Hs : Z.shiftr raw 18 = B0 * 64 + B1 / 4).
    { rewrite Z.shiftr_div_pow2 by lia. symmetry.
      apply (Z.div_unique raw (2 ^ 18) (B0 * 64 + B1 / 4)
                          ((B1 mod 4) * 65536 + B2 * 256 + B3)).
      - left. lia.
      - unfold raw. lia. }
    rewrite Hs. change 16383 with (Z.ones 14).
    rewrite Z.land_ones by lia.
    rewrite (Z.mod_small (B0 * 64 + B1 / 4)) by lia.
    set (u := B0 * 64 + B1 / 4) in *.
    change 8192 with (2 ^ 13). rewrite land_pow2 by lia.
    rewrite negb_involutive. unfold tc_of_bytes. fold u.
    destruct (Z.ltb_spec B0 128) as [Hlt|Hge].
    + assert (Hd : u / 2 ^ 13 = 0) by (apply Z.div_small; unfold u; lia).
      rewrite Hd. reflexivity.
    + assert (Hd : u / 2 ^ 13 = 1).
      { symmetry. apply (Z.div_unique u (2 ^ 13) 1 (u - 8192)).
        - left. unfold u. lia.
        - lia. }
      rewrite Hd. cbn [Z.odd].
      rewrite Z.lor_comm. change 49152 with (Z.shiftl 3 14).
      rewrite lor_shiftl_small by (unfold u; lia).
      unfold to_int16.
      replace (3 * 2 ^ 14 + u + 32768) with (u + 16384 + 1 * 65536) by lia.
      rewrite Z_mod_plus_full. rewrite Z.mod_small by (unfold u; lia). lia.
Qed.

Lemma tc_of_bytes_range (B0 B1 : Z) :
  0 <= B0 < 256 -> 0 <= B1 < 256 -> -8192 <= tc_of_bytes B0 B1 <= 8191.
Proof.
  intros H0 H1. unfold tc_of_bytes. cbv zeta.
  pose proof (Z.div_pos B1 4 ltac:(lia) ltac:(lia)).
  assert (B1 / 4 < 64) by (apply Z.div_lt_upper_bound; lia).
  destruct (Z.ltb_spec B0 128); lia.
Qed.

Lemma temp_F_of_tc (raw : Z) : temp_F raw = temp_of_tc (tc_data raw).
Proof. reflexivity. Qed.

Lemma tc_data_range (f : SpiFrame) : -8192 <= tc_data (raw_word f) <= 8191.
Proof.
  destruct (frame_fields f) as (_ & Ht). rewrite Ht.
  apply tc_of_bytes_range; apply to_uint8_range.
Qed.

(** X13.  Decoding a MAX31855 frame: the fault flag is bit 0 of the second
    byte; the thermocouple value is the signed 14-bit number formed by the
    first byte and the upper six bits of the second, so it lies within
    -8192..8191; and the third and fourth bytes (cold-junction data and the
    fault detail bits) do not influence the result of [readMAX31855_F]. *)
Theorem frame_decoding :
  forall f : SpiFrame,
    let B0 := to_uint8 (b0 f) in
    let B1 := to_uint8 (b1 f) in
    fault_bit (raw_word f) = Z.odd B1 /\
    tc_data (raw_word f) = tc_of_bytes B0 B1 /\
    -8192 <= tc_data (raw_word f) <= 8191 /\
    forall x y : Z,
      readMAX31855_F (mkSpiFrame (b0 f) (b1 f) x y) = readMAX31855_F f.
Proof.
  intros f B0 B1.
  destruct (frame_fields f) as (Hf & Ht).
  split; [exact Hf|]. split; [exact Ht|]. split.
  - apply tc_data_range.
  - intros x y.
    destruct (frame_fields (mkSpiFrame (b0 f) (b1 f) x y)) as (Hf' & Ht').
    cbn [b0 b1] in Hf', Ht'.
    unfold readMAX31855_F. cbv zeta.
    rewrite !temp_F_of_tc, Hf, Hf', Ht, Ht'. reflexivity.
Qed.

(** X14.  A frame without the fault bit is accepted by [readMAX31855_F]
    exactly when its thermocouple value lies within -293..4373 quarter degrees
    Celsius (the values whose Fahrenheit temperature, as computed in binary64,
    is within -100..2000); the result is then that temperature and never
    NaN. *)
Theorem accepted_temperature_range :
  forall f : SpiFrame,
    fault_bit (raw_word f) = false ->
    let tc := tc_data (raw_word f) in
    (isnan (readMAX31855_F f) = false <-> -293 <= tc <= 4373) /\
    (-293 <= tc <= 4373 -> readMAX31855_F f = temp_of_tc tc).
Proof.
  intros f Hf tc.
  pose proof (tc_data_range f) as Hr. fold tc in Hr.
  pose proof (tc_accept_exact_sound tc Hr) as H.
  unfold tc_accept_exact in H. cbv zeta in H. apply andb_true_iff in H.
  destruct H as (Hn & Hacc). apply negb_true_iff in Hn. apply eqb_prop in Hacc.
  unfold readMAX31855_F. cbv zeta. rewrite Hf, temp_F_of_tc. fold tc.
  destruct (impossible (temp_of_tc tc)); cbn [negb] in Hacc.
  - symmetry in Hacc. apply andb_false_iff in Hacc. split.
    + split; [discriminate|]. intros Hin.
      destruct Hacc as [H|H]; [apply Z.leb_gt in H | apply Z.leb_gt in H]; lia.
    + intros Hin.
      destruct Hacc as [H|H]; [apply Z.leb_gt in H | apply Z.leb_gt in H]; lia.
  - symmetry in Hacc. apply andb_true_iff in Hacc. destruct Hacc as (Ha & Hb).
    apply Z.leb_le in Ha, Hb. split.
    + split; [intros _; lia | intros _; exact Hn].
    + intros _. reflexivity.
Qed.

Lemma accepted_temperature_range_witness :
  let f := mkSpiFrame 9 96 0 0 in
  fault_bit (raw_word f) = false /\
  tc_data (raw_word f) = 600 /\
  isnan (readMAX31855_F f) = false /\
  readMAX31855_F f = temp_of_tc 600.
Proof.
  cbv zeta.
  assert (Hf : fault_bit (raw_word (mkSpiFrame 9 96 0 0)) = false)
    by (vm_compute; reflexivity).
  assert (Ht : tc_data (raw_word (mkSpiFrame 9 96 0 0)) = 600)
    by (vm_compute; reflexivity).
  destruct (accepted_temperature_range (mkSpiFrame 9 96 0 0) Hf) as (H1 & H2).
  rewrite Ht in H1, H2.
  split; [exact Hf|]. split; [exact Ht|]. split.
  - apply H1. lia.
  - apply H2. lia.
Defined.

(* ================================================================== *)
(** * The cadence gate of the sensor cache                              *)
(* ================================================================== *)

(** The temperature formula never yields NaN on a frame. *)
Lemma temp_F_not_nan (f : SpiFrame) : isnan (temp_F (raw_word f)) = false.
Proof.
  pose proof (tc_accept_exact_sound _ (tc_data_range f)) as H.
  unfold tc_accept_exact in H. cbv zeta in H. apply andb_true_iff in H.
  destruct H as (Hn & _). apply negb_true_iff in Hn.
  rewrite temp_F_of_tc. exact Hn.
Qed.

(** [exhaust_readF_cached] in closed form. *)
Lemma exhaust_readF_cached_eq (now : Z) (f : SpiFrame) (s : SensorState) :
  exhaust_readF_cached now f s =
  if ulong_sub now (lastTCRead s) >=? 500 then
    if sample_rejected f s
    then (mkSensorState now (lastTCValueF s), lastTCValueF s)
    else (mkSensorState now (temp_F (raw_word f)), temp_F (raw_word f))
  else (s, lastTCValueF s).
Proof.
  unfold exhaust_readF_cached, sample_rejected, readMAX31855_F.
  destruct (ulong_sub now (lastTCRead s) >=? 500); [|reflexivity].
  cbn [lastTCValueF lastTCRead]. cbv zeta.
  destruct (fault_bit (raw_word f)); [reflexivity|].
  destruct (impossible (temp_F (raw_word f))); [reflexivity|].
  cbn [orb]. rewrite (temp_F_not_nan f). cbn [negb].
  destruct (negb (isnan (lastTCValueF s))
            && spike (temp_F (raw_word f)) (lastTCValueF s)); reflexivity.
Qed.

(** X15.  The cadence gate of [exhaust_readF_cached]: a call less than
    500 ms (on the 32-bit clock) after the last attempt changes nothing and
    returns the cached value; a call at 500 ms or more restarts the interval
    whether or not the reading is accepted, caches and returns the decoded
    temperature when none of the three rejection tests applies, and every
    call within the next 500 ms returns the same value unchanged.  While the
    cache is still NaN only the fault bit and the range test can reject a
    reading: the first valid one is never held against a previous value. *)
Theorem sensor_cache_gate :
  forall (now : Z) (f : SpiFrame) (s : SensorState),
    let r := exhaust_readF_cached now f s in
    (ulong_sub now (lastTCRead s) < 500 ->
       fst r = s /\ snd r = lastTCValueF s) /\
    (500 <= ulong_sub now (lastTCRead s) ->
       lastTCRead (fst r) = now /\
       (sample_rejected f s = false ->
          lastTCValueF (fst r) = temp_F (raw_word f) /\
          snd r = temp_F (raw_word f) /\
          isnan (snd r) = false) /\
       forall (now' : Z) (f' : SpiFrame),
         ulong_sub now' now < 500 ->
         exhaust_readF_cached now' f' (fst r) = (fst r, snd r)) /\
    (isnan (lastTCValueF s) = true ->
       sample_rejected f s
       = (fault_bit (raw_word f) || impossible (temp_F (raw_word f)))).
Proof.
  intros now f s r.
  assert (Hempty : isnan (lastTCValueF s) = true ->
                   sample_rejected f s
                   = (fault_bit (raw_word f) || impossible (temp_F (raw_word f)))).
  { intros Hn. unfold sample_rejected. rewrite Hn. cbn [negb andb].
    apply orb_false_r. }
  rewrite <- and_assoc. split; [|exact Hempty]. clear Hempty.
  subst r. rewrite (exhaust_readF_cached_eq now f s).
  assert (Hgate : forall (now' : Z) (f' : SpiFrame) (v : double),
             ulong_sub now' now < 500 ->
             exhaust_readF_cached now' f' (mkSensorState now v)
             = (mkSensorState now v, v)).
  { intros now' f' v Hlt. rewrite exhaust_readF_cached_eq.
    cbn [lastTCRead lastTCValueF].
    destruct (Z.geb_spec (ulong_sub now' now) 500); [lia|reflexivity]. }
  destruct (Z.geb_spec (ulong_sub now (lastTCRead s)) 500) as [Hg|Hg].
  - split; [intros H; lia|]. intros _.
    destruct (sample_rejected f s); cbn [fst snd lastTCRead lastTCValueF].
    + split; [reflexivity|]. split; [discriminate|].
      intros now' f' Hlt. apply Hgate. exact Hlt.
    + split; [reflexivity|]. split.
      * intros _. repeat split. apply temp_F_not_nan.
      * intros now' f' Hlt. apply Hgate. exact Hlt.
  - split; [|intros H; lia]. intros _. split; reflexivity.
Qed.

Lemma sensor_cache_gate_witness :
  let f := mkSpiFrame 9 96 0 0 in
  let r := exhaust_readF_cached 500 f initial_state in
  snd (exhaust_readF_cached 499 f initial_state) = NAN /\
  snd r = temp_F (raw_word f) /\
  exhaust_readF_cached 999 (mkSpiFrame 10 0 0 0) (fst r) = (fst r, snd r).
Proof.
  cbv zeta.
  destruct (sensor_cache_gate 499 (mkSpiFrame 9 96 0 0) initial_state)
    as (H1 & _ & _).
  destruct (sensor_cache_gate 500 (mkSpiFrame 9 96 0 0) initial_state)
    as (_ & H2 & _).
  destruct (H2 ltac:(vm_compute; discriminate)) as (_ & Ha & Hg).
  split.
  - apply H1. vm_compute. reflexivity.
  - split.
    + apply Ha. vm_compute. reflexivity.
    + apply Hg. vm_compute. reflexivity.
Defined.

(* ================================================================== *)
(** * The exhaust smoothing filter                                      *)
(* ================================================================== *)

Lemma run_smooth_cons (r : double) (raws : list double) (s : double) :
  run_smooth (r :: raws) s = run_smooth raws (smoothExhaustF r s).
Proof. reflexivity. Qed.

(** X16.  [smoothExhaustF] ignores invalid readings: over any sequence of
    calls the stored value ends as it would have with the NaN readings left
    out; a NaN argument returns the stored value and leaves it alone; the
    first valid reading on an empty (NaN) filter is stored as it is; and a
    sequence of NaN readings only leaves the stored value unchanged. *)
Theorem smoothing_skips_invalid_readings :
  forall (raws : list double) (smoothLast : double),
    run_smooth raws smoothLast
    = run_smooth (filter (fun r => negb (isnan r)) raws) smoothLast /\
    (forall r, isnan r = true -> smoothExhaustF r smoothLast = smoothLast) /\
    (forall r, isnan r = false -> isnan smoothLast = true ->
               smoothExhaustF r smoothLast = r) /\
    (Forall (fun r => isnan r = true) raws ->
     run_smooth raws smoothLast = smoothLast).
Proof.
  intros raws smoothLast.
  assert (Hnan : forall r s, isnan r = true -> smoothExhaustF r s = s).
  { intros r s H. unfold smoothExhaustF. rewrite H. reflexivity. }
  split; [|split; [|split]].
  - revert smoothLast. induction raws as [|r rest IH]; intros s.
    + reflexivity.
    + rewrite run_smooth_cons. cbn [filter].
      destruct (isnan r) eqn:Hr; cbn [negb].
      * rewrite (Hnan r s Hr). apply IH.
      * rewrite run_smooth_cons. apply IH.
  - intros r H. apply Hnan. exact H.
  - intros r Hr Hs. unfold smoothExhaustF. rewrite Hr, Hs. reflexivity.
  - revert smoothLast. induction raws as [|r rest IH]; intros s Hall.
    + reflexivity.
    + inversion Hall as [|? ? Hr Hrest]; subst.
      rewrite run_smooth_cons, (Hnan r s Hr). apply IH. exact Hrest.
Qed.

(* ================================================================== *)
(** * Keypad: debounce and one report per press                         *)
(* ================================================================== *)

(** The five ways through [getKey]. *)
Lemma getKey_cases (now : Z) (k : ascii) (s : KeypadState) :
  (now < 4000 /\
   getKey now k s = (mkKeypadState zero zero (lastChange s), zero)) \/
  (4000 <= now /\ k = zero /\
   getKey now k s = (mkKeypadState zero zero (lastChange s), zero)) \/
  (4000 <= now /\ k <> zero /\ k <> stableKey s /\
   getKey now k s = (mkKeypadState (Keypad.lastKey s) k now, zero)) \/
  (4000 <= now /\ k <> zero /\ k = stableKey s /\
   (ulong_sub now (lastChange s) < 40 \/ k = Keypad.lastKey s) /\
   getKey now k s = (s, zero)) \/
  (4000 <= now /\ k <> zero /\ k = stableKey s /\
   40 <= ulong_sub now (lastChange s) /\ k <> Keypad.lastKey s /\
   getKey now k s = (mkKeypadState k (stableKey s) (lastChange s), toupper k)).
Proof.
  unfold getKey.
  destruct (Z.ltb_spec now 4000) as [H0|H0]; [left; split; [lia|reflexivity]|].
  right.
  destruct (Ascii.eqb_spec k zero) as [Hz|Hz]; [left; auto|].
  right.
  destruct (Ascii.eqb_spec k (stableKey s)) as [Hs|Hs]; cbn [negb];
    [|left; auto].
  right.
  destruct (Z.ltb_spec (ulong_sub now (lastChange s)) 40) as [Hd|Hd];
    [left; repeat split; auto|].
  destruct (Ascii.eqb_spec k (Keypad.lastKey s)) as [Hl|Hl];
    [left; repeat split; auto|].
  right. repeat split; auto.
Qed.

Lemma key_window_extend (hist : list (Z * ascii)) (start now : Z) (k : ascii) :
  key_window hist start k -> 4000 <= now ->
  key_window (hist ++ [(now, k)]) start k.
Proof.
  intros (pre & rest & -> & Hall) Hn.
  exists pre, (rest ++ [(now, k)]). split.
  - now rewrite <- app_assoc.
  - change ((start, k) :: rest ++ [(now, k)])
      with (((start, k) :: rest) ++ [(now, k)]).
    apply Forall_app. split; [assumption|].
    constructor; [split; [reflexivity|exact Hn]|constructor].
Qed.

Lemma key_window_start (hist : list (Z * ascii)) (now : Z) (k : ascii) :
  4000 <= now -> key_window (hist ++ [(now, k)]) now k.
Proof.
  intros Hn. exists hist, []. split; [reflexivity|].
  constructor; [split; [reflexivity|exact Hn]|constructor].
Qed.

Lemma stable_sound_step (hist : list (Z * ascii)) (s : KeypadState)
      (now : Z) (k : ascii) :
  stable_sound hist s ->
  stable_sound (hist ++ [(now, k)]) (fst (getKey now k s)).
Proof.
  intros Hs.
  destruct (getKey_cases now k s)
    as [(_ & ->)|[(_ & _ & ->)|[(Hn & Hk & _ & ->)|
        [(Hn & Hk & He & _ & ->)|(Hn & Hk & He & _ & _ & ->)]]]];
    cbn [fst]; unfold stable_sound; cbn [stableKey lastChange]; intros Hst.
  - congruence.
  - congruence.
  - apply key_window_start. exact Hn.
  - specialize (Hs Hst). rewrite <- He in *.
    apply key_window_extend; assumption.
  - specialize (Hs Hst). rewrite <- He in *.
    apply key_window_extend; assumption.
Qed.

Lemma keypad_after_app (xs ys : list (Z * ascii)) (s : KeypadState) :
  keypad_after (xs ++ ys) s = keypad_after ys (keypad_after xs s).
Proof. unfold keypad_after. apply fold_left_app. Qed.

Lemma stable_sound_run (ins hist : list (Z * ascii)) (s : KeypadState) :
  stable_sound hist s ->
  stable_sound (hist ++ ins) (keypad_after ins s).
Proof.
  revert hist s. induction ins as [|[now k] rest IH]; intros hist s Hs.
  - now rewrite app_nil_r.
  - change ((now, k) :: rest) with ([(now, k)] ++ rest).
    rewrite app_assoc. unfold keypad_after. simpl.
    apply (IH (hist ++ [(now, k)]) (fst (getKey now k s))).
    now apply stable_sound_step.
Qed.

(** X17.  Debounce: over any sequence of [getKey] calls that starts with
    no candidate key, a call reports a key only at the end of an unbroken run
    of scans showing that key, all at or after 4000 ms of [millis()], whose
    first call lies at least 40 ms back on the 32-bit clock; the value
    reported is [toupper] of the scanned key. *)
Theorem key_report_needs_stable_scan :
  forall (ins : list (Z * ascii)) (s0 : KeypadState) (now : Z) (k : ascii),
    stableKey s0 = zero ->
    let s := keypad_after ins s0 in
    snd (getKey now k s) <> zero ->
    snd (getKey now k s) = toupper k /\ k <> zero /\
    exists pre start rest,
      ins ++ [(now, k)] = pre ++ (start, k) :: rest /\
      Forall (fun i => snd i = k /\ 4000 <= fst i) ((start, k) :: rest) /\
      40 <= ulong_sub now start.
Proof.
  intros ins s0 now k H0 s Hrep.
  assert (Hs0 : stable_sound [] s0) by (intros H; congruence).
  pose proof (stable_sound_run ins [] s0 Hs0) as Hs. simpl in Hs. fold s in Hs.
  destruct (getKey_cases now k s)
    as [(_ & E)|[(_ & _ & E)|[(_ & _ & _ & E)|
        [(_ & _ & _ & _ & E)|(Hn & Hk & He & Hd & _ & E)]]]];
    rewrite E in Hrep |- *; cbn [snd] in *; try congruence.
  split; [reflexivity|]. split; [exact Hk|].
  assert (Hst : stableKey s <> zero) by congruence.
  specialize (Hs Hst). rewrite <- He in Hs.
  destruct (key_window_extend ins (lastChange s) now k Hs Hn)
    as (pre & rest & Heq & Hall).
  exists pre, (lastChange s), rest. repeat split; assumption.
Qed.

Lemma key_report_needs_stable_scan_witness :
  let ins := [(5000, "5"%char); (5020, "5"%char)] in
  snd (getKey 5040 "5"%char (keypad_after ins initial_keypad)) = "5"%char /\
  exists pre start rest,
    ins ++ [(5040, "5"%char)] = pre ++ (start, "5"%char) :: rest /\
    Forall (fun i => snd i = "5"%char /\ 4000 <= fst i)
           ((start, "5"%char) :: rest) /\
    40 <= ulong_sub 5040 start.
Proof.
  cbv zeta.
  destruct (key_report_needs_stable_scan
              [(5000, "5"%char); (5020, "5"%char)] initial_keypad
              5040 "5"%char eq_refl) as (H1 & _ & H3).
  - vm_compute. discriminate.
  - split; [vm_compute; reflexivity | exact H3].
Defined.


(** After a report the next call reports nothing, whatever it sees. *)
Lemma getKey_never_twice (now : Z) (k : ascii) (s : KeypadState) :
  snd (getKey now k s) <> zero ->
  forall now' k', snd (getKey now' k' (fst (getKey now k s))) = zero.
Proof.
  intros Hrep.
  destruct (getKey_cases now k s)
    as [(_ & E)|[(_ & _ & E)|[(_ & _ & _ & E)|
        [(_ & _ & _ & _ & E)|(Hn & Hk & He & Hd & Hl & E)]]]];
    rewrite E in Hrep |- *; cbn [fst snd] in *; try congruence.
  intros now' k'.
  destruct (getKey_cases now' k' (mkKeypadState k (stableKey s) (lastChange s)))
    as [(_ & E')|[(_ & _ & E')|[(_ & _ & _ & E')|
        [(_ & _ & _ & _ & E')|(_ & _ & He' & _ & Hl' & _)]]]];
    try (rewrite E'; reflexivity).
  cbn [stableKey Keypad.lastKey] in He', Hl'. congruence.
Qed.



(* ================================================================== *)
(** * Keypad: the matrix scan                                           *)
(* ================================================================== *)

(** The scan as the chain of tests it amounts to, last position first. *)
Lemma scanKeypad_eq (low : nat -> nat -> bool) :
  scanKeypad low =
  (if low 3 3 then "D" else if low 3 2 then "#" else
   if low 3 1 then "0" else if low 3 0 then "*" else
   if low 2 3 then "C" else if low 2 2 then "9" else
   if low 2 1 then "8" else if low 2 0 then "7" else
   if low 1 3 then "B" else if low 1 2 then "6" else
   if low 1 1 then "5" else if low 1 0 then "4" else
   if low 0 3 then "A" else if low 0 2 then "3" else
   if low 0 1 then "2" else if low 0 0 then "1" else zero)%char%nat.
Proof. reflexivity. Qed.

Ltac scan_step low i j :=
  destruct (low i j) eqn:?;
  [ right; exists i, j;
    repeat split; first [lia | assumption | reflexivity | discriminate]
  | ].

(** X19.  [scanKeypad] returns the legend of the pressed key that comes
    last in scan order (rows first, then columns), and 0 when no column reads
    low; its result is always 0 or the legend, from the key table, of some
    key that reads low, and such a legend is never 0 and is left unchanged by
    [toupper]. *)
Theorem scan_returns_last_pressed_key :
  forall low : nat -> nat -> bool,
    (forall r c, (r < 4)%nat -> (c < 4)%nat -> low r c = true ->
       (forall r' c', (r' < 4)%nat -> (c' < 4)%nat ->
                      scanned_after r' c' r c -> low r' c' = false) ->
       scanKeypad low = KEYS_at r c) /\
    ((forall r c, (r < 4)%nat -> (c < 4)%nat -> low r c = false) ->
     scanKeypad low = zero) /\
    (scanKeypad low = zero \/
     exists r c, (r < 4)%nat /\ (c < 4)%nat /\ low r c = true /\
                 scanKeypad low = KEYS_at r c /\
                 KEYS_at r c <> zero /\
                 toupper (KEYS_at r c) = KEYS_at r c).
Proof.
  intros low. rewrite scanKeypad_eq. split; [|split].
  - intros r c Hr Hc Hrc Hlater.
    assert (Hl : forall i j, (i < 4)%nat -> (j < 4)%nat ->
                             scanned_after i j r c -> low i j = false)
      by exact Hlater.
    destruct r as [|[|[|[|]]]]; try lia;
      destruct c as [|[|[|[|]]]]; try lia;
      repeat match goal with
             | |- context [low ?i ?j] =>
                 first [ rewrite Hrc
                       | rewrite (Hl i j ltac:(lia) ltac:(lia)
                                    ltac:(unfold scanned_after; lia)) ]
             end;
      reflexivity.
  - intros Hnone.
    rewrite !Hnone by lia. reflexivity.
  - scan_step low 3%nat 3%nat. scan_step low 3%nat 2%nat.
    scan_step low 3%nat 1%nat. scan_step low 3%nat 0%nat.
    scan_step low 2%nat 3%nat. scan_step low 2%nat 2%nat.
    scan_step low 2%nat 1%nat. scan_step low 2%nat 0%nat.
    scan_step low 1%nat 3%nat. scan_step low 1%nat 2%nat.
    scan_step low 1%nat 1%nat. scan_step low 1%nat 0%nat.
    scan_step low 0%nat 3%nat. scan_step low 0%nat 2%nat.
    scan_step low 0%nat 1%nat. scan_step low 0%nat 0%nat.
    left. reflexivity.
Qed.

(* ================================================================== *)
(** * The key handler                                                   *)
(* ================================================================== *)

Ltac key_tests :=
  repeat match goal with
         | |- context [Ascii.eqb ?a ?b] =>
             destruct (Ascii.eqb_spec a b); cbn [andb negb]
         | |- context [is_digit ?a] => destruct (is_digit a) eqn:?
         | |- context [is_empty ?a] => destruct (is_empty a) eqn:?
         | |- context [BurnState_eqb ?a ?b] =>
             destruct (BurnState_eqb_spec a b); cbn [andb negb]
         end.

(** X20.  [ui_handleKey] changes the settings and the EEPROM only on the
    '#' key or on '3' in the clamp menu; it changes the burn engine only on
    '#' in the boost-time editor or on '*' while the phase is COALBED; and a
    '#' on the home screen, on a menu, or in an editor whose text is empty,
    does nothing but request a redraw. *)
Theorem only_save_keys_change_settings :
  forall (now : Z) (k : ascii) (u : Screen) (s : System),
    let r := ui_handleKey now k u s in
    (k <> "#"%char -> ~ (uiState u = UI_CLAMP_MENU /\ k = "3"%char) ->
       sys_config (snd r) = sys_config s /\
       sys_eeprom (snd r) = sys_eeprom s) /\
    (~ (uiState u = UI_BOOSTTIME /\ k = "#"%char) ->
     ~ (burnState (sys_engine s) = BURN_COALBED /\ k = "*"%char) ->
       sys_engine (snd r) = sys_engine s) /\
    (k = "#"%char -> edit_text u = [] ->
       snd r = s /\ fst r = set_uiNeedRedraw true u).
Proof.
  intros now k u s r. subst r.
  destruct u as [st nr b1 b2 b3 b4 b5 b6 b7 b8].
  destruct s as [c rom g].
  unfold edit_text. cbn [uiState].
  split; [|split].
  - intros Hk Hm. unfold ui_handleKey.
    destruct st; cbn [uiState set_uiNeedRedraw]; key_tests;
      cbn [fst snd sys_config sys_eeprom]; try (split; reflexivity);
      try congruence.
    all: exfalso; apply Hm; split; congruence.
  - intros Hb Hc. unfold ui_handleKey.
    destruct st; cbn [uiState set_uiNeedRedraw]; key_tests;
      cbn [fst snd sys_engine]; try reflexivity;
      try (exfalso; apply Hc; split; assumption);
      try (exfalso; apply Hb; split; congruence);
      try (destruct c; reflexivity).
  - intros -> Ht. unfold ui_handleKey.
    destruct st; cbn [uiState set_uiNeedRedraw newSetpointValue
                      boostTimeEditValue deadbandEditValue clampMinEditValue
                      clampMaxEditValue coalBedTimerEditValue flueLowEditValue
                      flueRecEditValue] in *;
      subst; cbn; rewrite andb_false_r; split; reflexivity.
Qed.

Lemma only_save_keys_change_settings_witness :
  let u := set_uiState UI_CLAMP_MIN initial_screen in
  let s := mkSystem default_config (fun _ => 0)
                    (mkEngine BURN_HOLD false 0 false 0 false 0 false 0 LOW) in
  sys_config (snd (ui_handleKey 100 "7" u s)) = sys_config s /\
  snd (ui_handleKey 100 "#" u s) = s.
Proof.
  cbv zeta.
  destruct (only_save_keys_change_settings 100 "7"
              (set_uiState UI_CLAMP_MIN initial_screen)
              (mkSystem default_config (fun _ => 0)
                 (mkEngine BURN_HOLD false 0 false 0 false 0 false 0 LOW)))
    as (H1 & _ & _).
  destruct (only_save_keys_change_settings 100 "#"
              (set_uiState UI_CLAMP_MIN initial_screen)
              (mkSystem default_config (fun _ => 0)
                 (mkEngine BURN_HOLD false 0 false 0 false 0 false 0 LOW)))
    as (_ & _ & H3).
  split.
  - apply H1; [discriminate|]. intros [_ H]. discriminate H.
  - apply H3; reflexivity.
Defined.

(** The '*' key. *)
Lemma star_key (now : Z) (u : Screen) (s : System) :
  let r := ui_handleKey now "*" u s in
  uiState (fst r) =
    (if BurnState_eqb (burnState (sys_engine s)) BURN_COALBED
     then UI_HOME else parent_screen (uiState u)) /\
  sys_config (snd r) = sys_config s /\ sys_eeprom (snd r) = sys_eeprom s.
Proof.
  destruct u as [st nr b1 b2 b3 b4 b5 b6 b7 b8]. destruct s as [c rom g].
  cbv zeta. unfold ui_handleKey. cbn [sys_engine uiState].
  destruct (BurnState_eqb (burnState g) BURN_COALBED);
    destruct st; cbn; repeat split; reflexivity.
Qed.

Lemma parent_screen_thrice (st : UIState) :
  parent_screen (parent_screen (parent_screen st)) = UI_HOME.
Proof. destruct st; reflexivity. Qed.

Lemma parent_screen_home_twice (st : UIState) :
  parent_screen UI_HOME = UI_HOME /\
  parent_screen (parent_screen UI_HOME) = UI_HOME.
Proof. split; reflexivity. Qed.

(** X21.  From any screen and any state, three presses of '*' lead to the
    home screen, and they leave the settings and the EEPROM as they were. *)
Theorem three_cancels_reach_home :
  forall (n1 n2 n3 : Z) (u : Screen) (s : System),
    let r := run_presses [(n1, "*"%char); (n2, "*"%char); (n3, "*"%char)]
                         (u, s) in
    uiState (fst r) = UI_HOME /\
    sys_config (snd r) = sys_config s /\
    sys_eeprom (snd r) = sys_eeprom s.
Proof.
  intros n1 n2 n3 u s. cbv zeta. unfold run_presses. cbn [fold_left].
  unfold press. cbn [fst snd].
  destruct (star_key n1 u s) as (U1 & C1 & E1).
  destruct (ui_handleKey n1 "*" u s) as [u1 s1]. cbn [fst snd] in *.
  destruct (star_key n2 u1 s1) as (U2 & C2 & E2).
  destruct (ui_handleKey n2 "*" u1 s1) as [u2 s2]. cbn [fst snd] in *.
  destruct (star_key n3 u2 s2) as (U3 & C3 & E3).
  destruct (ui_handleKey n3 "*" u2 s2) as [u3 s3]. cbn [fst snd] in *.
  split; [|split; congruence].
  rewrite U3, U2, U1.
  destruct (BurnState_eqb (burnState (sys_engine s2)) BURN_COALBED);
    [reflexivity|].
  destruct (BurnState_eqb (burnState (sys_engine s1)) BURN_COALBED);
    [reflexivity|].
  destruct (BurnState_eqb (burnState (sys_engine s)) BURN_COALBED);
    [reflexivity|].
  apply parent_screen_thrice.
Qed.

(** Typing digits into the setpoint editor. *)
Lemma is_digit_neq (k c : ascii) :
  is_digit k = true -> is_digit c = false -> Ascii.eqb k c = false.
Proof.
  intros Hk Hc. destruct (Ascii.eqb_spec k c) as [E|E]; [|reflexivity].
  subst. congruence.
Qed.

Lemma setpoint_digit (now : Z) (k : ascii) (u : Screen) (s : System) :
  uiState u = UI_SETPOINT -> is_digit k = true ->
  ui_handleKey now k u s =
  (set_newSetpointValue (newSetpointValue u ++ [k]) (set_uiNeedRedraw true u), s).
Proof.
  intros Hu Hk. unfold ui_handleKey.
  rewrite (is_digit_neq k zero Hk eq_refl).
  rewrite (is_digit_neq k "*" Hk eq_refl), andb_false_r.
  cbn [uiState set_uiNeedRedraw]. rewrite Hu, Hk. reflexivity.
Qed.

Lemma setpoint_digits (ds : list (Z * ascii)) (u : Screen) (s : System) :
  uiState u = UI_SETPOINT ->
  Forall (fun i => is_digit (snd i) = true) ds ->
  let r := run_presses ds (u, s) in
  snd r = s /\ uiState (fst r) = UI_SETPOINT /\
  newSetpointValue (fst r) = newSetpointValue u ++ map snd ds.
Proof.
  revert u. induction ds as [|[n k] rest IH]; intros u Hu Hall.
  - cbn. rewrite app_nil_r. repeat split; assumption.
  - inversion Hall as [|? ? Hk Hrest]; subst. cbn [snd] in Hk.
    cbv zeta. unfold run_presses. cbn [fold_left].
    assert (Hp : press (u, s) (n, k)
                 = (set_newSetpointValue (newSetpointValue u ++ [k])
                      (set_uiNeedRedraw true u), s)).
    { unfold press. cbn [fst snd]. apply setpoint_digit; assumption. }
    rewrite Hp.
    destruct (IH (set_newSetpointValue (newSetpointValue u ++ [k])
                    (set_uiNeedRedraw true u)) Hu Hrest) as (H1 & H2 & H3).
    unfold run_presses in H1, H2, H3.
    split; [exact H1|]. split; [exact H2|].
    rewrite H3. cbn [newSetpointValue set_newSetpointValue map snd].
    rewrite <- app_assoc. reflexivity.
Qed.

Lemma setpoint_hash (now : Z) (u : Screen) (s : System) :
  uiState u = UI_SETPOINT -> is_empty (newSetpointValue u) = false ->
  ui_handleKey now "#" u s =
  (set_uiState UI_HOME (set_newSetpointValue [] (set_uiNeedRedraw true u)),
   ui_handleKey_edit now (SaveSetpoint (toInt (newSetpointValue u))) s).
Proof.
  destruct u as [st nr b1 b2 b3 b4 b5 b6 b7 b8].
  cbn [uiState newSetpointValue]. intros -> He.
  unfold ui_handleKey. cbn [Ascii.eqb Bool.eqb andb]. rewrite andb_false_r.
  cbn [uiState set_uiNeedRedraw newSetpointValue].
  change (is_digit "#") with false. cbn [Ascii.eqb Bool.eqb andb].
  rewrite He. reflexivity.
Qed.

(** X22.  Entering a setpoint: from the home screen, 'A', then one to nine
    digits, then '#' stores the decimal value of the digits limited to
    200..900 as [exhaustSetpoint], writes it to its EEPROM cell, clears the
    edit text, returns to the home screen and leaves the burn engine alone. *)
Theorem setpoint_entry :
  forall (n0 n1 : Z) (ds : list (Z * ascii)) (u : Screen) (s : System),
    uiState u = UI_HOME ->
    ds <> [] -> (length ds <= 9)%nat ->
    Forall (fun i => is_digit (snd i) = true) ds ->
    let r := run_presses ((n0, "A"%char) :: ds ++ [(n1, "#"%char)]) (u, s) in
    uiState (fst r) = UI_HOME /\
    newSetpointValue (fst r) = [] /\
    exhaustSetpoint (sys_config (snd r)) = limit (toInt (map snd ds)) 200 900 /\
    200 <= exhaustSetpoint (sys_config (snd r)) <= 900 /\
    readInt16 ADDR_SETPOINT (sys_eeprom (snd r))
      = exhaustSetpoint (sys_config (snd r)) /\
    sys_engine (snd r) = sys_engine s.
Proof.
  intros n0 n1 ds u s Hu Hne _ Hall. cbv zeta.
  unfold run_presses. cbn [fold_left]. rewrite fold_left_app. cbn [fold_left].
  set (u0 := fst (press (u, s) (n0, "A"%char))).
  assert (Hp0 : press (u, s) (n0, "A"%char)
                = (set_newSetpointValue [] (set_uiState UI_SETPOINT
                                              (set_uiNeedRedraw true u)), s)).
  { unfold press. cbn [fst snd]. unfold ui_handleKey.
    cbn [Ascii.eqb Bool.eqb andb]. rewrite andb_false_r.
    cbn [uiState set_uiNeedRedraw]. rewrite Hu. reflexivity. }
  rewrite Hp0.
  destruct (setpoint_digits ds
              (set_newSetpointValue [] (set_uiState UI_SETPOINT
                                          (set_uiNeedRedraw true u)))
              s eq_refl Hall) as (H1 & H2 & H3).
  unfold run_presses in H1, H2, H3.
  destruct (fold_left press ds _) as [u1 s1]. cbn [fst snd] in H1, H2, H3.
  subst s1. cbn [newSetpointValue set_newSetpointValue app] in H3.
  assert (Hem : is_empty (newSetpointValue u1) = false).
  { rewrite H3. destruct ds; [congruence|reflexivity]. }
  unfold press. cbn [fst snd].
  rewrite (setpoint_hash n1 u1 s H2 Hem), H3.
  cbn [fst snd uiState set_uiState newSetpointValue set_newSetpointValue
       set_uiNeedRedraw].
  pose proof (limit_bounds (toInt (map snd ds)) 200 900 ltac:(lia)) as Hl.
  assert (Hsp : exhaustSetpoint
                  (sys_config (ui_handleKey_edit n1
                                 (SaveSetpoint (toInt (map snd ds))) s))
                = limit (toInt (map snd ds)) 200 900).
  { cbn [ui_handleKey_edit with_config sys_config fst eeprom_saveSetpoint].
    unfold validateSettings. unfold_setters. config_fields.
    int16_small. zcases_eq; lia. }
  split; [reflexivity|]. split; [reflexivity|]. split; [exact Hsp|].
  split; [rewrite Hsp; exact Hl|]. split.
  - cbn [ui_handleKey_edit with_config sys_config sys_eeprom fst snd
         eeprom_saveSetpoint] in *.
    unfold readInt16, writeInt16. cbn [Z.eqb ADDR_SETPOINT].
    rewrite Hsp.
    rewrite !(to_int16_small (limit (toInt (map snd ds)) 200 900))
      by (unfold int16_range; lia).
    reflexivity.
  - reflexivity.
Qed.

(* ================================================================== *)
(** * The sketch: what every run keeps                                  *)
(* ================================================================== *)

(** What [ui_handleKey] can do to the settings, the EEPROM and the engine. *)
Lemma ui_handleKey_system (now : Z) (k : ascii) (u : Screen) (s : System) :
  let s' := snd (ui_handleKey now k u s) in
  s' = s \/ (exists e, s' = ui_handleKey_edit now e s) \/
  s' = mkSystem (sys_config s) (sys_eeprom s)
                (burnengine_init now (sys_engine s)).
Proof.
  destruct u as [st nr b1 b2 b3 b4 b5 b6 b7 b8].
  cbv zeta. unfold ui_handleKey.
  destruct st; cbn [uiState set_uiNeedRedraw]; key_tests; cbn [snd];
    first [ left; reflexivity
          | right; right; reflexivity
          | right; left; eexists; reflexivity ].
Qed.

Lemma edit_engine (now : Z) (e : Edit) (s : System) :
  sys_engine (ui_handleKey_edit now e s) = sys_engine s \/
  sys_engine (ui_handleKey_edit now e s)
  = burnengine_startBoost now (sys_engine s).
Proof. destruct e; cbn; auto. Qed.

Lemma startBoost_live (now : Z) (g : Engine) :
  burnState g <> BURN_SAFETY -> burnState g <> BURN_IDLE ->
  burnState (burnengine_startBoost now g) <> BURN_SAFETY /\
  burnState (burnengine_startBoost now g) <> BURN_IDLE.
Proof.
  intros Hs Hi. rewrite (startBoost_phase now g Hs). split; discriminate.
Qed.

Lemma ui_handleKey_keeps (now : Z) (k : ascii) (u : Screen) (s : System) :
  settings_fixed (sys_config s) ->
  eeprom_mirrors (sys_config s) (sys_eeprom s) ->
  burnState (sys_engine s) <> BURN_SAFETY ->
  burnState (sys_engine s) <> BURN_IDLE ->
  let s' := snd (ui_handleKey now k u s) in
  settings_fixed (sys_config s') /\
  eeprom_mirrors (sys_config s') (sys_eeprom s') /\
  burnState (sys_engine s') <> BURN_SAFETY /\
  burnState (sys_engine s') <> BURN_IDLE.
Proof.
  intros Hf Hm Hs Hi.
  destruct (ui_handleKey_system now k u s) as [E|[(e & E)|E]];
    cbv zeta in *; rewrite E.
  - split; [exact Hf|]. split; [exact Hm|]. split; assumption.
  - destruct (edit_keeps_mirror now e s Hf Hm) as (Hf' & Hm').
    split; [exact Hf'|]. split; [exact Hm'|].
    destruct (edit_engine now e s) as [Ee|Ee]; rewrite Ee.
    + split; assumption.
    + apply startBoost_live; assumption.
  - cbn [sys_config sys_eeprom sys_engine].
    split; [exact Hf|]. split; [exact Hm|]. split; discriminate.
Qed.

(** The control part of an iteration. *)
Lemma control_part_keeps (i : Sketch.LoopInput) (w : Sketch.Globals) :
  sketch_invariant w ->
  let c := Sketch.control_part i w in
  sketch_invariant (fst c) /\
  Sketch.keypad (fst c) = Sketch.keypad w /\
  Sketch.lastKey (fst c) = Sketch.lastKey w /\
  out_phase (snd c) <> BURN_SAFETY /\ out_phase (snd c) <> BURN_IDLE /\
  out_damper (snd c) = LOW /\
  0 <= out_rawFan (snd c) <= 100 /\ 0 <= out_finalFan (snd c) <= 100.
Proof.
  intros (Hf & Hm & Hs & Hi & Hl). cbv zeta.
  unfold Sketch.control_part. cbv zeta.
  set (t := smoothExhaustF _ _).
  set (cfg := sys_config (Sketch.system w)) in *.
  set (g := sys_engine (Sketch.system w)) in *.
  assert (Hcl : 0 <= clampMinPercent cfg /\
                clampMinPercent cfg <= clampMaxPercent cfg <= 100).
  { unfold settings_fixed in Hf. lia. }
  destruct Hcl as (Hc0 & Hc1).
  unfold control_tick. cbn [fst snd].
  destruct (tick_phase_policy cfg (Sketch.now_engine i) t g)
    as (P1 & P2 & _ & P4).
  destruct (raw_demand_bounds cfg (Sketch.now_engine i) t g Hc0 Hc1)
    as (Hraw & _).
  destruct (burnengine_compute cfg (Sketch.now_engine i) t g) as [g' raw].
  cbn [fst snd] in *.
  pose proof (fan_compute_bounds cfg (burnState g') raw (Sketch.fan w)
                Hc0 Hc1 Hl Hraw) as Hfan.
  unfold fancontrol_apply.
  destruct (fan_compute cfg (burnState g') raw (Sketch.fan w)) as [m' final].
  cbn [fst snd] in *. destruct Hfan as (Hl' & Hfin & _ & _).
  assert (Hs' : burnState g' <> BURN_SAFETY) by (intro H; apply Hs, P1, H).
  assert (Hi' : burnState g' <> BURN_IDLE) by (intro H; apply Hi, P2, H).
  unfold sketch_invariant, observe.
  cbn [Sketch.system Sketch.fan Sketch.keypad Sketch.lastKey sys_config
       sys_eeprom sys_engine fst snd out_phase out_damper out_rawFan
       out_finalFan].
  split; [split; [exact Hf|]; split; [exact Hm|]; split; [exact Hs'|];
          split; [exact Hi' | exact Hl']|].
  split; [reflexivity|]. split; [reflexivity|].
  split; [exact Hs'|]. split; [exact Hi'|].
  split; [|split; [exact Hraw | exact Hfin]].
  destruct (damperRelay g') eqn:Hd; [|reflexivity].
  exfalso. destruct (proj1 P4 eq_refl); contradiction.
Qed.

(** The keypad part of an iteration. *)
Lemma key_part_keeps (i : Sketch.LoopInput) (w : Sketch.Globals) :
  sketch_invariant w -> sketch_invariant (Sketch.key_part i w).
Proof.
  intros (Hf & Hm & Hs & Hi & Hl). unfold Sketch.key_part. cbv zeta.
  destruct (negb (Ascii.eqb _ zero)).
  - destruct (negb (Ascii.eqb _ (Sketch.lastKey w))).
    + destruct (ui_handleKey_keeps (Sketch.now_ui i)
                  (snd (getKey (Sketch.now_keypad i)
                          (scanKeypad (Sketch.in_low i)) (Sketch.keypad w)))
                  (Sketch.screen w) (Sketch.system w) Hf Hm Hs Hi)
        as (Hf' & Hm' & Hs' & Hi').
      unfold sketch_invariant. cbn [Sketch.system Sketch.fan].
      split; [exact Hf'|]. split; [exact Hm'|]. split; [exact Hs'|].
      split; [exact Hi' | exact Hl].
    + unfold sketch_invariant. cbn [Sketch.system Sketch.fan snd].
      split; [exact Hf|]. split; [exact Hm|]. split; [exact Hs|].
      split; [exact Hi | exact Hl].
  - unfold sketch_invariant. cbn [Sketch.system Sketch.fan].
    split; [exact Hf|]. split; [exact Hm|]. split; [exact Hs|].
    split; [exact Hi | exact Hl].
Qed.

Lemma setup_invariant (now : Z) (rom : EEPROM) :
  sketch_invariant (Sketch.setup now rom).
Proof.
  unfold Sketch.setup, sketch_invariant. cbv zeta.
  cbn [Sketch.system Sketch.fan sys_config sys_eeprom sys_engine].
  destruct (eeprom_init_mirrors rom) as (Hf & Hm & _).
  split; [exact Hf|]. split; [exact Hm|].
  split; [discriminate|]. split; [discriminate|]. cbn. lia.
Qed.

Lemma loop_keeps (i : Sketch.LoopInput) (w : Sketch.Globals) :
  sketch_invariant w ->
  sketch_invariant (fst (Sketch.loop i w)) /\
  out_phase (snd (Sketch.loop i w)) <> BURN_SAFETY /\
  out_phase (snd (Sketch.loop i w)) <> BURN_IDLE /\
  out_damper (snd (Sketch.loop i w)) = LOW /\
  0 <= out_rawFan (snd (Sketch.loop i w)) <= 100 /\
  0 <= out_finalFan (snd (Sketch.loop i w)) <= 100.
Proof.
  intros Hw. unfold Sketch.loop. cbv zeta. cbn [fst snd].
  destruct (control_part_keeps i w Hw) as (Hc & _ & _ & Ho).
  split; [apply key_part_keeps; exact Hc | exact Ho].
Qed.

(** X23.  Whatever the EEPROM holds at power-on and whatever the sensor,
    the keypad and the clock deliver afterwards, every run of [loop()] from
    [setup()] keeps the settings in the normal form of [validateSettings], the
    EEPROM mirroring them, the phase different from SAFETY and IDLE and the
    stored fan percentage within 0..100; and every iteration puts out a raw
    demand and a final percentage within 0..100 with the damper open. *)
Theorem sketch_keeps_its_invariant :
  forall (now0 : Z) (rom : EEPROM) (ins : list Sketch.LoopInput),
    sketch_invariant (Sketch.globals_after ins (Sketch.setup now0 rom)) /\
    Forall (fun o => out_phase o <> BURN_SAFETY /\ out_phase o <> BURN_IDLE /\
                     out_damper o = LOW /\
                     0 <= out_rawFan o <= 100 /\ 0 <= out_finalFan o <= 100)
           (Sketch.run_loop ins (Sketch.setup now0 rom)).
Proof.
  intros now0 rom ins.
  pose proof (setup_invariant now0 rom) as H0.
  revert H0. generalize (Sketch.setup now0 rom).
  induction ins as [|i rest IH]; intros w Hw.
  - split; [exact Hw | constructor].
  - destruct (loop_keeps i w Hw) as (Hw' & Ho).
    destruct (IH _ Hw') as (Hfin & Hall).
    split; [exact Hfin|]. simpl. constructor; assumption.
Qed.

(* ================================================================== *)
(** * The sketch: key dispatch                                          *)
(* ================================================================== *)

Lemma control_part_frame (i : Sketch.LoopInput) (w : Sketch.Globals) :
  Sketch.keypad (fst (Sketch.control_part i w)) = Sketch.keypad w /\
  Sketch.lastKey (fst (Sketch.control_part i w)) = Sketch.lastKey w /\
  Sketch.screen (fst (Sketch.control_part i w)) = Sketch.screen w /\
  sys_config (Sketch.system (fst (Sketch.control_part i w)))
  = sys_config (Sketch.system w) /\
  sys_eeprom (Sketch.system (fst (Sketch.control_part i w)))
  = sys_eeprom (Sketch.system w).
Proof. unfold Sketch.control_part. cbn. repeat split. Qed.

Lemma loop_lastKey_sound (i : Sketch.LoopInput) (w : Sketch.Globals) :
  lastKey_sound (fst (Sketch.loop i w)).
Proof.
  unfold Sketch.loop. cbv zeta. cbn [fst].
  destruct (control_part_frame i w) as (Hk & _).
  generalize dependent (fst (Sketch.control_part i w)). intros c Hk.
  unfold Sketch.key_part. cbv zeta.
  destruct (Ascii.eqb_spec
              (snd (getKey (Sketch.now_keypad i) (scanKeypad (Sketch.in_low i))
                      (Sketch.keypad c))) zero) as [E|E]; cbn [negb].
  - unfold lastKey_sound. cbn [Sketch.lastKey]. congruence.
  - unfold lastKey_sound. cbn [Sketch.lastKey Sketch.keypad]. intros _.
    apply getKey_never_twice. exact E.
Qed.

Lemma globals_after_lastKey_sound (ins : list Sketch.LoopInput)
      (w : Sketch.Globals) :
  lastKey_sound w -> lastKey_sound (Sketch.globals_after ins w).
Proof.
  revert w. induction ins as [|i rest IH]; intros w Hw.
  - exact Hw.
  - unfold Sketch.globals_after. simpl. apply IH. apply loop_lastKey_sound.
Qed.

(** X24.  In every state reached by [loop()] from [setup()], a key that
    [getKey] reports is handed to [ui_handleKey] in the same iteration (the
    sketch's own [lastKey] test never holds one back, since [getKey] does not
    report on two calls in a row), and an iteration without a report leaves
    the screen and the settings to the control part. *)
Theorem every_reported_key_is_handled :
  forall (now0 : Z) (rom : EEPROM) (ins : list Sketch.LoopInput)
         (i : Sketch.LoopInput),
    let w := Sketch.globals_after ins (Sketch.setup now0 rom) in
    let c := fst (Sketch.control_part i w) in
    let key := snd (getKey (Sketch.now_keypad i)
                           (scanKeypad (Sketch.in_low i)) (Sketch.keypad w)) in
    let w' := fst (Sketch.loop i w) in
    (key <> zero ->
       (Sketch.screen w', Sketch.system w')
       = ui_handleKey (Sketch.now_ui i) key (Sketch.screen w) (Sketch.system c)) /\
    (key = zero ->
       Sketch.screen w' = Sketch.screen w /\
       Sketch.system w' = Sketch.system c).
Proof.
  intros now0 rom ins i w c key w'.
  assert (Hsound : lastKey_sound w).
  { apply globals_after_lastKey_sound. unfold lastKey_sound, Sketch.setup.
    cbn [Sketch.lastKey]. congruence. }
  destruct (control_part_frame i w) as (Hk & Hl & Hscr & _).
  fold c in Hk, Hl, Hscr.
  subst w'. unfold Sketch.loop. cbv zeta. cbn [fst]. fold c.
  unfold Sketch.key_part. cbv zeta. rewrite Hk, Hl, Hscr. fold key.
  split.
  - intros Hkey.
    destruct (Ascii.eqb_spec key zero) as [E|E]; [contradiction|]. cbn [negb].
    destruct (Ascii.eqb_spec key (Sketch.lastKey w)) as [E2|E2]; cbn [negb].
    + exfalso. apply Hkey. unfold key. apply Hsound. congruence.
    + cbn [Sketch.screen Sketch.system].
      destruct (ui_handleKey _ _ _ _); reflexivity.
  - intros Hkey. rewrite Hkey. cbn [Ascii.eqb negb Bool.eqb].
    cbn [Sketch.screen Sketch.system]. split; reflexivity.
Qed.

Lemma every_reported_key_is_handled_witness :
  let held := fun (r c : nat) => (Nat.eqb r 0 && Nat.eqb c 3)%bool in
  let f := mkSpiFrame 9 96 0 0 in
  let press := fun t => Sketch.mkLoopInput f held t t t t in
  let w := Sketch.globals_after [press 5000; press 5020]
                                (Sketch.setup 0 (fun _ => 255)) in
  snd (getKey 5040 (scanKeypad held) (Sketch.keypad w)) = "A"%char /\
  uiState (Sketch.screen (fst (Sketch.loop (press 5040) w))) = UI_SETPOINT.
Proof.
  cbv zeta.
  set (held := fun (r c : nat) => (Nat.eqb r 0 && Nat.eqb c 3)%bool).
  set (f := mkSpiFrame 9 96 0 0).
  set (press := fun t => Sketch.mkLoopInput f held t t t t).
  assert (Hk : snd (getKey 5040 (scanKeypad held)
                      (Sketch.keypad
                         (Sketch.globals_after [press 5000; press 5020]
                            (Sketch.setup 0 (fun _ => 255)))))
               = "A"%char) by (vm_compute; reflexivity).
  split; [exact Hk|].
  destruct (every_reported_key_is_handled 0 (fun _ => 255)
              [press 5000; press 5020] (press 5040)) as (H1 & _).
  cbv zeta in H1.
  change (Sketch.now_keypad (press 5040)) with 5040 in H1.
  change (Sketch.in_low (press 5040)) with held in H1.
  rewrite Hk in H1.
  specialize (H1 ltac:(discriminate)).
  apply (f_equal fst) in H1. cbn [fst] in H1. rewrite H1.
  vm_compute. reflexivity.
Defined.

(* ================================================================== *)
(** * The sketch: power-on                                              *)
(* ================================================================== *)

Lemma getKey_quiet (now : Z) (k : ascii) (s : KeypadState) :
  now < 4000 \/ k = zero -> snd (getKey now k s) = zero.
Proof.
  intros H.
  destruct (getKey_cases now k s)
    as [(_ & E)|[(_ & _ & E)|[(_ & _ & _ & E)|
        [(_ & _ & _ & _ & E)|(Hn & Hk & _ & _ & _ & E)]]]];
    try (rewrite E; reflexivity).
  destruct H; [lia|contradiction].
Qed.

(** An iteration inside the boost window with no key reported. *)
Lemma loop_in_boost (i : Sketch.LoopInput) (w : Sketch.Globals) :
  let g := sys_engine (Sketch.system w) in
  let cfg := sys_config (Sketch.system w) in
  burnState g <> BURN_SAFETY -> boostActive g = true ->
  ulong_sub (Sketch.now_engine i) (boostStartMs g) < boost_duration_ms cfg ->
  Sketch.now_keypad i < 4000 \/ scanKeypad (Sketch.in_low i) = zero ->
  let w' := fst (Sketch.loop i w) in
  let o := snd (Sketch.loop i w) in
  (out_phase o = BURN_BOOST /\ out_rawFan o = 100 /\
   out_damper o = LOW /\ out_finalFan o = 100) /\
  sys_config (Sketch.system w') = cfg /\
  burnState (sys_engine (Sketch.system w')) <> BURN_SAFETY /\
  boostActive (sys_engine (Sketch.system w')) = true /\
  boostStartMs (sys_engine (Sketch.system w')) = boostStartMs g.
Proof.
  cbv zeta. intros Hs Hb Hlt Hq.
  unfold Sketch.loop. cbv zeta. cbn [fst snd].
  unfold Sketch.key_part. cbv zeta.
  destruct (control_part_frame i w) as (Hk & _).
  rewrite Hk, (getKey_quiet _ _ _ Hq). cbn [Ascii.eqb Bool.eqb negb].
  cbn [Sketch.system].
  unfold Sketch.control_part. cbv zeta. cbn [fst snd Sketch.system].
  unfold control_tick. cbn [fst snd].
  rewrite (boost_tick_open _ _ _ _ Hs Hb Hlt).
  cbn [burnState digitalWrite_damper set_burnState fancontrol_apply].
  unfold fan_compute. cbn [fst snd]. unfold observe.
  cbn [fst snd sys_config sys_engine burnState boostActive boostStartMs
       damperRelay out_phase out_rawFan out_damper out_finalFan].
  repeat split; try reflexivity; try assumption. discriminate.
Qed.

(** X25.  Power-on: the boost time loaded by [setup()] is within 0..1800
    seconds, and every iteration of [loop()] that follows within that many
    seconds of [setup()] (on the 32-bit clock), as long as [getKey] has nothing
    to report (the first 4000 ms, or no key down), puts out BOOST, demand 100,
    the damper open and the final fan at 100, whatever the sensor delivers. *)
Theorem power_on_boost :
  forall (now0 : Z) (rom : EEPROM) (ins : list Sketch.LoopInput),
    let w0 := Sketch.setup now0 rom in
    let seconds := boostTimeSeconds (sys_config (Sketch.system w0)) in
    0 <= seconds <= 1800 /\
    (Forall (fun i =>
               ulong_sub (Sketch.now_engine i) now0 < seconds * 1000 /\
               (Sketch.now_keypad i < 4000 \/
                scanKeypad (Sketch.in_low i) = zero)) ins ->
     Forall (fun o => out_phase o = BURN_BOOST /\ out_rawFan o = 100 /\
                      out_damper o = LOW /\ out_finalFan o = 100)
            (Sketch.run_loop ins w0)).
Proof.
  intros now0 rom ins w0 seconds.
  assert (Hsec : 0 <= seconds <= 1800).
  { destruct (setup_invariant now0 rom) as (Hf & _).
    unfold settings_fixed in Hf. subst seconds w0. lia. }
  split; [exact Hsec|].
  assert (Hinit : burnState (sys_engine (Sketch.system w0)) <> BURN_SAFETY /\
                  boostActive (sys_engine (Sketch.system w0)) = true /\
                  boostStartMs (sys_engine (Sketch.system w0)) = now0 /\
                  boostTimeSeconds (sys_config (Sketch.system w0)) = seconds).
  { subst w0 seconds. cbn. repeat split. discriminate. }
  clearbody seconds. revert Hinit. generalize w0. clear w0.
  induction ins as [|i rest IH]; intros w (Hs & Hb & Hst & Hbt) Hall.
  - constructor.
  - apply Forall_cons_iff in Hall. destruct Hall as [[Hlt Hq] Hrest].
    assert (Hd : boost_duration_ms (sys_config (Sketch.system w))
                 = boostTimeSeconds (sys_config (Sketch.system w)) * 1000).
    { apply boost_duration_ms_small. lia. }
    assert (Hlt' : ulong_sub (Sketch.now_engine i)
                             (boostStartMs (sys_engine (Sketch.system w)))
                   < boost_duration_ms (sys_config (Sketch.system w)))
      by (rewrite Hd, Hst, Hbt; exact Hlt).
    destruct (loop_in_boost i w Hs Hb Hlt' Hq)
      as (Ho & Hc' & Hs' & Hb' & Hst').
    cbn [Sketch.run_loop]. constructor; [exact Ho|].
    apply IH; [|exact Hrest].
    split; [exact Hs'|]. split; [exact Hb'|].
    split; [congruence|]. rewrite Hc'. exact Hbt.
Qed.

Lemma power_on_boost_witness :
  let i := Sketch.mkLoopInput (mkSpiFrame 9 96 0 0) (fun _ _ => false)
                              29999 29999 29999 29999 in
  Forall (fun o => out_phase o = BURN_BOOST /\ out_rawFan o = 100 /\
                   out_damper o = LOW /\ out_finalFan o = 100)
         (Sketch.run_loop [i] (Sketch.setup 0 (fun _ => 255))).
Proof.
  cbv zeta.
  destruct (power_on_boost 0 (fun _ => 255)
              [Sketch.mkLoopInput (mkSpiFrame 9 96 0 0) (fun _ _ => false)
                                  29999 29999 29999 29999]) as (_ & H).
  apply H. constructor; [|constructor].
  split; [vm_compute; reflexivity | right; reflexivity].
Defined.

Lemma phase_and_damper_policy_witness :
  let g := mkEngine BURN_IDLE false 0 false 0 false 0 false 0 LOW in
  let g' := fst (burnengine_compute default_config 1000 (d_of_int 300) g) in
  burnState g' = BURN_IDLE /\ damperRelay g' = HIGH.
Proof.
  cbv zeta.
  destruct (phase_and_damper_policy default_config 1000 (d_of_int 300)
              (mkEngine BURN_IDLE false 0 false 0 false 0 false 0 LOW))
    as (_ & _ & _ & H4).
  assert (Hi : burnState
                 (fst (burnengine_compute default_config 1000 (d_of_int 300)
                         (mkEngine BURN_IDLE false 0 false 0 false 0 false 0 LOW)))
               = BURN_IDLE) by (vm_compute; reflexivity).
  split; [exact Hi|]. apply H4. left. exact Hi.
Defined.

Lemma smoothing_skips_invalid_readings_witness :
  smoothExhaustF NAN (d_of_int 300) = d_of_int 300 /\
  smoothExhaustF (d_of_int 300) NAN = d_of_int 300 /\
  run_smooth [NAN; NAN] (d_of_int 300) = d_of_int 300.
Proof.
  destruct (smoothing_skips_invalid_readings [NAN; NAN] (d_of_int 300))
    as (_ & H2 & _ & H4).
  destruct (smoothing_skips_invalid_readings [] NAN) as (_ & _ & H3 & _).
  split; [apply H2; reflexivity|]. split.
  - apply H3; reflexivity.
  - apply H4. repeat constructor.
Defined.

Lemma scan_returns_last_pressed_key_witness :
  let low := fun (r c : nat) => (Nat.eqb r 1 && Nat.eqb c 1)%bool in
  scanKeypad low = "5"%char.
Proof.
  cbv zeta.
  destruct (scan_returns_last_pressed_key
              (fun (r c : nat) => (Nat.eqb r 1 && Nat.eqb c 1)%bool))
    as (H1 & _ & _).
  apply (H1 1%nat 1%nat); try lia; try reflexivity.
  intros r' c' Hr Hc Ha. unfold scanned_after in Ha.
  destruct r' as [|[|[|[|]]]]; try lia;
    destruct c' as [|[|[|[|]]]]; try lia; reflexivity.
Defined.

Lemma setpoint_entry_witness :
  let s := mkSystem default_config (fun _ => 0)
                    (mkEngine BURN_HOLD false 0 false 0 false 0 false 0 LOW) in
  let digits := [(10, "4"); (20, "2"); (30, "5")]%char in
  let r := run_presses ((0, "A"%char) :: digits ++ [(40, "#"%char)])
                       (initial_screen, s) in
  toInt (map snd digits) = 425 /\
  uiState (fst r) = UI_HOME /\
  exhaustSetpoint (sys_config (snd r)) = 425.
Proof.
  cbv zeta.
  destruct (setpoint_entry 0 40 [(10, "4"); (20, "2"); (30, "5")]%char
              initial_screen
              (mkSystem default_config (fun _ => 0)
                 (mkEngine BURN_HOLD false 0 false 0 false 0 false 0 LOW)))
    as (H1 & _ & H3 & _).
  - reflexivity.
  - discriminate.
  - simpl. lia.
  - repeat constructor.
  - split; [reflexivity|]. split; [exact H1|]. rewrite H3. reflexivity.
Defined.

(* ================================================================== *)
(** * The boost window across the clock rollover                        *)
(* ================================================================== *)

Lemma ulong_sub_elapsed (start d : Z) :
  0 <= start < ULONG_MODULUS -> 0 <= d < ULONG_MODULUS ->
  ulong_sub (to_ulong (start + d)) start = d.
Proof.
  unfold ulong_sub, to_ulong, ULONG_MODULUS. intros Hs Hd.
  rewrite Zminus_mod_idemp_l.
  replace (start + d - start) with d by lia.
  apply Z.mod_small. exact Hd.
Qed.

(** X26.  The boost window is measured on the 32-bit millisecond clock and
    is not disturbed by its rollover: for a window opened at any clock value
    and a tick [d] milliseconds later ([d] below 2^32, the clock read modulo
    2^32), the elapsed time computed is [d]; the tick shows BOOST, demand 100
    and the damper open when [d] is below the boost duration, and closes the
    window and leaves BOOST otherwise. *)
Theorem boost_window_across_rollover :
  forall (cfg : Config) (t : double) (g : Engine) (d : Z),
    burnState g <> BURN_SAFETY -> boostActive g = true ->
    0 <= boostStartMs g < ULONG_MODULUS -> 0 <= d < ULONG_MODULUS ->
    let now := to_ulong (boostStartMs g + d) in
    let r := burnengine_compute cfg now t g in
    ulong_sub now (boostStartMs g) = d /\
    (d < boost_duration_ms cfg ->
       burnState (fst r) = BURN_BOOST /\ snd r = 100 /\
       damperRelay (fst r) = LOW /\ boostActive (fst r) = true) /\
    (boost_duration_ms cfg <= d ->
       boostActive (fst r) = false /\ burnState (fst r) <> BURN_BOOST).
Proof.
  intros cfg t g d Hs Hb Hst Hd now r.
  assert (He : ulong_sub now (boostStartMs g) = d)
    by (apply ulong_sub_elapsed; assumption).
  split; [exact He|]. split.
  - intros Hlt. subst r.
    rewrite (boost_tick_open cfg now t g Hs Hb ltac:(rewrite He; exact Hlt)).
    cbn. repeat split. exact Hb.
  - intros Hge. subst r.
    rewrite (boost_tick_expired cfg now t g Hs Hb ltac:(rewrite He; exact Hge)).
    destruct (after_boost_from_ramp cfg now t
                (set_burnState BURN_RAMP (set_boostActive false g)) eq_refl)
      as (H1 & H2 & _).
    split; [rewrite H1; reflexivity | exact H2].
Qed.

Lemma boost_window_across_rollover_witness :
  let g := burnengine_init 4294960000 Sketch.initial_engine in
  to_ulong (4294960000 + 29999) = 22703 /\
  burnState (fst (burnengine_compute default_config 22703 (d_of_int 700) g))
    = BURN_BOOST /\
  boostActive (fst (burnengine_compute default_config 22704 (d_of_int 700) g))
    = false.
Proof.
  cbv zeta.
  assert (Hs : burnState (burnengine_init 4294960000 Sketch.initial_engine)
               <> BURN_SAFETY) by discriminate.
  assert (Hst : 0 <= boostStartMs
                       (burnengine_init 4294960000 Sketch.initial_engine)
                < ULONG_MODULUS) by (vm_compute; split; congruence).
  assert (Hd1 : 0 <= 29999 < ULONG_MODULUS) by (vm_compute; split; congruence).
  assert (Hd2 : 0 <= 30000 < ULONG_MODULUS) by (vm_compute; split; congruence).
  destruct (boost_window_across_rollover default_config (d_of_int 700)
              (burnengine_init 4294960000 Sketch.initial_engine) 29999
              Hs eq_refl Hst Hd1) as (_ & H1 & _).
  destruct (boost_window_across_rollover default_config (d_of_int 700)
              (burnengine_init 4294960000 Sketch.initial_engine) 30000
              Hs eq_refl Hst Hd2) as (_ & _ & H2).
  split; [reflexivity|]. split.
  - apply H1. vm_compute. reflexivity.
  - apply H2. vm_compute. discriminate.
Defined.

(* ================================================================== *)
(** * Waking the coal-bed saver from the keypad                         *)
(* ================================================================== *)

(** X27.  While the phase is COALBED, the '*' key on any screen returns to
    the home screen and re-initialises the burn engine, leaving the settings,
    the EEPROM and the edit texts alone; with a boost time within the
    [int16_t] range, every control tick of a following run that stays within
    the boost time of the key press shows BOOST, demand 100, the damper open
    and the final fan at 100. *)
Theorem coalbed_star_restarts_boost :
  forall (now : Z) (u : Screen) (s : System),
    burnState (sys_engine s) = BURN_COALBED ->
    let r := ui_handleKey now "*" u s in
    fst r = set_uiState UI_HOME (set_uiNeedRedraw true u) /\
    sys_config (snd r) = sys_config s /\
    sys_eeprom (snd r) = sys_eeprom s /\
    sys_engine (snd r) = burnengine_init now (sys_engine s) /\
    (0 <= boostTimeSeconds (sys_config s) <= 32767 ->
     forall (ins : list (Z * double)) (m : FanMem),
       Forall (fun i => ulong_sub (fst i) now
                        < boostTimeSeconds (sys_config s) * 1000) ins ->
       Forall (fun o => out_phase o = BURN_BOOST /\ out_rawFan o = 100 /\
                        out_damper o = LOW /\ out_finalFan o = 100)
              (run_ticks (sys_config s) ins (sys_engine (snd r), m))).
Proof.
  intros now u s Hc r. subst r. unfold ui_handleKey.
  cbn [Ascii.eqb Bool.eqb andb]. rewrite Hc. cbn [BurnState_eqb andb fst snd].
  cbn [sys_config sys_eeprom sys_engine].
  split; [reflexivity|]. split; [reflexivity|]. split; [reflexivity|].
  split; [reflexivity|].
  intros Hbt ins m Hall.
  apply boost_run.
  - cbn. discriminate.
  - reflexivity.
  - rewrite (boost_duration_ms_small _ Hbt). exact Hall.
Qed.

Lemma coalbed_star_restarts_boost_witness :
  let s := mkSystem default_config (fun _ => 0)
             (mkEngine BURN_COALBED false 0 false 0 false 0 false 0 LOW) in
  let r := ui_handleKey 70000 "*" (set_uiState UI_FLUE_LOW initial_screen) s in
  uiState (fst r) = UI_HOME /\
  Forall (fun o => out_phase o = BURN_BOOST /\ out_rawFan o = 100 /\
                   out_damper o = LOW /\ out_finalFan o = 100)
         (run_ticks default_config [(70001, d_of_int 120); (99999, NAN)]
                    (sys_engine (snd r), fancontrol_init BURN_COALBED)).
Proof.
  cbv zeta.
  destruct (coalbed_star_restarts_boost 70000
              (set_uiState UI_FLUE_LOW initial_screen)
              (mkSystem default_config (fun _ => 0)
                 (mkEngine BURN_COALBED false 0 false 0 false 0 false 0 LOW))
              eq_refl) as (H1 & _ & _ & _ & H5).
  split; [rewrite H1; reflexivity|].
  apply H5.
  - simpl. lia.
  - repeat constructor; vm_compute; reflexivity.
Defined.
